(** * TalentScout AI Hiring Assistant: the conversation stage machine

    A shallow embedding of the Python sources [config.py] (configuration and
    [ConversationManager]) and [llm_integration.py] (Gemini client, question
    generation, privacy helpers, question bank and validators), followed by
    the properties of the stage machine, the question supplier, the
    text-generation adapter and the validators.

    Conventions of the embedding.
    - A Python [str] is a [string]: a sequence of 8-bit characters.  Case
      mapping, whitespace and digit classes are those of ASCII text (Python's
      [str.isspace] is true of [\t \n \v \f \r], [\x1c]..[\x1f] and the space
      among the first 128 code points); a character above 127 is left alone by
      [lower]/[upper] and is neither a space nor a digit.  The one non-ASCII
      character the sources name, the bullet U+2022, is its three UTF-8 bytes.
    - Session state ([st.session_state]) is an explicit record passed in and
      out of every handler; the outside world (the generative backend, the
      random source, the audit log, the sleeps of the retry loop) is a second
      record threaded the same way.
    - A Python [dict] whose iteration order is observed
      ([technical_questions]) is an association list with Python's
      update-in-place/append discipline; [candidate_data], a dict with six
      fixed keys of different value types, is a record of optional fields
      ([None]: the key is absent); [answers], keyed by computed strings, is a
      [gmap]. *)

From Stdlib Require Import ZArith QArith Ascii String DecimalString DecimalNat Sorted.
From stdpp Require Import gmap strings list.

Local Open Scope nat_scope.

(** ** Python string primitives *)

Module PyStr.

Definition chars (s : string) : list ascii := String.list_ascii_of_string s.
Definition text (l : list ascii) : string := String.string_of_list_ascii l.

Definition code (c : ascii) : nat := nat_of_ascii c.

(** [c.isdigit()] on ASCII text. *)
Definition isdigit (c : ascii) : bool :=
  (48 <=? code c) && (code c <=? 57).

(** [c.isspace()] on ASCII text. *)
Definition isspace (c : ascii) : bool :=
  ((9 <=? code c) && (code c <=? 13))
  || ((28 <=? code c) && (code c <=? 32)).

Definition isupper (c : ascii) : bool := (65 <=? code c) && (code c <=? 90).
Definition islower (c : ascii) : bool := (97 <=? code c) && (code c <=? 122).
Definition isalpha (c : ascii) : bool := isupper c || islower c.

Definition lower_char (c : ascii) : ascii :=
  if isupper c then ascii_of_nat (code c + 32) else c.
Definition upper_char (c : ascii) : ascii :=
  if islower c then ascii_of_nat (code c - 32) else c.

(** [s.lower()], [s.upper()] *)
Definition lower (s : string) : string := text (map lower_char (chars s)).
Definition upper (s : string) : string := text (map upper_char (chars s)).

(** [s.lstrip()], [s.rstrip()], [s.strip()] *)
Fixpoint lstrip_list (l : list ascii) : list ascii :=
  match l with
  | c :: l' => if isspace c then lstrip_list l' else l
  | [] => []
  end.
Definition rstrip_list (l : list ascii) : list ascii :=
  rev (lstrip_list (rev l)).
Definition strip_list (l : list ascii) : list ascii :=
  rstrip_list (lstrip_list l).
Definition strip (s : string) : string := text (strip_list (chars s)).

(** [s.startswith(p)] *)
Fixpoint startswith_list (p l : list ascii) : bool :=
  match p, l with
  | [], _ => true
  | a :: p', b :: l' => if decide (a = b) then startswith_list p' l' else false
  | _ :: _, [] => false
  end.

(** [sub in s] *)
Fixpoint contains_list (sub l : list ascii) : bool :=
  startswith_list sub l
  || match l with
     | [] => false
     | _ :: l' => contains_list sub l'
     end.
Definition contains (sub s : string) : bool :=
  contains_list (chars sub) (chars s).

(** [x in xs] for a list of strings *)
Definition mem (x : string) (xs : list string) : bool :=
  bool_decide (x ∈ xs).

(** [re.split(r'[...]', s)] for a one-character class, and [s.split(c)]:
    the maximal separator-free pieces, in order; always at least one. *)
Fixpoint split_list (sep : ascii -> bool) (cur : list ascii) (l : list ascii)
  : list (list ascii) :=
  match l with
  | [] => [rev cur]
  | c :: l' =>
      if sep c then rev cur :: split_list sep [] l'
      else split_list sep (c :: cur) l'
  end.
Definition split_on (sep : ascii -> bool) (s : string) : list string :=
  map text (split_list sep [] (chars s)).

(** [not s]: the empty string is the only falsy string. *)
Definition falsy (s : string) : bool :=
  match s with EmptyString => true | String _ _ => false end.

(** [", ".join(xs)] and friends *)
Fixpoint join (sep : string) (xs : list string) : string :=
  match xs with
  | [] => ""
  | [x] => x
  | x :: xs' => x +:+ sep +:+ join sep xs'
  end.

Definition LF : ascii := ascii_of_nat 10.
Definition nl : string := String LF EmptyString.

(** [str(n)] for a non-negative [int] *)
Definition str_of_nat (n : nat) : string :=
  NilZero.string_of_uint (Nat.to_uint n).

End PyStr.

(** ** [config.py]: configuration *)

(** The values of [STAGES], in the order the conversation visits them. *)
Inductive Stage :=
| GREETING | CONSENT | INFO_COLLECTION | TECH_ASSESSMENT
| TECHNICAL_QUESTIONS | COMPLETION.

Definition EXIT_KEYWORDS : list string :=
  ["exit"; "quit"; "bye"; "goodbye"; "stop"; "end"; "finish";
   "no thanks"; "not interested"; "cancel"].

(** [SYSTEM_PROMPTS["TECHNICAL_QUESTION_GENERATOR"].format(...)]; [years] is
    the text Python prints for the float. *)
Definition TECHNICAL_QUESTION_GENERATOR
  (num_questions technology experience_level years : string) : string :=
  "You are an expert technical interviewer for a hiring company called TalentScout. "
  +:+ PyStr.nl +:+
  "    Generate " +:+ num_questions +:+
  " relevant, practical technical questions for a candidate with experience in "
  +:+ technology +:+ "." +:+ PyStr.nl +:+
  "    " +:+ PyStr.nl +:+
  "    Questions should be:" +:+ PyStr.nl +:+
  "    - Appropriate for " +:+ experience_level +:+ " level (" +:+ years
  +:+ " years experience)" +:+ PyStr.nl +:+
  "    - Focused on real-world application, not just theory" +:+ PyStr.nl +:+
  "    - Clear and specific" +:+ PyStr.nl +:+
  "    - Progressively challenging" +:+ PyStr.nl +:+
  "    " +:+ PyStr.nl +:+
  "    Return only the questions, numbered 1-" +:+ num_questions
  +:+ ", without additional commentary.".

(** [SYSTEM_PROMPTS["RESPONSE_EVALUATOR"].format(...)] *)
Definition RESPONSE_EVALUATOR (question technology answer : string) : string :=
  "You are an expert technical interviewer evaluating a candidate's response."
  +:+ PyStr.nl +:+
  "    " +:+ PyStr.nl +:+
  "    Question: " +:+ question +:+ PyStr.nl +:+
  "    Technology: " +:+ technology +:+ PyStr.nl +:+
  "    Candidate's Answer: " +:+ answer +:+ PyStr.nl +:+
  "    " +:+ PyStr.nl +:+
  "    Provide a brief, encouraging follow-up response (2-3 sentences) that:"
  +:+ PyStr.nl +:+
  "    - Acknowledges their answer professionally" +:+ PyStr.nl +:+
  "    - Shows you understand their response" +:+ PyStr.nl +:+
  "    - Maintains a positive, supportive tone" +:+ PyStr.nl +:+
  "    - Does NOT reveal if the answer is correct or incorrect" +:+ PyStr.nl +:+
  "    " +:+ PyStr.nl +:+
  "    Keep it conversational and encouraging.".

(** ** Python's [float]

    A float is NaN, an infinity, or a finite binary64 number, kept as the
    rational it denotes (the sign of a zero is dropped: no comparison
    observes it).  [float(s)] follows the grammar of the language reference:
    surrounding whitespace, an optional sign, then [inf], [infinity] or [nan]
    in any case, or a decimal number with optional fraction and exponent whose
    digit groups may be joined by single underscores; the value is rounded to
    the nearest binary64 number. *)
Inductive pyfloat :=
| FNaN
| FInf (negative : bool)
| FNum (q : Q).

Module PyFloat.

(** [a / b] rounded to the nearest integer, ties to even ([0 <= a], [0 < b]). *)
Definition round_half_even (a b : Z) : Z :=
  let q := (a / b)%Z in
  match (2 * (a mod b) ?= b)%Z with
  | Lt => q
  | Gt => (q + 1)%Z
  | Eq => if Z.even q then q else (q + 1)%Z
  end.

(** The fraction [(n/d) / 2^e]. *)
Definition scaled (n d e : Z) : Z * Z :=
  if (0 <=? e)%Z then (n, (d * 2 ^ e)%Z) else ((n * 2 ^ (- e))%Z, d).

(** [floor (log2 (n/d))] for positive [n], [d]. *)
Definition binade (n d : Z) : Z :=
  let e := (Z.log2 n - Z.log2 d)%Z in
  let '(n', d') := scaled n d e in
  if (d' <=? n')%Z then e else (e - 1)%Z.

(** IEEE 754 binary64 round-to-nearest-even of [±n/d] ([0 <= n], [0 < d]):
    53 significant bits, least exponent [-1074], overflow to infinity. *)
Definition round_binary64 (negative : bool) (n d : Z) : pyfloat :=
  if (n =? 0)%Z then FNum 0
  else
    let ue := Z.max (binade n d - 52) (-1074) in
    let '(n', d') := scaled n d ue in
    let m := round_half_even n' d' in
    if (0 <=? ue)%Z && (2 ^ 1024 <=? m * 2 ^ ue)%Z then FInf negative
    else
      let mag := if (0 <=? ue)%Z then inject_Z (m * 2 ^ ue)
                 else Qred (Qmake m (Z.to_pos (2 ^ (- ue)))) in
      FNum (if negative then Qopp mag else mag).

(** [years < 0], [years < c] and [years > c] for a float and a constant that
    binary64 represents exactly; every comparison with NaN is false. *)
Definition ltb (x : pyfloat) (c : Q) : bool :=
  match x with
  | FNaN => false
  | FInf negative => negative
  | FNum q => negb (Qle_bool c q)
  end.
Definition gtb (x : pyfloat) (c : Q) : bool :=
  match x with
  | FNaN => false
  | FInf negative => negb negative
  | FNum q => negb (Qle_bool q c)
  end.

(** *** [float(s)]: the lexical grammar of a float literal given as text *)

Definition is_digit_or_us (c : ascii) : bool :=
  PyStr.isdigit c || bool_decide (c = "_"%char).

Fixpoint span (p : ascii -> bool) (l : list ascii) : list ascii * list ascii :=
  match l with
  | c :: l' => if p c then let '(a, b) := span p l' in (c :: a, b) else ([], l)
  | [] => ([], [])
  end.

(** Underscores may only sit between two digits. *)
Fixpoint no_double_us (l : list ascii) : bool :=
  match l with
  | a :: ((b :: _) as l') =>
      negb (bool_decide (a = "_"%char) && bool_decide (b = "_"%char))
      && no_double_us l'
  | _ => true
  end.
Definition digitpart_ok (l : list ascii) : bool :=
  match l, rev l with
  | a :: _, z :: _ => PyStr.isdigit a && PyStr.isdigit z && no_double_us l
  | _, _ => false
  end.

Definition digit_value (c : ascii) : Z := Z.of_nat (PyStr.code c - 48).
Definition digits_of (l : list ascii) : list ascii := filter (fun c => PyStr.isdigit c = true) l.
Definition number_of (ds : list ascii) : Z :=
  fold_left (fun acc c => (10 * acc + digit_value c)%Z) ds 0%Z.

(** The exponent part: [e], optional sign, digits; to the end of the text. *)
Definition parse_exponent (l : list ascii) : option Z :=
  match l with
  | [] => Some 0%Z
  | c :: l' =>
      if bool_decide (PyStr.lower_char c = "e"%char) then
        let '(negative, l'') :=
          match l' with
          | "-"%char :: r => (true, r)
          | "+"%char :: r => (false, r)
          | _ => (false, l')
          end in
        let '(ds, rest) := span is_digit_or_us l'' in
        if digitpart_ok ds && bool_decide (rest = []) then
          Some (if negative then (- number_of (digits_of ds))%Z
                else number_of (digits_of ds))
        else None
      else None
  end.

(** An unsigned decimal number: digits, optional fraction, optional exponent. *)
Definition parse_decimal (negative : bool) (l : list ascii) : option pyfloat :=
  let '(ip, rest) := span is_digit_or_us l in
  let '(fp, rest') :=
    match rest with
    | "."%char :: r => span is_digit_or_us r
    | _ => ([], rest)
    end in
  let ip_ok := digitpart_ok ip in
  let fp_ok := digitpart_ok fp in
  let shape_ok :=
    (ip_ok || bool_decide (ip = [])) && (fp_ok || bool_decide (fp = []))
    && (ip_ok || fp_ok) in
  if shape_ok then
    match parse_exponent rest' with
    | Some e =>
        let fd := digits_of fp in
        let mant := number_of (digits_of ip ++ fd) in
        let e' := (e - Z.of_nat (length fd))%Z in
        Some (if (0 <=? e')%Z then round_binary64 negative (mant * 10 ^ e') 1
              else round_binary64 negative mant (10 ^ (- e')))
    | None => None
    end
  else None.

(** [float(s)]; [None] is [ValueError]. *)
Definition float (s : string) : option pyfloat :=
  let l := PyStr.strip_list (PyStr.chars s) in
  let '(negative, body) :=
    match l with
    | "-"%char :: r => (true, r)
    | "+"%char :: r => (false, r)
    | _ => (false, l)
    end in
  let word := PyStr.text (map PyStr.lower_char body) in
  if bool_decide (word = "inf") || bool_decide (word = "infinity")
  then Some (FInf negative)
  else if bool_decide (word = "nan") then Some FNaN
  else parse_decimal negative body.

End PyFloat.

(** ** [validation.py] *)

(** [re.sub(r'\D', '', phone)] *)
Definition digits_only (s : string) : string :=
  PyStr.text (filter (fun c => PyStr.isdigit c = true) (PyStr.chars s)).

(** One character of the class [[a-zA-Z\s\-\.\']]. *)
Definition name_char (c : ascii) : bool :=
  PyStr.isalpha c || PyStr.isspace c
  || bool_decide (c = "-"%char) || bool_decide (c = "."%char)
  || bool_decide (c = "'"%char).

(** [re.match(r'^[a-zA-Z\s\-\.\']+$', s)] on a stripped string *)
Definition name_pattern (s : string) : bool :=
  negb (PyStr.falsy s) && forallb name_char (PyStr.chars s).

Definition validate_phone (phone : string) : bool * string :=
  if PyStr.falsy phone then (false, "Phone number is required")
  else
    let cleaned_phone := digits_only phone in
    if String.length cleaned_phone <? 10
    then (false, "Phone number must be at least 10 digits")
    else if 15 <? String.length cleaned_phone
    then (false, "Phone number is too long")
    else (true, "").

Definition validate_name (name : string) : bool * string :=
  if PyStr.falsy name || PyStr.falsy (PyStr.strip name)
  then (false, "Name is required")
  else if String.length (PyStr.strip name) <? 2
  then (false, "Name must be at least 2 characters long")
  else if negb (name_pattern (PyStr.strip name))
  then (false, "Name contains invalid characters")
  else (true, "").

Definition validate_experience (experience : string) : bool * string :=
  if PyStr.falsy experience then (false, "Years of experience is required")
  else
    match PyFloat.float experience with
    | Some years =>
        if PyFloat.ltb years 0 then (false, "Years of experience cannot be negative")
        else if PyFloat.gtb years 50 then (false, "Years of experience seems too high")
        else (true, "")
    | None => (false, "Please enter a valid number for years of experience")
    end.

(** The characters [sanitize_input] removes: angle brackets, both quote
    marks (codes 34 and 39), the semicolon and the backslash (code 92). *)
Definition dangerous (c : ascii) : bool :=
  bool_decide (c = "<"%char) || bool_decide (c = ">"%char)
  || bool_decide (c = ascii_of_nat 34) || bool_decide (c = "'"%char)
  || bool_decide (c = ";"%char) || bool_decide (c = ascii_of_nat 92).

Definition sanitize_input (text : string) : string :=
  if PyStr.falsy text then ""
  else
    let sanitized := filter (fun c => dangerous c = false) (PyStr.chars text) in
    PyStr.text (PyStr.strip_list (take 500 sanitized)).

(** The separators of [re.split(r'[,;|\n]', ...)]. *)
Definition tech_separator (c : ascii) : bool :=
  bool_decide (c = ","%char) || bool_decide (c = ";"%char)
  || bool_decide (c = "|"%char) || bool_decide (c = PyStr.LF).

(** [[tech.strip() for tech in re.split(r'[,;|\n]', s) if tech.strip()]] *)
Definition split_techs (s : string) : list string :=
  map PyStr.strip
    (filter (fun tech => PyStr.falsy (PyStr.strip tech) = false)
       (PyStr.split_on tech_separator s)).

Definition validate_tech_stack (tech_stack : string) : bool * string :=
  if PyStr.falsy tech_stack || PyStr.falsy (PyStr.strip tech_stack)
  then (false, "Please enter at least one technology")
  else
    let techs := split_techs tech_stack in
    if length techs =? 0 then (false, "Please enter at least one technology")
    else if 10 <? length techs then (false, "Please limit to 10 technologies maximum")
    else (true, "").

(** ** The outside world

    What the program calls but does not define: the e-mail syntax check of the
    [validators] package, the Gemini model, Python's [random] and the text
    Python prints for a float. *)

(** One call of [model.generate_content(prompt)] followed by [response.text]:
    either an exception or the text (possibly empty). *)
Inductive outcome :=
| Raises
| Replies (text : string).

Record Env := {
  (** [validators.email] *)
  validators_email : string -> bool;
  (** [gemini_client.model]: [None] without an API key, else what the n-th
      call made in this process answers to a prompt *)
  gemini_model : option (nat -> string -> outcome);
  (** the index picked by the n-th draw of [random.choice] (taken modulo the
      length of the population) *)
  random_index : nat -> nat;
  (** the n-th draw of [random.sample(population, k)] *)
  random_sample : nat -> list string -> nat -> list string;
  (** [str(x)] for a float *)
  float_str : pyfloat -> string
}.

(** The effects the program has on the world, in the order they happen. *)
Record world := {
  (** number of [generate_content] calls made so far *)
  calls : nat;
  (** arguments of [time.sleep], oldest first *)
  sleeps : list nat;
  (** number of draws made from [random] so far *)
  draws : nat;
  (** [(session_id, interaction_type)] of every [log_interaction], oldest
      first (the payload is not kept) *)
  audit : list (string * string)
}.

Definition called (w : world) : world :=
  {| calls := S (calls w); sleeps := sleeps w; draws := draws w; audit := audit w |}.
Definition slept (seconds : nat) (w : world) : world :=
  {| calls := calls w; sleeps := sleeps w ++ [seconds]; draws := draws w; audit := audit w |}.
Definition drew (w : world) : world :=
  {| calls := calls w; sleeps := sleeps w; draws := S (draws w); audit := audit w |}.

(** [log_interaction(session_id, interaction_type, data)] *)
Definition log_interaction (session_id interaction_type : string) (w : world) : world :=
  {| calls := calls w; sleeps := sleeps w; draws := draws w;
     audit := audit w ++ [(session_id, interaction_type)] |}.

(** ** [conversation_manager.py]: session state *)

(** One entry of [candidate_data['answers']]. *)
Record answer := {
  question : string;
  given : string;       (* the key 'answer' *)
  technology : string
}.

(** [st.session_state.candidate_data]; a field is [None] while its key is
    absent from the dict. *)
Record candidate_data := {
  name : option string;
  email : option string;
  phone : option string;
  experience : option pyfloat;
  tech_stack : option (list string);
  answers : option (gmap string answer)
}.

Definition no_data : candidate_data :=
  {| name := None; email := None; phone := None; experience := None;
     tech_stack := None; answers := None |}.

Definition set_name (v : string) (cd : candidate_data) : candidate_data :=
  {| name := Some v; email := email cd; phone := phone cd;
     experience := experience cd; tech_stack := tech_stack cd; answers := answers cd |}.
Definition set_email (v : string) (cd : candidate_data) : candidate_data :=
  {| name := name cd; email := Some v; phone := phone cd;
     experience := experience cd; tech_stack := tech_stack cd; answers := answers cd |}.
Definition set_phone (v : string) (cd : candidate_data) : candidate_data :=
  {| name := name cd; email := email cd; phone := Some v;
     experience := experience cd; tech_stack := tech_stack cd; answers := answers cd |}.
Definition set_experience (v : pyfloat) (cd : candidate_data) : candidate_data :=
  {| name := name cd; email := email cd; phone := phone cd;
     experience := Some v; tech_stack := tech_stack cd; answers := answers cd |}.
Definition set_tech_stack (v : list string) (cd : candidate_data) : candidate_data :=
  {| name := name cd; email := email cd; phone := phone cd;
     experience := experience cd; tech_stack := Some v; answers := answers cd |}.
Definition set_answers (v : gmap string answer) (cd : candidate_data) : candidate_data :=
  {| name := name cd; email := email cd; phone := phone cd;
     experience := experience cd; tech_stack := tech_stack cd; answers := Some v |}.

Inductive role := user | assistant.

Record message := { msg_role : role; content : string }.

(** The keys of [st.session_state] the manager owns, and the session id. *)
Record session := {
  session_id : string;
  stage : Stage;
  candidate : candidate_data;
  messages : list message;
  current_question_index : nat;
  technical_questions : list (string * list string);
  consent_given : bool
}.

Definition with_stage (v : Stage) (s : session) : session :=
  {| session_id := session_id s; stage := v; candidate := candidate s;
     messages := messages s; current_question_index := current_question_index s;
     technical_questions := technical_questions s; consent_given := consent_given s |}.
Definition with_candidate (v : candidate_data) (s : session) : session :=
  {| session_id := session_id s; stage := stage s; candidate := v;
     messages := messages s; current_question_index := current_question_index s;
     technical_questions := technical_questions s; consent_given := consent_given s |}.
Definition with_messages (v : list message) (s : session) : session :=
  {| session_id := session_id s; stage := stage s; candidate := candidate s;
     messages := v; current_question_index := current_question_index s;
     technical_questions := technical_questions s; consent_given := consent_given s |}.
Definition with_index (v : nat) (s : session) : session :=
  {| session_id := session_id s; stage := stage s; candidate := candidate s;
     messages := messages s; current_question_index := v;
     technical_questions := technical_questions s; consent_given := consent_given s |}.
Definition with_questions (v : list (string * list string)) (s : session) : session :=
  {| session_id := session_id s; stage := stage s; candidate := candidate s;
     messages := messages s; current_question_index := current_question_index s;
     technical_questions := v; consent_given := consent_given s |}.
Definition with_consent (v : bool) (s : session) : session :=
  {| session_id := session_id s; stage := stage s; candidate := candidate s;
     messages := messages s; current_question_index := current_question_index s;
     technical_questions := technical_questions s; consent_given := v |}.

(** The state [ConversationManager.__init__] sets up in an empty
    [st.session_state], and the one a restart rebuilds. *)
Definition fresh (sid : string) : session :=
  {| session_id := sid; stage := GREETING; candidate := no_data; messages := [];
     current_question_index := 0; technical_questions := []; consent_given := false |}.

(** The text a handler returns, by the message it is; the values
    interpolated into the text are the constructor's arguments. *)
Inductive reply :=
| PleaseRespond          (* "Please provide a response to continue." *)
| Farewell               (* "Thank you for your interest in TalentScout! ... Have a great day!" *)
| Welcome                (* "Welcome to TalentScout AI Hiring Assistant! ..." *)
| ConsentEmpty           (* "Please type 'continue' to proceed or 'exit' to leave." *)
| PrivacyNotice          (* get_privacy_notice() + "Please type 'I consent' ..." *)
| ConsentAgain           (* "Please type 'continue' to proceed with the privacy notice, ..." *)
| ConsentRequired        (* "Please type 'I consent' to agree to our privacy policy ..." *)
| AskName                (* "Thank you for your consent! ... Please provide your full name:" *)
| NameRejected (error_msg : string)
| AskEmail               (* "Great! Now please provide your email address:" *)
| EmailRejected (error_msg : string)
| AskPhone               (* "Perfect! Now please provide your phone number:" *)
| PhoneRejected (error_msg : string)
| AskExperience          (* "Excellent! How many years of professional experience ..." *)
| ExperienceRejected (error_msg : string)
| AskTechStack           (* "Fantastic! Now let's talk about your technical skills. ..." *)
| TryAgain               (* "Something went wrong. Please try again." *)
| TechStackRejected (error_msg : string)
| QuestionsPrepared (tech_list : list string) (candidate_experience : pyfloat)
    (total_questions : nat)
| NoQuestions            (* "No technical questions available. Something went wrong." *)
| TypeReady              (* "Type 'ready' when you're prepared to start ..." *)
| AskQuestion (number total : nat) (tech_upper question : string)
                         (* "Question {number} of {total} ({tech_upper})" and the question *)
| Congratulations (cd : candidate_data)
| AssessmentCompleted    (* "Assessment completed! Type 'restart' to begin ..." *)
| PleaseRestart.         (* "Something went wrong. Please type 'restart' to begin again." *)

(** What a call does besides changing the state: return, or raise. *)
Inductive exn := StopException | IndexError | ValueError.
Inductive result (A : Type) :=
| Returns (a : A)
| Raised (e : exn).
Arguments Returns {A} a.
Arguments Raised {A} e.

(** ** [llm_integration.py]: [GeminiClient] *)

Definition fallback_questions : list string :=
  ["1. Describe a challenging project you've worked on and how you approached solving the technical problems.";
   "2. How do you ensure code quality and maintainability in your projects?";
   "3. Explain a time when you had to learn a new technology quickly. How did you approach it?"].

Definition _fallback_technical_questions : string :=
  PyStr.join PyStr.nl fallback_questions.

Definition fallback_evaluations : list string :=
  ["Thank you for that detailed explanation. Your experience shows good technical understanding.";
   "I appreciate your thorough response. That demonstrates solid problem-solving skills.";
   "Great answer! Your approach shows good technical thinking and practical experience."].

Definition generic_fallback : string :=
  "Thank you for your response. Let's continue with the next step.".

Section TalentScout.

Variable E : Env.

(** [random.choice(responses)] *)
Definition _fallback_evaluation (w : world) : string * world :=
  (nth (random_index E (draws w) mod length fallback_evaluations)
     fallback_evaluations "",
   drew w).

Definition _fallback_response (prompt : string) (w : world) : string * world :=
  if PyStr.contains "technical question" (PyStr.lower prompt)
  then (_fallback_technical_questions, w)
  else if PyStr.contains "evaluate" (PyStr.lower prompt)
          || PyStr.contains "response" (PyStr.lower prompt)
  then _fallback_evaluation w
  else (generic_fallback, w).

(** The body of [for attempt in range(max_retries)], from [attempt] on;
    [remaining] is the number of iterations left, [max_retries - attempt]. *)
Fixpoint retry_loop (generate_content : nat -> string -> outcome)
  (prompt : string) (max_retries remaining attempt : nat) (w : world)
  : string * world :=
  match remaining with
  | 0 => _fallback_response prompt w
  | S remaining' =>
      match generate_content (calls w) prompt with
      | Replies text =>
          if PyStr.falsy text
          then retry_loop generate_content prompt max_retries remaining'
                 (S attempt) (called w)
          else (PyStr.strip text, called w)
      | Raises =>
          if attempt =? max_retries - 1
          then _fallback_response prompt (called w)
          else retry_loop generate_content prompt max_retries remaining'
                 (S attempt) (slept (2 ^ attempt) (called w))
      end
  end.

Definition generate_response (prompt : string) (max_retries : nat) (w : world)
  : string * world :=
  match gemini_model E with
  | None => _fallback_response prompt w
  | Some generate_content =>
      retry_loop generate_content prompt max_retries max_retries 0 w
  end.

(** *** [generate_technical_questions] *)

(** The bullet U+2022 in UTF-8. *)
Definition bullet : list ascii :=
  [ascii_of_nat 226; ascii_of_nat 128; ascii_of_nat 162].

(** [s.lstrip('-•')] *)
Fixpoint lstrip_marks (l : list ascii) : list ascii :=
  match l with
  | "-"%char :: l' => lstrip_marks l'
  | a :: b :: c :: l' =>
      if bool_decide ([a; b; c] = bullet) then lstrip_marks l' else l
  | _ => l
  end.

(** [line.split('.', 1)[-1]]: what follows the first dot, or the whole line
    when it has none. *)
Fixpoint after_first_dot (l : list ascii) : option (list ascii) :=
  match l with
  | [] => None
  | c :: l' => if bool_decide (c = "."%char) then Some l' else after_first_dot l'
  end.

(** One line of the response: the question it holds, if any. *)
Definition parse_line (raw : string) : option string :=
  let line := PyStr.strip_list (PyStr.chars raw) in
  let marked :=
    match line with
    | c :: _ => PyStr.isdigit c || bool_decide (c = "-"%char)
                || PyStr.startswith_list bullet line
    | [] => false
    end in
  if marked then
    let question :=
      match after_first_dot line with
      | Some rest => PyStr.strip_list rest
      | None => line
      end in
    let question := PyStr.strip_list (lstrip_marks question) in
    match question with
    | [] => None
    | _ :: _ => Some (PyStr.text question)
    end
  else None.

Definition parse_questions (response : string) : list string :=
  omap parse_line (PyStr.split_on (fun c => bool_decide (c = PyStr.LF)) response).

Definition template_questions (technology : string) : list string :=
  ["What are the key features and benefits of " +:+ technology +:+ "?";
   "Describe a project where you used " +:+ technology +:+ " effectively.";
   "What challenges have you faced when working with " +:+ technology +:+ "?"].

Definition experience_level (experience_years : pyfloat) : string :=
  if PyFloat.ltb experience_years 2 then "junior"
  else if PyFloat.ltb experience_years 5 then "mid-level"
  else "senior".

Definition question_prompt (technology : string) (experience_years : pyfloat)
  (num_questions : nat) : string :=
  TECHNICAL_QUESTION_GENERATOR (PyStr.str_of_nat num_questions) technology
    (experience_level experience_years) (float_str E experience_years).

(** Padding and truncation of the parsed questions. *)
Definition ensure_count (technology : string) (num_questions : nat)
  (questions : list string) : list string :=
  let questions :=
    if length questions <? num_questions
    then questions
         ++ take (num_questions - length questions) (template_questions technology)
    else questions in
  take num_questions questions.

Definition generate_technical_questions (technology : string)
  (experience_years : pyfloat) (num_questions : nat) (w : world)
  : list string * world :=
  let '(response, w) :=
    generate_response (question_prompt technology experience_years num_questions) 3 w in
  (ensure_count technology num_questions (parse_questions response), w).

Definition evaluate_technical_response (question answer technology : string)
  (w : world) : string * world :=
  generate_response (RESPONSE_EVALUATOR question technology answer) 3 w.

(** ** [questions.py] *)

(** A [dict] with string keys whose iteration order is observed: [d.get(k)]
    and [d[k] = v] (in place when the key exists, appended otherwise). *)
Fixpoint dict_get {V} (k : string) (d : list (string * V)) : option V :=
  match d with
  | [] => None
  | (k', v) :: d' => if decide (k = k') then Some v else dict_get k d'
  end.
Fixpoint dict_set {V} (k : string) (v : V) (d : list (string * V))
  : list (string * V) :=
  match d with
  | [] => [(k, v)]
  | (k', v') :: d' =>
      if decide (k = k') then (k, v) :: d' else (k', v') :: dict_set k v d'
  end.

Definition FALLBACK_QUESTION_BANK : list (string * list string) :=
  [("react",
    ["What are React Hooks and how do they differ from class components?";
     "Explain the concept of Virtual DOM and its benefits.";
     "How do you handle state management in a large React application?";
     "What is the difference between controlled and uncontrolled components?";
     "How would you optimize the performance of a React application?"]);
   ("angular",
    ["What is dependency injection in Angular and why is it important?";
     "Explain the difference between Angular components and directives.";
     "How do you handle routing in Angular applications?";
     "What are Angular services and how do you create them?";
     "Describe the Angular component lifecycle hooks."]);
   ("vue",
    ["What is the Vue.js reactivity system and how does it work?";
     "Explain the difference between Vue 2 and Vue 3 Composition API.";
     "How do you handle component communication in Vue.js?";
     "What are Vue directives and can you create custom ones?";
     "How would you implement state management in a Vue application?"]);
   ("javascript",
    ["Explain the difference between let, const, and var in JavaScript.";
     "What are closures in JavaScript and provide an example?";
     "How does prototypal inheritance work in JavaScript?";
     "What is the event loop and how does it handle asynchronous operations?";
     "Explain the concept of hoisting in JavaScript."]);
   ("typescript",
    ["What are the main benefits of using TypeScript over JavaScript?";
     "Explain generics in TypeScript with an example.";
     "What is the difference between interface and type in TypeScript?";
     "How do you handle optional properties and null checks in TypeScript?";
     "What are decorators in TypeScript and how are they used?"]);
   ("python",
    ["What are Python decorators and how do you create custom ones?";
     "Explain the difference between lists and tuples in Python.";
     "How does Python's garbage collection work?";
     "What is the Global Interpreter Lock (GIL) in Python?";
     "How do you handle exceptions in Python applications?"]);
   ("java",
    ["Explain the concept of Object-Oriented Programming in Java.";
     "What is the difference between abstract classes and interfaces?";
     "How does garbage collection work in Java?";
     "What are Java Streams and how do you use them?";
     "Explain the concept of multithreading in Java."]);
   ("node",
    ["What is the event-driven architecture in Node.js?";
     "How do you handle asynchronous operations in Node.js?";
     "What is the difference between require() and import in Node.js?";
     "How do you manage memory leaks in Node.js applications?";
     "Explain the concept of middleware in Express.js."]);
   ("express",
    ["How do you implement authentication in Express.js?";
     "What are Express.js middleware functions and how do they work?";
     "How do you handle error handling in Express applications?";
     "What is the difference between app.use() and app.get() in Express?";
     "How do you implement rate limiting in Express.js?"]);
   ("mongodb",
    ["What is the difference between SQL and NoSQL databases?";
     "How do you design schemas in MongoDB?";
     "What are MongoDB aggregation pipelines?";
     "How do you handle indexing in MongoDB for performance?";
     "Explain the concept of sharding in MongoDB."]);
   ("mysql",
    ["What are the different types of JOINs in MySQL?";
     "How do you optimize MySQL queries for better performance?";
     "What is database normalization and why is it important?";
     "How do you handle transactions in MySQL?";
     "What are stored procedures and when would you use them?"]);
   ("postgresql",
    ["What are the advantages of PostgreSQL over other databases?";
     "How do you implement full-text search in PostgreSQL?";
     "What are PostgreSQL extensions and how do you use them?";
     "How do you handle JSON data in PostgreSQL?";
     "Explain the concept of ACID properties in PostgreSQL."]);
   ("aws",
    ["What are the core services of AWS and their use cases?";
     "How do you implement auto-scaling in AWS?";
     "What is the difference between EC2 and Lambda?";
     "How do you secure applications deployed on AWS?";
     "Explain the concept of Infrastructure as Code with AWS."]);
   ("docker",
    ["What is containerization and how does Docker implement it?";
     "How do you optimize Docker images for production?";
     "What is the difference between Docker images and containers?";
     "How do you handle data persistence in Docker containers?";
     "Explain Docker networking and how containers communicate."]);
   ("kubernetes",
    ["What are the core components of Kubernetes architecture?";
     "How do you deploy applications to Kubernetes clusters?";
     "What are Kubernetes pods and how do they work?";
     "How do you handle service discovery in Kubernetes?";
     "Explain the concept of Kubernetes namespaces."])].

Definition tech_mapping : list (string * string) :=
  [("js", "javascript"); ("ts", "typescript"); ("nodejs", "node");
   ("node.js", "node"); ("reactjs", "react"); ("react.js", "react");
   ("angularjs", "angular"); ("vuejs", "vue"); ("vue.js", "vue");
   ("mongo", "mongodb"); ("postgres", "postgresql"); ("k8s", "kubernetes");
   ("expressjs", "express"); ("express.js", "express")].

Definition normalize_tech_name (tech : string) : string :=
  let tech_lower := PyStr.strip (PyStr.lower tech) in
  default tech_lower (dict_get tech_lower tech_mapping).

Definition generic_questions (tech : string) : list string :=
  ["What are the key features and benefits of " +:+ tech +:+ "?";
   "How would you implement best practices when working with " +:+ tech +:+ "?";
   "What challenges have you faced while working with " +:+ tech
   +:+ " and how did you solve them?"].

Definition get_fallback_questions (tech : string) (max_questions : nat)
  (w : world) : list string * world :=
  match dict_get (normalize_tech_name tech) FALLBACK_QUESTION_BANK with
  | Some available_questions =>
      (random_sample E (draws w) available_questions
         (Nat.min (length available_questions) max_questions),
       drew w)
  | None => (take max_questions (generic_questions tech), w)
  end.

(** The loop of [generate_questions_for_tech_stack] over the technologies
    still to visit.  [generate_technical_questions] raises nothing in this
    embedding, so the [except] branch is not taken. *)
Fixpoint questions_loop (tech_stack : list string) (max_questions_per_tech : nat)
  (candidate_experience : pyfloat) (questions_by_tech : list (string * list string))
  (w : world) : list (string * list string) * world :=
  match tech_stack with
  | [] => (questions_by_tech, w)
  | tech :: rest =>
      let '(llm_questions, w) :=
        generate_technical_questions tech candidate_experience
          max_questions_per_tech w in
      let '(questions, w) :=
        if 0 <? length llm_questions then (llm_questions, w)
        else get_fallback_questions tech max_questions_per_tech w in
      questions_loop rest max_questions_per_tech candidate_experience
        (dict_set tech questions questions_by_tech) w
  end.

Definition generate_questions_for_tech_stack (tech_stack : list string)
  (max_questions_per_tech : nat) (candidate_experience : pyfloat) (w : world)
  : list (string * list string) * world :=
  questions_loop tech_stack max_questions_per_tech candidate_experience [] w.

(** ** [ConversationManager] *)

(** [validate_email] of [validation.py]; the syntax check is the package's. *)
Definition validate_email (email : string) : bool * string :=
  if PyStr.falsy email then (false, "Email is required")
  else if negb (validators_email E email)
  then (false, "Please enter a valid email address")
  else (true, "").

Definition add_message (r : role) (c : string) (s : session) : session :=
  with_messages (messages s ++ [{| msg_role := r; content := c |}]) s.

(** [handle_data_deletion_request]: logs, then [st.stop()] raises. *)
Definition handle_data_deletion_request (sid : string) (w : world)
  : result unit * world :=
  (Raised StopException, log_interaction sid "data_deletion_request" w).

Definition check_exit_intent (s : session) (user_input : string) (w : world)
  : result bool * world :=
  if PyStr.falsy user_input then (Returns false, w)
  else
    let user_input_lower := PyStr.strip (PyStr.lower user_input) in
    if PyStr.mem user_input_lower EXIT_KEYWORDS then (Returns true, w)
    else if existsb (fun keyword => PyStr.contains keyword user_input_lower)
              EXIT_KEYWORDS
    then (Returns true, w)
    else if PyStr.contains "delete my data" user_input_lower
            || PyStr.contains "delete data" user_input_lower
    then
      match handle_data_deletion_request (session_id s) w with
      | (Returns _, w) => (Returns true, w)
      | (Raised e, w) => (Raised e, w)
      end
    else (Returns false, w).

Definition handle_greeting_stage (s : session) : reply * session :=
  (Welcome, with_stage CONSENT s).

Definition handle_consent_stage (s : session) (user_input : string)
  : reply * session :=
  if PyStr.falsy user_input then (ConsentEmpty, s)
  else
    let user_input_lower := PyStr.strip (PyStr.lower user_input) in
    if PyStr.mem user_input_lower ["continue"; "proceed"; "next"; "yes"]
    then (PrivacyNotice, with_stage INFO_COLLECTION s)
    else (ConsentAgain, s).

Definition _collect_candidate_info (s : session) (user_input : string)
  : result reply * session :=
  let cd := candidate s in
  match name cd, email cd, phone cd, experience cd with
  | None, _, _, _ =>
      let '(is_valid, error_msg) := validate_name user_input in
      if negb is_valid then (Returns (NameRejected error_msg), s)
      else (Returns AskEmail,
            with_candidate (set_name (sanitize_input user_input) cd) s)
  | Some _, None, _, _ =>
      let '(is_valid, error_msg) := validate_email user_input in
      if negb is_valid then (Returns (EmailRejected error_msg), s)
      else (Returns AskPhone,
            with_candidate (set_email (sanitize_input user_input) cd) s)
  | Some _, Some _, None, _ =>
      let '(is_valid, error_msg) := validate_phone user_input in
      if negb is_valid then (Returns (PhoneRejected error_msg), s)
      else (Returns AskExperience,
            with_candidate (set_phone (sanitize_input user_input) cd) s)
  | Some _, Some _, Some _, None =>
      let '(is_valid, error_msg) := validate_experience user_input in
      if negb is_valid then (Returns (ExperienceRejected error_msg), s)
      else
        match PyFloat.float user_input with
        | Some years =>
            (Returns AskTechStack,
             with_stage TECH_ASSESSMENT
               (with_candidate (set_experience years cd) s))
        | None => (Raised ValueError, s)
        end
  | Some _, Some _, Some _, Some _ => (Returns TryAgain, s)
  end.

Definition handle_info_collection_stage (s : session) (user_input : string)
  (w : world) : result reply * session * world :=
  if negb (consent_given s) then
    if PyStr.mem (PyStr.strip (PyStr.lower user_input))
         ["i consent"; "consent"; "agree"; "i agree"]
    then (Returns AskName, with_consent true s,
          log_interaction (session_id s) "consent_given" w)
    else (Returns ConsentRequired, s, w)
  else
    let '(r, s) := _collect_candidate_info s user_input in (r, s, w).

Definition handle_tech_assessment_stage (s : session) (user_input : string)
  (w : world) : reply * session * world :=
  let '(is_valid, error_msg) := validate_tech_stack user_input in
  if negb is_valid then (TechStackRejected error_msg, s, w)
  else
    let tech_list := split_techs user_input in
    let s := with_candidate (set_tech_stack tech_list (candidate s)) s in
    let candidate_experience := default (FNum 2) (experience (candidate s)) in
    let '(questions_by_tech, w) :=
      generate_questions_for_tech_stack tech_list 3 candidate_experience w in
    let s := with_questions questions_by_tech s in
    let w := log_interaction (session_id s) "candidate_profile_complete" w in
    let s := with_stage TECHNICAL_QUESTIONS s in
    let total_questions :=
      list_sum (map (fun '(_, questions) => length questions) questions_by_tech) in
    (QuestionsPrepared tech_list candidate_experience total_questions, s, w).

(** The flat list of [(tech, question)] pairs, rebuilt on every call. *)
Definition all_questions_of (technical_questions : list (string * list string))
  : list (string * string) :=
  flat_map (fun '(tech, questions) => map (fun q => (tech, q)) questions)
    technical_questions.

(** The key [f"{prev_tech}_{current_index-1}"]. *)
Definition answer_key (prev_tech : string) (index : nat) : string :=
  prev_tech +:+ "_" +:+ PyStr.str_of_nat index.

Definition _complete_assessment (s : session) (w : world) : reply * world :=
  (Congratulations (candidate s),
   log_interaction (session_id s) "assessment_complete" w).

(** Storing and acknowledging the answer to the previous question.
    [generate_response] raises nothing in this embedding, so the [except]
    branch around the evaluation is not taken. *)
Definition store_answer (s : session) (user_input : string)
  (prev : string * string) (current_index : nat) (w : world) : session * world :=
  let '(prev_tech, prev_question) := prev in
  let cd := candidate s in
  let stored := default ∅ (answers cd) in
  let entry := {| question := prev_question;
                  given := sanitize_input user_input;
                  technology := prev_tech |} in
  let s :=
    with_candidate
      (set_answers (<[answer_key prev_tech (current_index - 1) := entry]> stored) cd)
      s in
  let '(evaluation_response, w) :=
    evaluate_technical_response prev_question user_input prev_tech w in
  (add_message assistant evaluation_response s, w).

Definition handle_technical_questions_stage (s : session) (user_input : string)
  (w : world) : result reply * session * world :=
  match technical_questions s with
  | [] => (Returns NoQuestions, s, w)
  | _ :: _ =>
      if (current_question_index s =? 0)
         && negb (PyStr.mem (PyStr.strip (PyStr.lower user_input))
                    ["ready"; "start"; "begin"; "yes"])
      then (Returns TypeReady, s, w)
      else
        let all_questions := all_questions_of (technical_questions s) in
        let current_index := current_question_index s in
        let stored :=
          if (0 <? current_index) && negb (PyStr.falsy (PyStr.strip user_input))
          then
            match all_questions !! (current_index - 1) with
            | Some prev => Returns (store_answer s user_input prev current_index w)
            | None => Raised IndexError
            end
          else Returns (s, w) in
        match stored with
        | Raised e => (Raised e, s, w)
        | Returns (s, w) =>
            if length all_questions <=? current_index then
              let s := with_stage COMPLETION s in
              let '(r, w) := _complete_assessment s w in
              (Returns r, s, w)
            else
              match all_questions !! current_index with
              | Some (tech, question) =>
                  (Returns (AskQuestion (current_index + 1) (length all_questions)
                              (PyStr.upper tech) question),
                   with_index (current_question_index s + 1) s, w)
              | None => (Raised IndexError, s, w)
              end
        end
  end.

Definition is_restart (user_input : string) : bool :=
  bool_decide (PyStr.strip (PyStr.lower user_input) = "restart").

Definition process_message (s : session) (user_input : string) (w : world)
  : result reply * session * world :=
  if PyStr.falsy user_input then (Returns PleaseRespond, s, w)
  else
    match check_exit_intent s user_input w with
    | (Raised e, w) => (Raised e, s, w)
    | (Returns true, w) => (Returns Farewell, s, w)
    | (Returns false, w) =>
        if is_restart user_input then
          let '(r, s) := handle_greeting_stage (fresh (session_id s)) in
          (Returns r, s, w)
        else
          match stage s with
          | GREETING =>
              let '(r, s) := handle_greeting_stage s in (Returns r, s, w)
          | CONSENT =>
              let '(r, s) := handle_consent_stage s user_input in (Returns r, s, w)
          | INFO_COLLECTION => handle_info_collection_stage s user_input w
          | TECH_ASSESSMENT =>
              let '(r, s, w) := handle_tech_assessment_stage s user_input w in
              (Returns r, s, w)
          | TECHNICAL_QUESTIONS => handle_technical_questions_stage s user_input w
          | COMPLETION => (Returns AssessmentCompleted, s, w)
          end
    end.

(** A conversation: the calls of [process_message] on successive inputs, each
    from the state the one before left (a call that raises leaves the state
    it had reached). *)
Fixpoint run (s : session) (w : world) (inputs : list string) : session * world :=
  match inputs with
  | [] => (s, w)
  | user_input :: rest =>
      let '(_, s, w) := process_message s user_input w in run s w rest
  end.

End TalentScout.

(** ** The rest of [llm_integration.py] and [privacy.py] *)

(** [SYSTEM_PROMPTS["CONVERSATION_ENHANCER"].format(...)] of [config.py] *)
Definition CONVERSATION_ENHANCER (context user_input stage : string) : string :=
  "You are a friendly, professional AI hiring assistant for TalentScout."
  +:+ PyStr.nl +:+
  "    " +:+ PyStr.nl +:+
  "    Context: " +:+ context +:+ PyStr.nl +:+
  "    User Input: " +:+ user_input +:+ PyStr.nl +:+
  "    Current Stage: " +:+ stage +:+ PyStr.nl +:+
  "    " +:+ PyStr.nl +:+
  "    Generate a natural, helpful response that:" +:+ PyStr.nl +:+
  "    - Maintains professional but friendly tone" +:+ PyStr.nl +:+
  "    - Guides the conversation forward appropriately" +:+ PyStr.nl +:+
  "    - Shows understanding of the hiring context" +:+ PyStr.nl +:+
  "    - Keeps responses concise (2-3 sentences max)" +:+ PyStr.nl +:+
  "    " +:+ PyStr.nl +:+
  "    Do not ask technical questions - that's handled separately.".

Definition enhance_conversation_response (E : Env)
  (context user_input stage : string) (w : world) : string * world :=
  generate_response E (CONVERSATION_ENHANCER context user_input stage) 3 w.

(** [get_all_supported_technologies] *)
Definition get_all_supported_technologies : list string :=
  map fst FALLBACK_QUESTION_BANK.

(** A value of the [safe_data] dict of [log_interaction]: the digest that
    stands for a sensitive value, or the value itself. *)
Inductive logged (V : Type) :=
| Hashed (digest : string)
| Plain (value : V).
Arguments Hashed {V} digest.
Arguments Plain {V} value.

Definition SENSITIVE_KEYS : list string := ["email"; "phone"; "name"].

(** The loop of [log_interaction] that builds [safe_data] from the items of
    [data], in their order.  [hash_sensitive_data] is SHA-256 of [hashlib],
    [str] Python's conversion to text: both are taken as given. *)
Definition safe_data {V} (hash_sensitive_data : string -> string)
  (str : V -> string) (data : list (string * V)) : list (string * logged V) :=
  fold_left
    (fun safe '(key, value) =>
       if PyStr.mem key SENSITIVE_KEYS
       then dict_set (key +:+ "_hash") (Hashed (hash_sensitive_data (str value))) safe
       else dict_set key (Plain value) safe)
    data [].

(** ** Sample worlds and sessions *)

Definition quiet : world :=
  {| calls := 0; sleeps := []; draws := 0; audit := [] |}.

(** No API key: the Gemini model was never built. *)
Definition offline : Env :=
  {| validators_email := fun email => PyStr.contains "@" email;
     gemini_model := None;
     random_index := fun n => n;
     random_sample := fun _ population k => take k population;
     float_str := fun _ => "2.0" |}.

(** A model that answers every prompt with a single numbered question. *)
Definition terse : Env :=
  {| validators_email := fun email => PyStr.contains "@" email;
     gemini_model := Some (fun _ _ => Replies "1. What is a monad?");
     random_index := fun n => n;
     random_sample := fun _ population k => take k population;
     float_str := fun _ => "2.0" |}.

(** A model behind a dead connection: every call raises. *)
Definition unreachable : Env :=
  {| validators_email := fun email => PyStr.contains "@" email;
     gemini_model := Some (fun _ _ => Raises);
     random_index := fun n => n;
     random_sample := fun _ population k => take k population;
     float_str := fun _ => "2.0" |}.

Definition ada : candidate_data :=
  {| name := Some "Ada Lovelace"; email := Some "ada@example.org";
     phone := Some "+44 20 7946 0958"; experience := Some (FNum 7);
     tech_stack := Some ["Python"]; answers := None |}.

(** A session in the technical-questions stage, at a given cursor. *)
Definition interview (questions : list (string * list string)) (cursor : nat)
  : session :=
  {| session_id := "5f2b9c01d3a4e6f7"; stage := TECHNICAL_QUESTIONS;
     candidate := ada; messages := []; current_question_index := cursor;
     technical_questions := questions; consent_given := true |}.

Definition one_question : list (string * list string) :=
  [("Python", ["How does Python's garbage collection work?"])].
Definition two_questions : list (string * list string) :=
  [("Python", ["How does Python's garbage collection work?";
               "What is the Global Interpreter Lock (GIL) in Python?"])].

(** A session that has consented and is being asked for its fields. *)
Definition collecting (cd : candidate_data) : session :=
  {| session_id := "5f2b9c01d3a4e6f7"; stage := INFO_COLLECTION;
     candidate := cd; messages := []; current_question_index := 0;
     technical_questions := []; consent_given := true |}.

(** What the candidate types after the e-mail address. *)
Definition followups : list string :=
  ["+44 20 7946 0958"; "7"; "Python, Erlang"; "ready"; "Reference counts."].

(** A session waiting for the technology list. *)
Definition assessing : session :=
  {| session_id := "5f2b9c01d3a4e6f7"; stage := TECH_ASSESSMENT;
     candidate := {| name := Some "Ada Lovelace"; email := Some "ada@example.org";
                     phone := Some "+44 20 7946 0958"; experience := Some (FNum 7);
                     tech_stack := None; answers := None |};
     messages := []; current_question_index := 0;
     technical_questions := []; consent_given := true |}.

(** ** The fixed order of the stages *)

Definition next_stage (st : Stage) : Stage :=
  match st with
  | GREETING => CONSENT
  | CONSENT => INFO_COLLECTION
  | INFO_COLLECTION => TECH_ASSESSMENT
  | TECH_ASSESSMENT => TECHNICAL_QUESTIONS
  | TECHNICAL_QUESTIONS => COMPLETION
  | COMPLETION => COMPLETION
  end.

Definition stage_rank (st : Stage) : nat :=
  match st with
  | GREETING => 0
  | CONSENT => 1
  | INFO_COLLECTION => 2
  | TECH_ASSESSMENT => 3
  | TECHNICAL_QUESTIONS => 4
  | COMPLETION => 5
  end.

(** ** Vocabulary of the properties *)

(** What the parser makes of the adapter's canned list. *)
Definition canned_questions : list string :=
  ["Describe a challenging project you've worked on and how you approached solving the technical problems.";
   "How do you ensure code quality and maintainability in your projects?";
   "Explain a time when you had to learn a new technology quickly. How did you approach it?"].

(** The canned answers of the adapter, by what the prompt mentions: the
    three-item question list, one of the acknowledgments, or the generic
    line. *)
Definition canned (prompt response : string) : Prop :=
  if PyStr.contains "technical question" (PyStr.lower prompt)
  then response = PyStr.join PyStr.nl fallback_questions
       /\ length fallback_questions = 3
  else if PyStr.contains "evaluate" (PyStr.lower prompt)
          || PyStr.contains "response" (PyStr.lower prompt)
  then response ∈ fallback_evaluations
  else response = "Thank you for your response. Let's continue with the next step.".

(** An attempt that gives the retry loop nothing to return. *)
Definition fruitless (o : outcome) : Prop := o = Raises \/ o = Replies "".

(** [split_techs], one token at a time. *)
Definition keep_tech (piece : list ascii) : option (list ascii) :=
  match PyStr.strip_list piece with
  | [] => None
  | c :: tech => Some (c :: tech)
  end.

(** The pieces occur in the text one after the other, without overlap. *)
Inductive in_order : list (list ascii) -> list ascii -> Prop :=
| in_order_nil l : in_order [] l
| in_order_cons p ps pre rest :
    in_order ps rest -> in_order (p :: ps) (pre ++ p ++ rest).

(** *** The information fields, read as the specification words them

    The specification describes [_collect_candidate_info] as a walk over the
    fields in the fixed order name, email, phone, experience: the first one
    absent from the record is validated and, on success, stored.  The
    definitions below follow those words; they are compared with the code's
    chain of presence tests in the properties. *)

Inductive info_field := Name | Email | Phone | Experience.

Definition info_order : list info_field := [Name; Email; Phone; Experience].

(** [key in candidate_data] *)
Definition has {A} (o : option A) : bool :=
  match o with Some _ => true | None => false end.

Definition present (f : info_field) (cd : candidate_data) : bool :=
  match f with
  | Name => has (name cd)
  | Email => has (email cd)
  | Phone => has (phone cd)
  | Experience => has (experience cd)
  end.

Definition first_absent (cd : candidate_data) : option info_field :=
  List.find (fun f => negb (present f cd)) info_order.

Definition validate_field (E : Env) (f : info_field) (user_input : string)
  : bool * string :=
  match f with
  | Name => validate_name user_input
  | Email => validate_email E user_input
  | Phone => validate_phone user_input
  | Experience => validate_experience user_input
  end.

(** The value stored for a field: the sanitized text, or the parsed number. *)
Definition store_field (f : info_field) (user_input : string)
  (cd : candidate_data) : candidate_data :=
  match f with
  | Name => set_name (sanitize_input user_input) cd
  | Email => set_email (sanitize_input user_input) cd
  | Phone => set_phone (sanitize_input user_input) cd
  | Experience =>
      match PyFloat.float user_input with
      | Some years => set_experience years cd
      | None => cd
      end
  end.

Definition rejection (f : info_field) (error_msg : string) : reply :=
  match f with
  | Name => NameRejected error_msg
  | Email => EmailRejected error_msg
  | Phone => PhoneRejected error_msg
  | Experience => ExperienceRejected error_msg
  end.

Definition next_prompt (f : info_field) : reply :=
  match f with
  | Name => AskEmail
  | Email => AskPhone
  | Phone => AskExperience
  | Experience => AskTechStack
  end.

Definition collect_by_order (E : Env) (s : session) (user_input : string)
  : result reply * session :=
  match first_absent (candidate s) with
  | None => (Returns TryAgain, s)
  | Some f =>
      let '(is_valid, error_msg) := validate_field E f user_input in
      if is_valid then
        let s' := with_candidate (store_field f user_input (candidate s)) s in
        (Returns (next_prompt f),
         match f with Experience => with_stage TECH_ASSESSMENT s' | _ => s' end)
      else (Returns (rejection f error_msg), s)
  end.

(** Every information field present in [cd] is present in [cd'] with the
    same value. *)
Definition kept (cd cd' : candidate_data) : Prop :=
  (forall v, name cd = Some v -> name cd' = Some v)
  /\ (forall v, email cd = Some v -> email cd' = Some v)
  /\ (forall v, phone cd = Some v -> phone cd' = Some v)
  /\ (forall v, experience cd = Some v -> experience cd' = Some v).

(** The invariant of the question cursor: it never passes the number of
    questions, and it is 0 until the technical questions begin. *)
Definition cursor_in_range (s : session) : Prop :=
  current_question_index s <= length (all_questions_of (technical_questions s))
  /\ (stage_rank (stage s) < 4 -> current_question_index s = 0).

(** What is left of a list by [lstrip] is empty or starts with a character
    that is not a space. *)
Definition starts_clean (l : list ascii) : Prop :=
  match l with
  | [] => True
  | c :: _ => PyStr.isspace c = false
  end.

(** The technologies of a list that are neither in [seen] nor earlier in the
    list: the distinct new names, in the order of their first occurrence. *)
Fixpoint fresh_keys (seen : list string) (techs : list string) : list string :=
  match techs with
  | [] => []
  | tech :: rest =>
      if decide (tech ∈ seen) then fresh_keys seen rest
      else tech :: fresh_keys (seen ++ [tech]) rest
  end.

(** The order in which the candidate record is filled: a field is there only
    if the one before it is. *)
Definition filled_in_order (cd : candidate_data) : Prop :=
  (has (email cd) = true -> has (name cd) = true)
  /\ (has (phone cd) = true -> has (email cd) = true)
  /\ (has (experience cd) = true -> has (phone cd) = true)
  /\ (has (tech_stack cd) = true -> has (experience cd) = true)
  /\ (has (answers cd) = true -> has (tech_stack cd) = true).

(** What holds of the session between two calls: the record is filled in
    order, nothing is recorded and the stage is at most InfoCollection while
    consent is not given, and the stages from TechAssessment on have the
    experience, those from TechnicalQuestions on the technology list. *)
Definition coherent (s : session) : Prop :=
  filled_in_order (candidate s)
  /\ (consent_given s = false ->
      candidate s = no_data /\ stage_rank (stage s) <= 2)
  /\ (3 <= stage_rank (stage s) -> has (experience (candidate s)) = true)
  /\ (4 <= stage_rank (stage s) -> has (tech_stack (candidate s)) = true).

(** The replies with which a handler sends the user back to the same step. *)
Definition reprompts (r : result reply) : bool :=
  match r with
  | Returns (PleaseRespond | Farewell | ConsentEmpty | ConsentAgain
            | ConsentRequired | NameRejected _ | EmailRejected _
            | PhoneRejected _ | ExperienceRejected _ | TryAgain
            | TechStackRejected _ | NoQuestions | TypeReady
            | AssessmentCompleted) => true
  | _ => false
  end.

(** The world only moves on: counters do not go down, and what was slept
    and logged stays the beginning of what is slept and logged. *)
Definition grows (w w' : world) : Prop :=
  calls w <= calls w'
  /\ sleeps w `prefix_of` sleeps w'
  /\ draws w <= draws w'
  /\ audit w `prefix_of` audit w'.

(** An input that gets past every guard of [process_message] and is not
    blank: it is not empty, holds no exit keyword and no deletion phrase, and
    is not a restart. *)
Definition plain (user_input : string) : bool :=
  negb (PyStr.falsy user_input)
  && negb (PyStr.mem (PyStr.strip (PyStr.lower user_input)) EXIT_KEYWORDS)
  && negb (existsb (fun keyword =>
                      PyStr.contains keyword (PyStr.strip (PyStr.lower user_input)))
             EXIT_KEYWORDS)
  && negb (PyStr.contains "delete my data" (PyStr.strip (PyStr.lower user_input))
           || PyStr.contains "delete data" (PyStr.strip (PyStr.lower user_input)))
  && negb (is_restart user_input)
  && negb (PyStr.falsy (PyStr.strip user_input)).

(** A question a numbered line can carry through the parser unharmed: not
    empty, without surrounding whitespace, on one line, and not starting with
    a hyphen or a bullet. *)
Definition clean_question (q : string) : Prop :=
  q <> ""
  /\ PyStr.strip_list (PyStr.chars q) = PyStr.chars q
  /\ Forall (fun c => c <> PyStr.LF) (PyStr.chars q)
  /\ lstrip_marks (PyStr.chars q) = PyStr.chars q.

(** The lines [1. q1], [2. q2], ... joined by newlines, from number [first]. *)
Fixpoint numbered_lines (first : nat) (questions : list string) : list string :=
  match questions with
  | [] => []
  | q :: rest =>
      (PyStr.str_of_nat first +:+ ". " +:+ q) :: numbered_lines (S first) rest
  end.
Definition numbered_list (questions : list string) : string :=
  PyStr.join PyStr.nl (numbered_lines 1 questions).

(** A model that answers every prompt with a numbered list of two questions. *)
Definition tutor : Env :=
  {| validators_email := fun email => PyStr.contains "@" email;
     gemini_model :=
       Some (fun _ _ =>
               Replies (numbered_list
                          ["What is Node.js?"; "Explain a 3-way merge - in git."]));
     random_index := fun n => n;
     random_sample := fun _ population k => take k population;
     float_str := fun _ => "2.0" |}.

(** What [safe_data] may hold for the items [data]: under a key that is not
    sensitive, either a value of [data] as it is, from that same key, or the
    digest of the value of a sensitive key, under that key with [_hash]
    appended. *)
Definition justified {V} (hash_sensitive_data : string -> string)
  (str : V -> string) (data : list (string * V)) (entry : string * logged V)
  : Prop :=
  (entry.1 ∉ SENSITIVE_KEYS)
  /\ match entry.2 with
     | Plain value => (entry.1, value) ∈ data
     | Hashed digest =>
         exists key value,
           (key, value) ∈ data /\ key ∈ SENSITIVE_KEYS
           /\ entry.1 = key +:+ "_hash"
           /\ digest = hash_sensitive_data (str value)
     end.

(** What else holds of the session between two calls: the cursor is within
    the questions, the experience is recorded only once the stage is past
    InfoCollection, and from the TechnicalQuestions stage on there are
    questions. *)
Definition sound (s : session) : Prop :=
  cursor_in_range s
  /\ (has (experience (candidate s)) = true -> 3 <= stage_rank (stage s))
  /\ (4 <= stage_rank (stage s) -> technical_questions s <> []).

(** The outcomes of a call that the handlers keep for states that should not
    occur: the three replies that something went wrong, the empty-input
    prompt of the consent handler, and every exception but the stop of the
    script. *)
Definition defensive (r : result reply) : bool :=
  match r with
  | Returns (TryAgain | NoQuestions | PleaseRestart | ConsentEmpty) => true
  | Returns _ => false
  | Raised StopException => false
  | Raised _ => true
  end.

(** * Properties *)

(** ** Strings *)

Lemma chars_text l : PyStr.chars (PyStr.text l) = l.
Proof. apply String.list_ascii_of_string_of_list_ascii. Qed.

Lemma text_chars s : PyStr.text (PyStr.chars s) = s.
Proof. apply String.string_of_list_ascii_of_string. Qed.

Lemma chars_app a b : PyStr.chars (a +:+ b) = PyStr.chars a ++ PyStr.chars b.
Proof.
  unfold PyStr.chars. induction a as [|c a IH]; simpl; [done | by rewrite IH].
Qed.

Lemma falsy_true s : PyStr.falsy s = true <-> s = "".
Proof. destruct s; simpl; split; congruence. Qed.

Lemma falsy_false s : PyStr.falsy s = false <-> s <> "".
Proof. destruct s; simpl; split; congruence. Qed.

Lemma falsy_text l : PyStr.falsy (PyStr.text l) = bool_decide (l = []).
Proof. destruct l; reflexivity. Qed.

Lemma text_app l1 l2 : PyStr.text (l1 ++ l2) = PyStr.text l1 +:+ PyStr.text l2.
Proof.
  unfold PyStr.text. induction l1 as [|c l1 IH]; simpl; [done | by rewrite IH].
Qed.

Lemma lower_app a b : PyStr.lower (a +:+ b) = PyStr.lower a +:+ PyStr.lower b.
Proof. unfold PyStr.lower. by rewrite chars_app, map_app, text_app. Qed.

Lemma startswith_list_app sub l1 l2 :
  PyStr.startswith_list sub l1 = true ->
  PyStr.startswith_list sub (l1 ++ l2) = true.
Proof.
  revert l1. induction sub as [|a sub IH]; intros [|b l1]; simpl; try done.
  case_decide; [apply IH | done].
Qed.

Lemma contains_list_app_l sub l1 l2 :
  PyStr.contains_list sub l1 = true -> PyStr.contains_list sub (l1 ++ l2) = true.
Proof.
  induction l1 as [|c l1 IH]; simpl.
  - rewrite orb_false_r. intros H. destruct sub; [|done].
    destruct l2; reflexivity.
  - intros [H|H]%orb_true_iff; apply orb_true_iff.
    + left. by apply (startswith_list_app sub (c :: l1)).
    + right. by apply IH.
Qed.

Lemma contains_list_app_r sub l1 l2 :
  PyStr.contains_list sub l2 = true -> PyStr.contains_list sub (l1 ++ l2) = true.
Proof.
  intros H. induction l1 as [|c l1 IH]; simpl; [done|].
  apply orb_true_iff. by right.
Qed.

Lemma contains_app_l sub a b :
  PyStr.contains sub a = true -> PyStr.contains sub (a +:+ b) = true.
Proof. unfold PyStr.contains. rewrite chars_app. apply contains_list_app_l. Qed.

Lemma contains_app_r sub a b :
  PyStr.contains sub b = true -> PyStr.contains sub (a +:+ b) = true.
Proof. unfold PyStr.contains. rewrite chars_app. apply contains_list_app_r. Qed.

(** ** The exit check *)

Lemma exit_keyword_detected (s : session) (user_input : string) (w : world) :
  user_input <> "" ->
  (exists keyword, keyword ∈ EXIT_KEYWORDS
     /\ PyStr.contains keyword (PyStr.strip (PyStr.lower user_input)) = true) ->
  check_exit_intent s user_input w = (Returns true, w).
Proof.
  intros Hne (keyword & Hin & Hsub). unfold check_exit_intent.
  apply falsy_false in Hne. rewrite Hne.
  destruct (PyStr.mem _ EXIT_KEYWORDS); [reflexivity|].
  assert (Hex : existsb
            (fun keyword => PyStr.contains keyword (PyStr.strip (PyStr.lower user_input)))
            EXIT_KEYWORDS = true).
  { apply existsb_exists. exists keyword. split; [by apply list_elem_of_In | done]. }
  by rewrite Hex.
Qed.

(** C8. Whatever the stage and the rest of the session, a non-empty input
    whose lowercased, trimmed text contains one of the exit keywords as a
    substring makes [process_message] return the farewell text and nothing
    else: the session (stage, candidate record, messages, cursor, questions,
    consent flag) and the world (no model call, no log entry, no sleep) come
    back unchanged, so no stage handler ran. *)
Theorem C8_exit_keyword_short_circuits
  (E : Env) (s : session) (user_input : string) (w : world) :
  user_input <> "" ->
  (exists keyword, keyword ∈ EXIT_KEYWORDS
     /\ PyStr.contains keyword (PyStr.strip (PyStr.lower user_input)) = true) ->
  process_message E s user_input w = (Returns Farewell, s, w).
Proof.
  intros Hne Hkw. unfold process_message.
  rewrite (proj2 (falsy_false _) Hne).
  by rewrite (exit_keyword_detected s user_input w Hne Hkw).
Qed.

Lemma C8_exit_keyword_short_circuits_witness :
  process_message terse (interview two_questions 1) "  Goodbye for now " quiet
  = (Returns Farewell, interview two_questions 1, quiet).
Proof.
  apply C8_exit_keyword_short_circuits.
  - discriminate.
  - exists "bye". split; [|reflexivity].
    apply list_elem_of_In. simpl. tauto.
Defined.

(** ** [validate_experience] *)

Lemma float_ltb_finite q c : PyFloat.ltb (FNum q) c = false <-> (c <= q)%Q.
Proof.
  simpl. rewrite negb_false_iff. apply Qle_bool_iff.
Qed.

Lemma float_gtb_finite q c : PyFloat.gtb (FNum q) c = false <-> (q <= c)%Q.
Proof.
  simpl. rewrite negb_false_iff. apply Qle_bool_iff.
Qed.

(** Acceptance, in the code's own terms: the text is non-empty, [float]
    parses it, and the float is neither below 0 nor above 50. *)
Lemma validate_experience_accepts (experience : string) :
  fst (validate_experience experience) = true
  <-> experience <> ""
      /\ exists years, PyFloat.float experience = Some years
           /\ PyFloat.ltb years 0 = false /\ PyFloat.gtb years 50 = false.
Proof.
  unfold validate_experience. destruct (PyStr.falsy experience) eqn:Hf.
  - apply falsy_true in Hf. simpl. split; [done | intros [? _]; done].
  - apply falsy_false in Hf.
    destruct (PyFloat.float experience) as [years|]; simpl.
    + destruct (PyFloat.ltb years 0) eqn:Hlt; simpl.
      * split; [done | intros (_ & y & [= <-] & ? & _); congruence].
      * destruct (PyFloat.gtb years 50) eqn:Hgt; simpl.
        -- split; [done | intros (_ & y & [= <-] & _ & ?); congruence].
        -- split; [eauto 6 | done].
    + split; [done | intros (_ & y & ? & _); done].
Qed.

(** For a text that parses to a finite number the test is the closed
    interval [[0, 50]]. *)
Lemma validate_experience_finite (experience : string) (q : Q) :
  PyFloat.float experience = Some (FNum q) ->
  (fst (validate_experience experience) = true
   <-> experience <> "" /\ (0 <= q <= 50)%Q).
Proof.
  intros Hq. rewrite validate_experience_accepts, Hq. split.
  - intros (Hne & years & [= <-] & Hlt & Hgt).
    apply float_ltb_finite in Hlt. apply float_gtb_finite in Hgt. done.
  - intros (Hne & Hlo & Hhi). split; [done|]. exists (FNum q).
    split; [done|]. split; [by apply float_ltb_finite | by apply float_gtb_finite].
Qed.

(** [float] on a few texts: an exact value, rounding to the nearest binary64
    number, overflow, underflow, underscores, and texts it refuses. *)
Example float_samples :
  PyFloat.float " 2.5 " = Some (FNum (5 # 2))
  /\ PyFloat.float "0.1" = Some (FNum (3602879701896397 # 36028797018963968))
  /\ PyFloat.float "50.000000000000000001" = Some (FNum 50)
  /\ PyFloat.float "1e400" = Some (FInf false)
  /\ PyFloat.float "-1e-400" = Some (FNum 0)
  /\ PyFloat.float "1_0.5e1" = Some (FNum 105)
  /\ PyFloat.float "-Infinity" = Some (FInf true)
  /\ PyFloat.float "5." = Some (FNum 5)
  /\ PyFloat.float "1__0" = None
  /\ PyFloat.float "." = None
  /\ PyFloat.float "1e" = None
  /\ PyFloat.float "1 2" = None.
Proof. repeat split; vm_compute; reflexivity. Qed.

(** The three round trips of the specification. *)
Example validate_experience_2_5 :
  validate_experience "2.5" = (true, "")
  /\ PyFloat.float "2.5" = Some (FNum (5 # 2)).
Proof. split; vm_compute; reflexivity. Qed.

Example validate_experience_minus_1 :
  validate_experience "-1" = (false, "Years of experience cannot be negative").
Proof. vm_compute; reflexivity. Qed.

Example validate_experience_abc :
  validate_experience "abc"
  = (false, "Please enter a valid number for years of experience").
Proof. vm_compute; reflexivity. Qed.

Example validate_experience_empty :
  validate_experience "" = (false, "Years of experience is required").
Proof. reflexivity. Qed.

Example validate_experience_51 :
  validate_experience "51" = (false, "Years of experience seems too high").
Proof. vm_compute; reflexivity. Qed.

(** C4. The text ["nan"] is non-empty and [float] parses it, to NaN; both
    comparisons of the validator are false of NaN, so [validate_experience]
    accepts it although the parsed value is no number of the interval
    [[0, 50]], and the information handler stores NaN as the candidate's
    experience and moves on to the technology stage. *)
Theorem C4_validate_experience_accepts_nan :
  validate_experience "nan" = (true, "")
  /\ PyFloat.float "nan" = Some FNaN
  /\ _collect_candidate_info offline
       (collecting (set_phone "+44 20 7946 0958"
                      (set_email "ada@example.org"
                         (set_name "Ada Lovelace" no_data)))) "nan"
     = (Returns AskTechStack,
        with_stage TECH_ASSESSMENT
          (collecting (set_experience FNaN
                         (set_phone "+44 20 7946 0958"
                            (set_email "ada@example.org"
                               (set_name "Ada Lovelace" no_data)))))).
Proof. repeat split; vm_compute; reflexivity. Qed.

(** ** The question supplier *)

(** The question prompt always holds the words the offline adapter looks for. *)
Lemma question_prompt_mentions_technical_question
  (num_questions technology level years : string) :
  PyStr.contains "technical question"
    (PyStr.lower (TECHNICAL_QUESTION_GENERATOR num_questions technology level years))
  = true.
Proof.
  unfold TECHNICAL_QUESTION_GENERATOR.
  rewrite !lower_app.
  do 4 apply contains_app_r. apply contains_app_l. reflexivity.
Qed.

Lemma parse_canned : parse_questions _fallback_technical_questions = canned_questions.
Proof. vm_compute. reflexivity. Qed.

(** Without a model, every technology gets the same three canned questions,
    and the world is left as it was. *)
Lemma offline_technical_questions (E : Env) technology experience_years w :
  gemini_model E = None ->
  generate_technical_questions E technology experience_years 3 w
  = (canned_questions, w).
Proof.
  intros Hoff. unfold generate_technical_questions, generate_response.
  rewrite Hoff. unfold _fallback_response, question_prompt.
  rewrite question_prompt_mentions_technical_question.
  by rewrite parse_canned.
Qed.

(** C2. With no generative backend (no model at all, or a model whose every
    call raises), the supplier answers the stack [["Erlang"]] with the
    adapter's three canned interview questions; none of them mentions Erlang.
    The templated generic questions that do, those of
    [get_fallback_questions], are never reached. *)
Theorem C2_erlang_offline_gets_canned_questions :
  generate_questions_for_tech_stack offline ["Erlang"] 3 (FNum 2) quiet
  = ([("Erlang", canned_questions)], quiet)
  /\ generate_questions_for_tech_stack unreachable ["Erlang"] 3 (FNum 2) quiet
     = ([("Erlang", canned_questions)],
        {| calls := 3; sleeps := [1; 2]; draws := 0; audit := [] |})
  /\ Forall (fun q => PyStr.contains "Erlang" q = false) canned_questions
  /\ get_fallback_questions offline "Erlang" 3 quiet
     = (generic_questions "Erlang", quiet)
  /\ Forall (fun q => PyStr.contains "Erlang" q = true) (generic_questions "Erlang").
Proof.
  split; [|split; [|split; [|split]]].
  - unfold generate_questions_for_tech_stack, questions_loop.
    rewrite (offline_technical_questions offline) by reflexivity.
    reflexivity.
  - vm_compute. reflexivity.
  - repeat constructor.
  - vm_compute. reflexivity.
  - repeat constructor.
Qed.

(** The number of questions [generate_technical_questions] returns: the
    requested count, but never more than three beyond what was parsed. *)
Lemma ensure_count_length technology num_questions questions :
  length (ensure_count technology num_questions questions)
  = Nat.min num_questions (length questions + 3).
Proof.
  unfold ensure_count. destruct (Nat.ltb_spec (length questions) num_questions).
  - rewrite length_take, length_app, length_take. simpl. lia.
  - rewrite length_take. lia.
Qed.

(** With the three questions per technology the program always asks for, the
    count is exact. *)
Lemma ensure_count_three technology questions :
  length (ensure_count technology 3 questions) = 3.
Proof. rewrite ensure_count_length. lia. Qed.

(** C5. A model that yields one usable question, asked for five: the parse
    gives one question, the padding adds the three templates there are, and
    the function returns four questions, not five. *)
Theorem C5_five_requested_four_returned :
  generate_technical_questions terse "Haskell" (FNum 2) 5 quiet
  = (["What is a monad?";
      "What are the key features and benefits of Haskell?";
      "Describe a project where you used Haskell effectively.";
      "What challenges have you faced when working with Haskell?"],
     called quiet)
  /\ parse_questions "1. What is a monad?" = ["What is a monad?"].
Proof. split; vm_compute; reflexivity. Qed.

(** ** The text-generation adapter *)

Lemma fallback_is_canned (E : Env) (prompt : string) (w : world) :
  canned prompt (_fallback_response E prompt w).1
  /\ calls (_fallback_response E prompt w).2 = calls w
  /\ sleeps (_fallback_response E prompt w).2 = sleeps w.
Proof.
  unfold _fallback_response, canned.
  destruct (PyStr.contains "technical question" _); [done|].
  destruct (_ || _); [|done].
  unfold _fallback_evaluation. cbn [fst snd]. split; [|done].
  change (length fallback_evaluations) with 3.
  assert (H : random_index E (draws w) mod 3 < 3) by (apply Nat.mod_upper_bound; lia).
  destruct (random_index E (draws w) mod 3) as [|[|[|n]]]; [..|lia];
    apply list_elem_of_In; simpl; tauto.
Qed.

Lemma retry_loop_spec (E : Env) (g : nat -> string -> outcome)
  (prompt : string) (max_retries : nat) :
  forall remaining attempt w,
    attempt + remaining = max_retries ->
    let '(response, w') := retry_loop E g prompt max_retries remaining attempt w in
    (calls w <= calls w' <= calls w + remaining)
    /\ (exists attempts,
          sleeps w' = sleeps w ++ map (fun k => 2 ^ k) attempts
          /\ StronglySorted lt attempts
          /\ Forall (fun k => attempt <= k < max_retries - 1) attempts)
    /\ (canned prompt response
        \/ exists n text, calls w <= n < calls w'
             /\ g n prompt = Replies text /\ text <> ""
             /\ response = PyStr.strip text)
    /\ ((forall n, calls w <= n < calls w + remaining -> fruitless (g n prompt)) ->
        canned prompt response /\ calls w' = calls w + remaining)
    /\ ((forall n, calls w <= n < calls w + remaining -> g n prompt = Raises) ->
        sleeps w' = sleeps w ++ map (fun k => 2 ^ k) (seq attempt (remaining - 1))).
Proof.
  induction remaining as [|remaining IH]; intros attempt w Hsum; simpl.
  - destruct (_fallback_response E prompt w) as [response w'] eqn:Hfb.
    pose proof (fallback_is_canned E prompt w) as (Hc & Hcalls & Hsleeps).
    rewrite Hfb in Hc, Hcalls, Hsleeps. cbn [fst snd] in *.
    split; [lia|]. split; [|split; [|split]].
    + exists []. rewrite app_nil_r. split; [done|]. split; constructor.
    + by left.
    + intros _. split; [done | lia].
    + intros _. by rewrite app_nil_r.
  - destruct (g (calls w) prompt) as [|text] eqn:Hg.
    + destruct (Nat.eqb_spec attempt (max_retries - 1)) as [Hlast|Hnot].
      * assert (remaining = 0) as -> by lia.
        destruct (_fallback_response E prompt (called w)) as [response w'] eqn:Hfb.
        pose proof (fallback_is_canned E prompt (called w)) as (Hc & Hcalls & Hsleeps).
        rewrite Hfb in Hc, Hcalls, Hsleeps. cbn [fst snd calls sleeps called] in *.
        split; [lia|]. split; [|split; [|split]].
        -- exists []. rewrite app_nil_r. split; [done|]. split; constructor.
        -- by left.
        -- intros _. split; [done | lia].
        -- intros _. by rewrite app_nil_r.
      * specialize (IH (S attempt) (slept (2 ^ attempt) (called w))).
        destruct (retry_loop E g prompt max_retries remaining (S attempt)
                    (slept (2 ^ attempt) (called w))) as [response w'].
        destruct IH as (Hcalls & (attempts & Hsl & Hsorted & Hall) & Hres & Hex & Hraise);
          [lia|]. cbn [calls sleeps called slept] in *.
        split; [lia|]. split; [|split; [|split]].
        -- exists (attempt :: attempts). rewrite Hsl, <- app_assoc.
           split; [done|]. split.
           ++ constructor; [done|]. eapply Forall_impl; [exact Hall|].
              intros k Hk. simpl in Hk. lia.
           ++ constructor; [lia|]. eapply Forall_impl; [exact Hall|].
              intros k Hk. simpl in *. lia.
        -- destruct Hres as [Hc|(n & t & Hn & Hgn & Ht & Hr)]; [by left|].
           right. exists n, t. split; [lia | done].
        -- intros Hall'. destruct Hex as [Hc Hn].
           { intros n Hn. apply Hall'. lia. }
           split; [done | lia].
        -- intros Hall'. rewrite Hraise.
           ++ rewrite <- app_assoc.
              destruct remaining as [|remaining]; [lia|].
              cbn [Nat.sub seq map app]. by rewrite Nat.sub_0_r.
           ++ intros n Hn. apply Hall'. lia.
    + destruct (PyStr.falsy text) eqn:Hfalsy.
      * apply falsy_true in Hfalsy. subst text.
        specialize (IH (S attempt) (called w)).
        destruct (retry_loop E g prompt max_retries remaining (S attempt) (called w))
          as [response w'].
        destruct IH as (Hcalls & (attempts & Hsl & Hsorted & Hall) & Hres & Hex & Hraise);
          [lia|]. cbn [calls sleeps called] in *.
        split; [lia|]. split; [|split; [|split]].
        -- exists attempts. split; [done|]. split; [done|].
           eapply Forall_impl; [exact Hall|]. intros k Hk. simpl in *. lia.
        -- destruct Hres as [Hc|(n & t & Hn & Hgn & Ht & Hr)]; [by left|].
           right. exists n, t. split; [lia | done].
        -- intros Hall'. destruct Hex as [Hc Hn].
           { intros n Hn. apply Hall'. lia. }
           split; [done | lia].
        -- intros Hall'. specialize (Hall' (calls w)). rewrite Hg in Hall'.
           discriminate Hall'. lia.
      * apply falsy_false in Hfalsy. cbn [calls sleeps called].
        split; [lia|]. split; [|split; [|split]].
        -- exists []. rewrite app_nil_r. split; [done|]. split; constructor.
        -- right. exists (calls w), text. split; [lia | done].
        -- intros Hall'. specialize (Hall' (calls w)). rewrite Hg in Hall'.
           destruct Hall' as [?|[= ?]]; [lia | done | done].
        -- intros Hall'. specialize (Hall' (calls w)). rewrite Hg in Hall'.
           discriminate Hall'. lia.
Qed.

(** C9. [generate_response] returns a text for every prompt, retry ceiling
    and world.  Without a model it returns at once (no call, no sleep) the
    canned answer the prompt's keywords select.  With a model it calls it at
    most [max_retries] times; it sleeps only after a raising attempt that is
    not the last, [2 ^ attempt] seconds, so the sleeps double; what it returns
    is the stripped text of a call that produced some, or else the canned
    answer; when every attempt is fruitless it has made [max_retries] calls
    and returns the canned answer, and when every attempt raises the sleeps
    are exactly 1, 2, 4, ... up to the last attempt but one. *)
Theorem C9_generate_response_total_bounded_canned
  (E : Env) (prompt : string) (max_retries : nat) (w : world) :
  exists response w',
    generate_response E prompt max_retries w = (response, w')
    /\ match gemini_model E with
       | None => canned prompt response /\ calls w' = calls w /\ sleeps w' = sleeps w
       | Some g =>
           (calls w <= calls w' <= calls w + max_retries)
           /\ (exists attempts,
                 sleeps w' = sleeps w ++ map (fun k => 2 ^ k) attempts
                 /\ StronglySorted lt attempts
                 /\ Forall (fun k => 0 <= k < max_retries - 1) attempts)
           /\ (canned prompt response
               \/ exists n text, calls w <= n < calls w'
                    /\ g n prompt = Replies text /\ text <> ""
                    /\ response = PyStr.strip text)
           /\ ((forall n, calls w <= n < calls w + max_retries -> fruitless (g n prompt)) ->
               canned prompt response /\ calls w' = calls w + max_retries)
           /\ ((forall n, calls w <= n < calls w + max_retries -> g n prompt = Raises) ->
               sleeps w' = sleeps w ++ map (fun k => 2 ^ k) (seq 0 (max_retries - 1)))
       end.
Proof.
  unfold generate_response. destruct (gemini_model E) as [g|].
  - pose proof (retry_loop_spec E g prompt max_retries max_retries 0 w eq_refl) as H.
    destruct (retry_loop E g prompt max_retries max_retries 0 w) as [response w'].
    exists response, w'. split; [reflexivity | exact H].
  - exists (_fallback_response E prompt w).1, (_fallback_response E prompt w).2.
    split; [by destruct (_fallback_response E prompt w) | apply fallback_is_canned].
Qed.

(** The default ceiling at work: a model that always raises is tried three
    times, with sleeps of one and two seconds in between. *)
Example generate_response_unreachable :
  generate_response unreachable "Tell me more." 3 quiet
  = ("Thank you for your response. Let's continue with the next step.",
     {| calls := 3; sleeps := [1; 2]; draws := 0; audit := [] |}).
Proof. vm_compute. reflexivity. Qed.

(** ** The technology list *)

Lemma in_order_prefix pre ps l : in_order ps l -> in_order ps (pre ++ l).
Proof.
  intros H. destruct H as [l|p ps pre' rest H]; [constructor|].
  rewrite app_assoc. by constructor.
Qed.

Lemma split_list_in_order sep l :
  forall cur, in_order (PyStr.split_list sep cur l) (rev cur ++ l).
Proof.
  induction l as [|c l IH]; intros cur; simpl.
  - rewrite <- (app_nil_l (rev cur ++ [])). constructor. constructor.
  - destruct (sep c).
    + rewrite <- (app_nil_l (rev cur ++ c :: l)). constructor.
      apply (in_order_prefix [c]). apply (IH []).
    + specialize (IH (c :: cur)). simpl in IH. by rewrite <- app_assoc in IH.
Qed.

Lemma in_order_omap (f : list ascii -> option (list ascii)) ps l :
  (forall p q, f p = Some q -> exists a b, p = a ++ q ++ b) ->
  in_order ps l -> in_order (omap f ps) l.
Proof.
  intros Hf H. induction H as [l|p ps pre rest H IH]; simpl; [constructor|].
  destruct (f p) as [q|] eqn:Hq.
  - destruct (Hf p q Hq) as (a & b & ->).
    replace (pre ++ (a ++ q ++ b) ++ rest) with ((pre ++ a) ++ q ++ (b ++ rest))
      by (by rewrite <- !app_assoc).
    constructor. by apply in_order_prefix.
  - rewrite app_assoc. by apply in_order_prefix.
Qed.

Lemma lstrip_list_suffix l : exists a, l = a ++ PyStr.lstrip_list l.
Proof.
  induction l as [|c l [a IH]]; simpl; [by exists []|].
  destruct (PyStr.isspace c); [|by exists []].
  exists (c :: a). simpl. by rewrite <- IH.
Qed.

Lemma strip_list_middle l : exists a b, l = a ++ PyStr.strip_list l ++ b.
Proof.
  unfold PyStr.strip_list, PyStr.rstrip_list.
  destruct (lstrip_list_suffix l) as [a Ha].
  destruct (lstrip_list_suffix (rev (PyStr.lstrip_list l))) as [b Hb].
  exists a, (rev b). rewrite <- rev_app_distr, <- Hb, rev_involutive. exact Ha.
Qed.

Lemma strip_text p : PyStr.strip (PyStr.text p) = PyStr.text (PyStr.strip_list p).
Proof. unfold PyStr.strip. by rewrite chars_text. Qed.

Lemma split_techs_omap s :
  map PyStr.chars (split_techs s)
  = omap keep_tech (PyStr.split_list tech_separator [] (PyStr.chars s)).
Proof.
  unfold split_techs, PyStr.split_on.
  induction (PyStr.split_list tech_separator [] (PyStr.chars s)) as [|p ps IH];
    [reflexivity|].
  cbn [map]. rewrite filter_cons, strip_text, falsy_text.
  change (omap keep_tech (p :: ps))
    with (match keep_tech p with
          | Some q => q :: omap keep_tech ps
          | None => omap keep_tech ps
          end).
  unfold keep_tech at 1. destruct (PyStr.strip_list p) as [|c q] eqn:Hp.
  - rewrite decide_False by done. exact IH.
  - rewrite decide_True by done.
    cbn [map]. rewrite IH, strip_text, chars_text, Hp. reflexivity.
Qed.

Lemma split_techs_in_order s :
  in_order (map PyStr.chars (split_techs s)) (PyStr.chars s).
Proof.
  rewrite split_techs_omap. apply in_order_omap.
  - intros p q. unfold keep_tech. destruct (strip_list_middle p) as (a & b & Hp).
    destruct (PyStr.strip_list p) eqn:Hs; [done|]. intros [= <-]. eauto.
  - apply (split_list_in_order tech_separator (PyStr.chars s) []).
Qed.

Lemma split_list_separator_free sep l :
  forall cur,
    Forall (fun c => sep c = false) cur ->
    Forall (Forall (fun c => sep c = false)) (PyStr.split_list sep cur l).
Proof.
  induction l as [|c l IH]; intros cur Hcur; simpl.
  - constructor; [|constructor]. by apply Forall_rev.
  - destruct (sep c) eqn:Hc.
    + constructor; [by apply Forall_rev | apply IH; constructor].
    + apply IH. by constructor.
Qed.

Lemma split_techs_entries s :
  Forall (fun tech => tech <> ""
                      /\ Forall (fun c => tech_separator c = false) (PyStr.chars tech))
    (split_techs s).
Proof.
  assert (H : Forall (fun q => q <> [] /\ Forall (fun c => tech_separator c = false) q)
                (map PyStr.chars (split_techs s))).
  { rewrite split_techs_omap.
    pose proof (split_list_separator_free tech_separator (PyStr.chars s) []
                  (Forall_nil_2 _)) as Hfree.
    induction Hfree as [|p ps Hp _ IH]; [constructor|].
    change (omap keep_tech (p :: ps))
      with (match keep_tech p with
            | Some q => q :: omap keep_tech ps
            | None => omap keep_tech ps
            end).
    unfold keep_tech at 1. destruct (strip_list_middle p) as (a & b & Hab).
    destruct (PyStr.strip_list p) as [|c q]; [exact IH|].
    constructor; [|exact IH]. split; [done|].
    rewrite Hab in Hp. apply Forall_app in Hp as [_ Hp].
    by apply Forall_app in Hp as [Hp _]. }
  apply Forall_map in H. eapply Forall_impl; [exact H|].
  intros tech [Hne Hfree]. split; [|done].
  intros ->. by apply Hne.
Qed.

Lemma validate_tech_stack_bounds s :
  fst (validate_tech_stack s) = true -> 1 <= length (split_techs s) <= 10.
Proof.
  unfold validate_tech_stack. destruct (_ || _); [done|].
  destruct (Nat.eqb_spec (length (split_techs s)) 0); [done|].
  destruct (Nat.ltb_spec 10 (length (split_techs s))); [done|]. lia.
Qed.

(** C3 (as the code has it). After a successful TechAssessment step the stage
    is TechnicalQuestions and the stored [tech_stack] is the list of the
    trimmed, non-empty tokens of the input, between one and ten of them: they
    are stored in the order they occur in the input text, one after the other
    without overlap, none is empty and none holds a separator.  Nothing is
    said about repetitions: a name written twice is stored twice. *)
Theorem C3_tech_stack_keeps_tokens_in_input_order
  (E : Env) (s : session) (user_input : string) (w : world) :
  fst (validate_tech_stack user_input) = true ->
  exists tech_list,
    tech_stack (candidate (handle_tech_assessment_stage E s user_input w).1.2)
    = Some tech_list
    /\ stage (handle_tech_assessment_stage E s user_input w).1.2 = TECHNICAL_QUESTIONS
    /\ tech_list = split_techs user_input
    /\ 1 <= length tech_list <= 10
    /\ in_order (map PyStr.chars tech_list) (PyStr.chars user_input)
    /\ Forall (fun tech =>
                 tech <> ""
                 /\ Forall (fun c => tech_separator c = false) (PyStr.chars tech))
         tech_list.
Proof.
  intros Hvalid. exists (split_techs user_input).
  pose proof (validate_tech_stack_bounds user_input Hvalid) as Hlen.
  unfold handle_tech_assessment_stage.
  destruct (validate_tech_stack user_input) as [is_valid error_msg].
  simpl in Hvalid. subst is_valid. cbn [negb].
  destruct (generate_questions_for_tech_stack E _ 3 _ w) as [questions_by_tech w'].
  cbn [fst snd candidate stage with_stage with_questions with_candidate
       tech_stack set_tech_stack].
  split; [done|]. split; [done|]. split; [done|]. split; [done|].
  split; [apply split_techs_in_order | apply split_techs_entries].
Qed.

Lemma C3_tech_stack_keeps_tokens_in_input_order_witness :
  exists tech_list,
    tech_stack (candidate
      (handle_tech_assessment_stage offline assessing "Python, react , , AWS" quiet).1.2)
    = Some tech_list
    /\ stage (handle_tech_assessment_stage offline assessing
                "Python, react , , AWS" quiet).1.2 = TECHNICAL_QUESTIONS
    /\ tech_list = split_techs "Python, react , , AWS"
    /\ 1 <= length tech_list <= 10
    /\ in_order (map PyStr.chars tech_list) (PyStr.chars "Python, react , , AWS")
    /\ Forall (fun tech =>
                 tech <> ""
                 /\ Forall (fun c => tech_separator c = false) (PyStr.chars tech))
         tech_list.
Proof.
  apply (C3_tech_stack_keeps_tokens_in_input_order
           offline assessing "Python, react , , AWS" quiet).
  vm_compute. reflexivity.
Defined.

(** The scenario of the specification. *)
Example split_techs_scenario :
  split_techs "Python, react , , AWS" = ["Python"; "react"; "AWS"].
Proof. vm_compute. reflexivity. Qed.

(** C3, refuted as stated: the input ["Python, Python"] is accepted and the
    stored list holds ["Python"] twice. *)
Lemma C3_duplicate_names_are_stored :
  fst (validate_tech_stack "Python, Python") = true
  /\ tech_stack (candidate
       (handle_tech_assessment_stage offline assessing "Python, Python" quiet).1.2)
     = Some ["Python"; "Python"]
  /\ ~ NoDup ["Python"; "Python"].
Proof.
  split; [vm_compute; reflexivity|]. split; [vm_compute; reflexivity|].
  intros H. apply NoDup_cons in H as [H _]. apply H. by left.
Qed.

(** ** The stage machine *)

Lemma isspace_lower_char c : PyStr.isspace (PyStr.lower_char c) = PyStr.isspace c.
Proof. destruct c as [[] [] [] [] [] [] [] []]; reflexivity. Qed.

Lemma lstrip_list_lower l :
  PyStr.lstrip_list (map PyStr.lower_char l) = map PyStr.lower_char (PyStr.lstrip_list l).
Proof.
  induction l as [|c l IH]; [done|]. cbn [map PyStr.lstrip_list].
  rewrite isspace_lower_char. by destruct (PyStr.isspace c).
Qed.

Lemma strip_list_lower l :
  PyStr.strip_list (map PyStr.lower_char l) = map PyStr.lower_char (PyStr.strip_list l).
Proof.
  unfold PyStr.strip_list, PyStr.rstrip_list.
  by rewrite lstrip_list_lower, <- map_rev, lstrip_list_lower, map_rev.
Qed.

Lemma strip_lower s : PyStr.strip (PyStr.lower s) = PyStr.lower (PyStr.strip s).
Proof.
  unfold PyStr.strip, PyStr.lower. by rewrite !chars_text, strip_list_lower.
Qed.

(** The word [restart] holds no exit keyword and no deletion phrase: a
    restart request always gets past the exit check. *)
Lemma restart_passes_exit_check (s : session) (user_input : string) (w : world) :
  is_restart user_input = true ->
  PyStr.falsy user_input = false
  /\ check_exit_intent s user_input w = (Returns false, w).
Proof.
  unfold is_restart. intros H%bool_decide_eq_true.
  assert (Hne : PyStr.falsy user_input = false).
  { destruct user_input; [discriminate H | reflexivity]. }
  split; [done|]. unfold check_exit_intent. rewrite Hne, H. reflexivity.
Qed.

Lemma collect_stage (E : Env) (s : session) (user_input : string) :
  stage (_collect_candidate_info E s user_input).2 = stage s
  \/ stage (_collect_candidate_info E s user_input).2 = TECH_ASSESSMENT.
Proof.
  unfold _collect_candidate_info.
  repeat case_match; cbn [snd stage with_stage with_candidate]; auto.
Qed.

Lemma technical_questions_stage (E : Env) (s : session) (user_input : string) (w : world) :
  stage (handle_technical_questions_stage E s user_input w).1.2 = stage s
  \/ stage (handle_technical_questions_stage E s user_input w).1.2 = COMPLETION.
Proof.
  unfold handle_technical_questions_stage, store_answer, _complete_assessment.
  repeat case_match; simplify_eq;
    cbn [fst snd stage with_stage with_candidate with_index add_message with_messages];
    auto.
Qed.

(** Without a restart, one call leaves the stage where it was or moves it to
    the next stage of the fixed order. *)
Lemma process_message_stage_step
  (E : Env) (s : session) (user_input : string) (w : world) :
  is_restart user_input = false ->
  stage (process_message E s user_input w).1.2 = stage s
  \/ stage (process_message E s user_input w).1.2 = next_stage (stage s).
Proof.
  intros Hrestart. unfold process_message. rewrite Hrestart.
  destruct (PyStr.falsy user_input); [by left|].
  destruct (check_exit_intent s user_input w) as [[[]|e] w']; try by left.
  destruct (stage s) eqn:Hstage; cbn [next_stage].
  - right. reflexivity.
  - unfold handle_consent_stage.
    repeat case_match; simplify_eq; cbn [fst snd stage with_stage]; auto.
  - unfold handle_info_collection_stage.
    destruct (negb (consent_given s)).
    + case_match; cbn [fst snd stage with_consent]; auto.
    + pose proof (collect_stage E s user_input) as H.
      destruct (_collect_candidate_info E s user_input) as [r s'].
      cbn [fst snd] in *. rewrite Hstage in H. exact H.
  - unfold handle_tech_assessment_stage.
    repeat case_match; simplify_eq;
      cbn [fst snd stage with_stage with_questions with_candidate]; auto.
  - pose proof (technical_questions_stage E s user_input w') as H.
    rewrite Hstage in H. exact H.
  - by left.
Qed.

(** C6 (as the code has it). One call of [process_message] either leaves the
    stage where it was or moves it to the next stage of the fixed order
    Greeting, Consent, InfoCollection, TechAssessment, TechnicalQuestions,
    Completion; the one exception is an input that is [restart] once trimmed
    and lowercased, which rebuilds the session and runs the greeting handler
    in the same call, so that the stage it leaves is Consent, whatever the
    stage before. *)
Theorem C6_stage_steps_forward_or_restarts
  (E : Env) (s : session) (user_input : string) (w : world) :
  if is_restart user_input
  then stage (process_message E s user_input w).1.2 = CONSENT
  else stage (process_message E s user_input w).1.2 = stage s
       \/ stage (process_message E s user_input w).1.2 = next_stage (stage s).
Proof.
  destruct (is_restart user_input) eqn:Hrestart.
  - destruct (restart_passes_exit_check s user_input w Hrestart) as [Hne Hexit].
    unfold process_message. by rewrite Hne, Hexit, Hrestart.
  - by apply process_message_stage_step.
Qed.

(** Over a whole conversation without restart the stage never goes back. *)
Lemma run_stage_monotone (E : Env) (inputs : list string) :
  forall s w,
    Forall (fun user_input => is_restart user_input = false) inputs ->
    stage_rank (stage s) <= stage_rank (stage (run E s w inputs).1).
Proof.
  induction inputs as [|user_input inputs IH]; intros s w Hall; [done|].
  apply Forall_cons in Hall as [Hrestart Hall]. cbn [run].
  pose proof (process_message_stage_step E s user_input w Hrestart) as Hstep.
  destruct (process_message E s user_input w) as [[r s'] w'].
  cbn [fst snd] in Hstep. etrans; [|apply IH; exact Hall].
  destruct Hstep as [->| ->]; [done|]. destruct (stage s); simpl; lia.
Qed.

(** C6, refuted as stated: from a completed session the input ["restart"]
    leaves the stage at Consent, behind the stage it was at, and not at Greeting. *)
Lemma C6_restart_leaves_consent_not_greeting :
  stage (process_message offline (with_stage COMPLETION (interview one_question 1))
           "restart" quiet).1.2 = CONSENT
  /\ stage (process_message offline (with_stage COMPLETION (interview one_question 1))
              "restart" quiet).1.2 <> GREETING.
Proof. split; [vm_compute; reflexivity | vm_compute; discriminate]. Qed.

(** ** Collecting the candidate's information *)

Lemma validate_experience_parses (user_input : string) :
  fst (validate_experience user_input) = true ->
  exists years, PyFloat.float user_input = Some years.
Proof.
  intros (_ & years & Hyears & _)%validate_experience_accepts. eauto.
Qed.

(** The code's chain of presence tests is the walk over the fixed order. *)
Lemma collect_follows_order (E : Env) (s : session) (user_input : string) :
  _collect_candidate_info E s user_input = collect_by_order E s user_input.
Proof.
  unfold _collect_candidate_info, collect_by_order, first_absent.
  destruct (name (candidate s)) as [n|] eqn:Hn;
    [destruct (email (candidate s)) as [e|] eqn:He;
       [destruct (phone (candidate s)) as [p|] eqn:Hp;
          [destruct (experience (candidate s)) as [x|] eqn:Hx|]|]|];
    cbn [List.find info_order present negb]; rewrite ?Hn, ?He, ?Hp, ?Hx;
    cbn [List.find has negb validate_field store_field next_prompt rejection].
  - reflexivity.
  - pose proof (validate_experience_parses user_input) as Hparse.
    destruct (validate_experience user_input) as [[] msg]; cbn [negb fst] in *; [|done].
    destruct Hparse as [years ->]; done.
  - by destruct (validate_phone user_input) as [[] msg].
  - by destruct (validate_email E user_input) as [[] msg].
  - by destruct (validate_name user_input) as [[] msg].
Qed.

Lemma kept_refl cd : kept cd cd.
Proof. unfold kept. auto. Qed.

Lemma kept_trans cd1 cd2 cd3 : kept cd1 cd2 -> kept cd2 cd3 -> kept cd1 cd3.
Proof. unfold kept. intros (?&?&?&?) (?&?&?&?). repeat split; auto. Qed.

#[local] Hint Resolve kept_refl : core.

Ltac solve_kept :=
  unfold kept;
  cbn [fst snd candidate with_stage with_candidate with_consent with_index
       with_questions with_messages add_message
       name email phone experience
       set_name set_email set_phone set_experience set_tech_stack set_answers];
  repeat split; intros; congruence.

Lemma collect_kept (E : Env) (s : session) (user_input : string) :
  kept (candidate s) (candidate (_collect_candidate_info E s user_input).2).
Proof.
  unfold _collect_candidate_info.
  repeat case_match; simplify_eq; solve_kept.
Qed.

Lemma technical_questions_kept (E : Env) (s : session) (user_input : string) (w : world) :
  kept (candidate s) (candidate (handle_technical_questions_stage E s user_input w).1.2).
Proof.
  unfold handle_technical_questions_stage, store_answer, _complete_assessment.
  repeat case_match; simplify_eq; solve_kept.
Qed.

(** Without a restart, a call never changes an information field that is
    already present. *)
Lemma process_message_kept (E : Env) (s : session) (user_input : string) (w : world) :
  is_restart user_input = false ->
  kept (candidate s) (candidate (process_message E s user_input w).1.2).
Proof.
  intros Hrestart. unfold process_message. rewrite Hrestart.
  destruct (PyStr.falsy user_input); [done|].
  destruct (check_exit_intent s user_input w) as [[[]|e] w']; try done.
  destruct (stage s).
  - unfold handle_greeting_stage. solve_kept.
  - unfold handle_consent_stage. repeat case_match; simplify_eq; solve_kept.
  - unfold handle_info_collection_stage.
    destruct (negb (consent_given s)).
    + case_match; solve_kept.
    + pose proof (collect_kept E s user_input) as H.
      by destruct (_collect_candidate_info E s user_input) as [r s'].
  - unfold handle_tech_assessment_stage. repeat case_match; simplify_eq; solve_kept.
  - apply technical_questions_kept.
  - solve_kept.
Qed.

Lemma run_kept (E : Env) (inputs : list string) :
  forall s w,
    Forall (fun user_input => is_restart user_input = false) inputs ->
    kept (candidate s) (candidate (run E s w inputs).1).
Proof.
  induction inputs as [|user_input inputs IH]; intros s w Hall; [done|].
  apply Forall_cons in Hall as [Hrestart Hall]. cbn [run].
  pose proof (process_message_kept E s user_input w Hrestart) as Hstep.
  destruct (process_message E s user_input w) as [[r s'] w'].
  cbn [fst snd] in Hstep. eapply kept_trans; [exact Hstep | by apply IH].
Qed.

(** C7. In an InfoCollection call made once consent is given, the handler
    does what the walk over the fixed order name, email, phone, experience
    does: the first field absent from the record is the one validated and, on
    success, stored (the stage moves on when it is the experience); no
    information field present before the call is changed by it; and whatever
    inputs follow in the same session run, that is short of a restart, every
    information field present after the call keeps its value to the end. *)
Theorem C7_first_absent_field_is_collected_and_kept
  (E : Env) (s : session) (user_input : string) (w : world)
  (inputs : list string) :
  consent_given s = true ->
  Forall (fun later => is_restart later = false) inputs ->
  handle_info_collection_stage E s user_input w
  = ((collect_by_order E s user_input).1, (collect_by_order E s user_input).2, w)
  /\ kept (candidate s)
       (candidate (handle_info_collection_stage E s user_input w).1.2)
  /\ kept (candidate (handle_info_collection_stage E s user_input w).1.2)
       (candidate
          (run E (handle_info_collection_stage E s user_input w).1.2
             (handle_info_collection_stage E s user_input w).2 inputs).1).
Proof.
  intros Hconsent Hlater.
  assert (Heq : handle_info_collection_stage E s user_input w
                = ((collect_by_order E s user_input).1,
                   (collect_by_order E s user_input).2, w)).
  { unfold handle_info_collection_stage. rewrite Hconsent. cbn [negb].
    rewrite collect_follows_order. by destruct (collect_by_order E s user_input). }
  split; [exact Heq|]. split.
  - rewrite Heq. cbn [fst snd]. rewrite <- collect_follows_order. apply collect_kept.
  - by apply run_kept.
Qed.

Lemma C7_first_absent_field_is_collected_and_kept_witness :
  handle_info_collection_stage offline (collecting (set_name "Ada Lovelace" no_data))
    "ada@example.org" quiet
  = ((collect_by_order offline (collecting (set_name "Ada Lovelace" no_data))
        "ada@example.org").1,
     (collect_by_order offline (collecting (set_name "Ada Lovelace" no_data))
        "ada@example.org").2, quiet)
  /\ kept (candidate (collecting (set_name "Ada Lovelace" no_data)))
       (candidate
          (handle_info_collection_stage offline
             (collecting (set_name "Ada Lovelace" no_data))
             "ada@example.org" quiet).1.2)
  /\ kept (candidate
             (handle_info_collection_stage offline
                (collecting (set_name "Ada Lovelace" no_data))
                "ada@example.org" quiet).1.2)
       (candidate
          (run offline
             (handle_info_collection_stage offline
                (collecting (set_name "Ada Lovelace" no_data))
                "ada@example.org" quiet).1.2
             (handle_info_collection_stage offline
                (collecting (set_name "Ada Lovelace" no_data))
                "ada@example.org" quiet).2
             followups).1).
Proof.
  apply (C7_first_absent_field_is_collected_and_kept offline
           (collecting (set_name "Ada Lovelace" no_data)) "ada@example.org" quiet
           followups).
  - reflexivity.
  - repeat constructor.
Defined.

(** The conversation of the witness, run to its end: the four fields are
    there, the e-mail among them, and the first question has been answered. *)
Example collecting_conversation :
  let '(s, _) :=
    run offline (collecting (set_name "Ada Lovelace" no_data)) quiet
      ("ada@example.org" :: followups) in
  (name (candidate s), email (candidate s), phone (candidate s),
   experience (candidate s), tech_stack (candidate s), stage s,
   current_question_index s)
  = (Some "Ada Lovelace", Some "ada@example.org", Some "+44 20 7946 0958",
     Some (FNum 7), Some ["Python"; "Erlang"], TECHNICAL_QUESTIONS, 2).
Proof. vm_compute. reflexivity. Qed.

(** ** The technical questions *)

(** The handler never touches the questions, and moves the cursor by one
    step at most, to a question that exists. *)
Lemma technical_questions_step (E : Env) (s : session) (user_input : string) (w : world) :
  technical_questions (handle_technical_questions_stage E s user_input w).1.2
  = technical_questions s
  /\ (current_question_index (handle_technical_questions_stage E s user_input w).1.2
      = current_question_index s
      \/ (current_question_index (handle_technical_questions_stage E s user_input w).1.2
          = current_question_index s + 1
          /\ current_question_index s
             < length (all_questions_of (technical_questions s)))).
Proof.
  unfold handle_technical_questions_stage.
  remember (technical_questions s) as questions eqn:Hqs.
  destruct questions as [|entry entries]; [simpl; rewrite <- Hqs; by auto|].
  destruct (_ && _); [simpl; rewrite <- Hqs; by auto|].
  set (all_questions := all_questions_of (entry :: entries)).
  destruct ((0 <? current_question_index s) && _).
  - destruct (all_questions !! (current_question_index s - 1))
      as [[prev_tech prev_question]|]; [|simpl; rewrite <- Hqs; by auto].
    unfold store_answer.
    destruct (evaluate_technical_response E prev_question user_input prev_tech w)
      as [evaluation_response w1].
    destruct (Nat.leb_spec (length all_questions) (current_question_index s)).
    + unfold _complete_assessment. simpl. rewrite <- Hqs. auto.
    + destruct (all_questions !! current_question_index s) as [[tech question]|];
        simpl; rewrite <- Hqs; auto.
  - destruct (Nat.leb_spec (length all_questions) (current_question_index s)).
    + unfold _complete_assessment. simpl. rewrite <- Hqs. auto.
    + destruct (all_questions !! current_question_index s) as [[tech question]|];
        simpl; rewrite <- Hqs; auto.
Qed.

Lemma technical_questions_cursor (E : Env) (s : session) (user_input : string) (w : world) :
  stage s = TECHNICAL_QUESTIONS ->
  cursor_in_range s ->
  cursor_in_range (handle_technical_questions_stage E s user_input w).1.2.
Proof.
  intros Hstage [Hle Hzero]. unfold cursor_in_range.
  pose proof (technical_questions_stage E s user_input w) as Hst.
  pose proof (technical_questions_step E s user_input w) as [Hqs Hcur].
  rewrite Hqs. split; [lia|].
  destruct Hst as [->| ->]; [rewrite Hstage|]; simpl; lia.
Qed.

(** Every call keeps the cursor within the questions. *)
Lemma process_message_cursor (E : Env) (s : session) (user_input : string) (w : world) :
  cursor_in_range s -> cursor_in_range (process_message E s user_input w).1.2.
Proof.
  intros Hinv. pose proof Hinv as [Hle Hzero]. unfold process_message.
  destruct (PyStr.falsy user_input); [done|].
  destruct (check_exit_intent s user_input w) as [[[]|e] w']; try done.
  destruct (is_restart user_input).
  { split; simpl; [lia | done]. }
  destruct (stage s) eqn:Hstage; simpl in Hzero.
  - unfold handle_greeting_stage, cursor_in_range. simpl. split; [lia | intros _; lia].
  - unfold handle_consent_stage, cursor_in_range.
    repeat case_match; simplify_eq; simpl; rewrite ?Hstage; simpl;
      (split; [lia | intros _; lia]).
  - unfold handle_info_collection_stage, _collect_candidate_info, cursor_in_range.
    repeat case_match; simplify_eq; simpl; rewrite ?Hstage; simpl;
      (split; [lia | intros _; lia]).
  - unfold handle_tech_assessment_stage, cursor_in_range.
    repeat case_match; simplify_eq; simpl; rewrite ?Hstage; simpl;
      (split; [lia | intros; lia]).
  - by apply technical_questions_cursor.
  - done.
Qed.

(** In every session a conversation can reach, the cursor is within the
    questions. *)
Lemma reachable_cursor_in_range (E : Env) (inputs : list string) :
  forall s w, cursor_in_range s -> cursor_in_range (run E s w inputs).1.
Proof.
  induction inputs as [|user_input inputs IH]; intros s w Hinv; [done|].
  cbn [run]. pose proof (process_message_cursor E s user_input w Hinv) as Hstep.
  destruct (process_message E s user_input w) as [[r s'] w']. by apply IH.
Qed.

Lemma fresh_cursor_in_range sid : cursor_in_range (fresh sid).
Proof. split; simpl; [lia | done]. Qed.

(** C1 (as the code has it). In a TechnicalQuestions call with cursor [k],
    [0 < k <= total], and an input that is not blank once trimmed, the answer
    is stored under the key made of the technology of question [k-1] and the
    index [k-1], with that question, the sanitized input and that technology.
    While questions remain ([k < total]) the cursor becomes exactly [k+1] and
    the stage stays; on the answer to the last question ([k = total]) the
    cursor stays at [k] and the stage becomes Completion. *)
Theorem C1_answer_is_keyed_by_previous_question
  (E : Env) (s : session) (user_input : string) (w : world) (k : nat) :
  current_question_index s = k ->
  0 < k <= length (all_questions_of (technical_questions s)) ->
  PyStr.strip user_input <> "" ->
  exists prev_tech prev_question r s' w',
    handle_technical_questions_stage E s user_input w = (Returns r, s', w')
    /\ all_questions_of (technical_questions s) !! (k - 1)
       = Some (prev_tech, prev_question)
    /\ answers (candidate s')
       = Some (<[answer_key prev_tech (k - 1) :=
                   {| question := prev_question;
                      given := sanitize_input user_input;
                      technology := prev_tech |}]>
                 (default ∅ (answers (candidate s))))
    /\ (if k <? length (all_questions_of (technical_questions s))
        then current_question_index s' = k + 1 /\ stage s' = stage s
        else current_question_index s' = k /\ stage s' = COMPLETION).
Proof.
  intros Hk [Hpos Hle] Hanswer.
  destruct (lookup_lt_is_Some_2 (all_questions_of (technical_questions s)) (k - 1))
    as [[prev_tech prev_question] Hprev]; [lia|].
  exists prev_tech, prev_question.
  unfold handle_technical_questions_stage.
  destruct (technical_questions s) as [|entry entries] eqn:Hqs; [simpl in Hle; lia|].
  rewrite Hk. rewrite (proj2 (Nat.eqb_neq k 0)) by lia. cbn [andb].
  rewrite (proj2 (Nat.ltb_lt 0 k)) by lia.
  rewrite (proj2 (falsy_false _) Hanswer). cbn [negb andb].
  rewrite Hprev. unfold store_answer.
  destruct (evaluate_technical_response E prev_question user_input prev_tech w)
    as [evaluation_response w1].
  destruct (Nat.ltb_spec k (length (all_questions_of (entry :: entries)))) as [Hlt|Hge].
  - rewrite (proj2 (Nat.leb_gt _ _)) by lia.
    destruct (lookup_lt_is_Some_2 (all_questions_of (entry :: entries)) k Hlt)
      as [[tech question] Hnext].
    rewrite Hnext. eexists _, _, _. split; [reflexivity|].
    cbn [candidate answers stage current_question_index with_index add_message
         with_messages with_candidate set_answers].
    rewrite Hk. done.
  - rewrite (proj2 (Nat.leb_le _ _)) by lia.
    unfold _complete_assessment. eexists _, _, _. split; [reflexivity|].
    cbn [candidate answers stage current_question_index with_stage add_message
         with_messages with_candidate set_answers].
    done.
Qed.

Lemma C1_answer_is_keyed_by_previous_question_witness :
  exists prev_tech prev_question r s' w',
    handle_technical_questions_stage offline (interview two_questions 1)
      "It counts references." quiet = (Returns r, s', w')
    /\ all_questions_of two_questions !! 0 = Some (prev_tech, prev_question)
    /\ answers (candidate s')
       = Some (<[answer_key prev_tech 0 :=
                   {| question := prev_question;
                      given := sanitize_input "It counts references.";
                      technology := prev_tech |}]> ∅)
    /\ current_question_index s' = 2 /\ stage s' = TECHNICAL_QUESTIONS.
Proof.
  apply (C1_answer_is_keyed_by_previous_question offline (interview two_questions 1)
           "It counts references." quiet 1).
  - reflexivity.
  - simpl. lia.
  - discriminate.
Defined.

(** C1, refuted as stated.  With one question and cursor 1, a real answer
    leaves the cursor at 1, not 2, and ends the interview; with two questions
    and cursor 1, a blank (non-empty) input stores no answer at all. *)
Lemma C1_cursor_stays_on_last_answer_and_blank_stores_nothing :
  (let s' := (handle_technical_questions_stage offline (interview one_question 1)
                "It counts references." quiet).1.2 in
   current_question_index s' = 1 /\ stage s' = COMPLETION
   /\ is_Some (answers (candidate s')))
  /\ (let s' := (handle_technical_questions_stage offline (interview two_questions 1)
                   "   " quiet).1.2 in
      answers (candidate s') = None /\ current_question_index s' = 2).
Proof.
  split.
  - vm_compute. split; [reflexivity|]. split; [reflexivity|]. eexists. reflexivity.
  - vm_compute. split; reflexivity.
Qed.

(** A blank input gets past the guards of [process_message]: it is not
    empty, it holds no exit keyword, and it is not a restart. *)
Lemma blank_passes_guards (s : session) (user_input : string) (w : world) :
  user_input <> "" -> PyStr.strip user_input = "" ->
  PyStr.falsy user_input = false
  /\ check_exit_intent s user_input w = (Returns false, w)
  /\ is_restart user_input = false
  /\ PyStr.strip (PyStr.lower user_input) = "".
Proof.
  intros Hne Hblank.
  assert (Hlow : PyStr.strip (PyStr.lower user_input) = "")
    by (by rewrite strip_lower, Hblank).
  apply falsy_false in Hne.
  split; [done|]. split; [|split; [|done]].
  - unfold check_exit_intent. rewrite Hne, Hlow. reflexivity.
  - unfold is_restart. by rewrite Hlow.
Qed.

(** C10 (as the code has it). In the TechnicalQuestions stage with cursor
    [k > 0], an input that is not empty but blank once trimmed stores no
    answer and performs no evaluation: the candidate record and the messages
    are unchanged, the model is not called and nothing is drawn.  If a
    question of index [k] exists the call emits it and the cursor becomes
    [k+1]; if [k] is already the number of questions the call completes the
    assessment instead, with the cursor left at [k]: either way the answer to
    question [k-1] is dropped in silence. *)
Theorem C10_blank_answer_is_dropped
  (E : Env) (s : session) (user_input : string) (w : world) (k : nat) :
  stage s = TECHNICAL_QUESTIONS ->
  technical_questions s <> [] ->
  current_question_index s = k -> 0 < k ->
  user_input <> "" -> PyStr.strip user_input = "" ->
  exists r s' w',
    process_message E s user_input w = (Returns r, s', w')
    /\ candidate s' = candidate s
    /\ messages s' = messages s
    /\ calls w' = calls w /\ draws w' = draws w
    /\ match all_questions_of (technical_questions s) !! k with
       | Some (tech, question) =>
           r = AskQuestion (k + 1) (length (all_questions_of (technical_questions s)))
                 (PyStr.upper tech) question
           /\ current_question_index s' = k + 1
           /\ stage s' = TECHNICAL_QUESTIONS
       | None =>
           r = Congratulations (candidate s)
           /\ current_question_index s' = k
           /\ stage s' = COMPLETION
       end.
Proof.
  intros Hstage Hqs Hk Hpos Hne Hblank.
  destruct (blank_passes_guards s user_input w Hne Hblank)
    as (Hfalsy & Hexit & Hrestart & Hlow).
  unfold process_message. rewrite Hfalsy, Hexit, Hrestart, Hstage.
  unfold handle_technical_questions_stage.
  destruct (technical_questions s) as [|entry entries] eqn:Hentries; [done|].
  rewrite Hk. rewrite (proj2 (Nat.eqb_neq k 0)) by lia. cbn [andb].
  rewrite Hblank. cbn [PyStr.falsy negb andb]. rewrite andb_false_r.
  destruct (all_questions_of (entry :: entries) !! k) as [[tech question]|] eqn:Hnext.
  - apply lookup_lt_Some in Hnext as Hlt.
    rewrite (proj2 (Nat.leb_gt _ _)) by lia.
    eexists _, _, _. split; [reflexivity|].
    cbn [candidate messages stage current_question_index with_index].
    rewrite Hk. done.
  - apply lookup_ge_None in Hnext as Hge.
    rewrite (proj2 (Nat.leb_le _ _)) by lia.
    unfold _complete_assessment. eexists _, _, _. split; [reflexivity|].
    cbn [candidate messages stage current_question_index with_stage
         calls draws log_interaction].
    done.
Qed.

Lemma C10_blank_answer_is_dropped_witness :
  exists r s' w',
    process_message terse (interview two_questions 1) "   " quiet = (Returns r, s', w')
    /\ candidate s' = ada
    /\ messages s' = []
    /\ calls w' = 0 /\ draws w' = 0
    /\ r = AskQuestion 2 2 "PYTHON" "What is the Global Interpreter Lock (GIL) in Python?"
    /\ current_question_index s' = 2
    /\ stage s' = TECHNICAL_QUESTIONS.
Proof.
  apply (C10_blank_answer_is_dropped terse (interview two_questions 1) "   " quiet 1).
  - reflexivity.
  - discriminate.
  - reflexivity.
  - lia.
  - discriminate.
  - reflexivity.
Defined.

(** C10, refuted as stated: with one question and cursor 1 there is no
    question of index 1 to emit; the blank input ends the interview, the
    cursor stays at 1 and the answer to the only question is never stored. *)
Lemma C10_blank_after_last_question_completes :
  process_message offline (interview one_question 1) " " quiet
  = (Returns (Congratulations ada),
     with_stage COMPLETION (interview one_question 1),
     log_interaction "5f2b9c01d3a4e6f7" "assessment_complete" quiet)
  /\ current_question_index
       (process_message offline (interview one_question 1) " " quiet).1.2 = 1.
Proof. split; vm_compute; reflexivity. Qed.

(** * Further properties of the sources *)

(** ** Whitespace stripping *)

Lemma lstrip_list_split l :
  exists a, l = a ++ PyStr.lstrip_list l /\ Forall (fun c => PyStr.isspace c = true) a.
Proof.
  induction l as [|c l (a & IH & Ha)]; simpl; [by exists []|].
  destruct (PyStr.isspace c) eqn:Hc; [|by exists []].
  exists (c :: a). simpl. split; [by rewrite <- IH | by constructor].
Qed.

Lemma strip_list_split l :
  exists a b, l = a ++ PyStr.strip_list l ++ b
              /\ Forall (fun c => PyStr.isspace c = true) a
              /\ Forall (fun c => PyStr.isspace c = true) b.
Proof.
  unfold PyStr.strip_list, PyStr.rstrip_list.
  destruct (lstrip_list_split l) as (a & Ha & Hsa).
  destruct (lstrip_list_split (rev (PyStr.lstrip_list l))) as (b & Hb & Hsb).
  exists a, (rev b). split; [|split; [done | by apply Forall_rev]].
  rewrite <- rev_app_distr, <- Hb, rev_involutive. exact Ha.
Qed.

Lemma strip_list_Forall (P : ascii -> Prop) l :
  Forall P l -> Forall P (PyStr.strip_list l).
Proof.
  intros H. destruct (strip_list_middle l) as (a & b & Hl). rewrite Hl in H.
  apply Forall_app in H as [_ H]. by apply Forall_app in H as [H _].
Qed.

Lemma strip_list_length l : length (PyStr.strip_list l) <= length l.
Proof.
  destruct (strip_list_middle l) as (a & b & Hl). rewrite Hl at 2.
  rewrite !length_app. lia.
Qed.

Lemma lstrip_list_starts_clean l : starts_clean (PyStr.lstrip_list l).
Proof.
  induction l as [|c l IH]; simpl; [done|].
  destruct (PyStr.isspace c) eqn:Hc; [exact IH | exact Hc].
Qed.

Lemma lstrip_list_fixed l : starts_clean l -> PyStr.lstrip_list l = l.
Proof. destruct l as [|c l]; simpl; [done | by intros ->]. Qed.

Lemma lstrip_list_snoc l c :
  PyStr.isspace c = false -> PyStr.lstrip_list (l ++ [c]) = PyStr.lstrip_list l ++ [c].
Proof.
  intros Hc. induction l as [|d l IH]; simpl; [by rewrite Hc|].
  by destruct (PyStr.isspace d).
Qed.

Lemma rstrip_list_starts_clean l :
  starts_clean l -> starts_clean (PyStr.rstrip_list l).
Proof.
  destruct l as [|c l]; [done|]. intros Hc. unfold PyStr.rstrip_list.
  cbn [rev]. rewrite lstrip_list_snoc by exact Hc.
  by rewrite rev_app_distr.
Qed.

Lemma strip_list_idempotent l :
  PyStr.strip_list (PyStr.strip_list l) = PyStr.strip_list l.
Proof.
  unfold PyStr.strip_list.
  rewrite (lstrip_list_fixed (PyStr.rstrip_list (PyStr.lstrip_list l)))
    by apply rstrip_list_starts_clean, lstrip_list_starts_clean.
  unfold PyStr.rstrip_list. rewrite rev_involutive.
  by rewrite (lstrip_list_fixed (PyStr.lstrip_list _))
    by apply lstrip_list_starts_clean.
Qed.



(** ** [sanitize_input] *)

(** X1. Whatever the text, what [sanitize_input] returns holds none of the six
    characters it removes, is at most 500 characters long and has no leading
    or trailing whitespace; sanitizing it again changes nothing. *)
Theorem X1_sanitize_input_is_clean_and_idempotent (text : string) :
  Forall (fun c => dangerous c = false) (PyStr.chars (sanitize_input text))
  /\ String.length (sanitize_input text) <= 500
  /\ PyStr.strip (sanitize_input text) = sanitize_input text
  /\ sanitize_input (sanitize_input text) = sanitize_input text.
Proof.
  assert (Hlen : forall l, String.length (PyStr.text l) = length l).
  { induction l as [|c l IH]; simpl; [done | by rewrite <- IH]. }
  assert (Hr : exists l, sanitize_input text = PyStr.text l
                         /\ Forall (fun c => dangerous c = false) l
                         /\ length l <= 500
                         /\ PyStr.strip_list l = l).
  { unfold sanitize_input. destruct (PyStr.falsy text).
    - exists []. repeat split; [constructor | simpl; lia].
    - eexists. split; [reflexivity|]. split; [|split].
      + apply strip_list_Forall, Forall_take, Forall_forall.
        by intros c [Hc _]%list_elem_of_filter.
      + etrans; [apply strip_list_length|]. rewrite length_take. lia.
      + apply strip_list_idempotent. }
  destruct Hr as (l & -> & Hsafe & Hshort & Hstrip).
  rewrite chars_text, Hlen. split; [done|]. split; [done|]. split.
  - unfold PyStr.strip. by rewrite chars_text, Hstrip.
  - unfold sanitize_input. destruct (PyStr.falsy (PyStr.text l)) eqn:Hf'.
    + by apply falsy_true in Hf'.
    + rewrite chars_text.
      assert (Hfilter : filter (fun c => dangerous c = false) l = l).
      { clear -Hsafe. induction Hsafe as [|c l Hc _ IH]; [done|].
        by rewrite filter_cons_True, IH. }
      by rewrite Hfilter, take_ge, Hstrip.
Qed.

(** ** The validators *)

(** X2. An experience text that [validate_experience] accepts parses to NaN
    or to a finite number between 0 and 50, bounds included: never to an
    infinity, never to a negative number. *)
Theorem X2_accepted_experience_is_nan_or_in_range (experience : string) :
  fst (validate_experience experience) = true ->
  PyFloat.float experience = Some FNaN
  \/ exists q, PyFloat.float experience = Some (FNum q) /\ (0 <= q <= 50)%Q.
Proof.
  intros (_ & years & Hparse & Hlt & Hgt)%validate_experience_accepts.
  destruct years as [|negative|q].
  - by left.
  - simpl in Hlt, Hgt. by destruct negative.
  - right. exists q. split; [done|].
    split; [by apply float_ltb_finite | by apply float_gtb_finite].
Qed.

Lemma X2_accepted_experience_is_nan_or_in_range_witness :
  PyFloat.float "12.5" = Some FNaN
  \/ exists q, PyFloat.float "12.5" = Some (FNum q) /\ (0 <= q <= 50)%Q.
Proof.
  apply X2_accepted_experience_is_nan_or_in_range. vm_compute. reflexivity.
Defined.




Lemma name_chars_of_accepted (name : string) :
  fst (validate_name name) = true ->
  PyStr.falsy name = false
  /\ Forall (fun c => name_char c = true) (PyStr.chars name).
Proof.
  unfold validate_name.
  destruct (PyStr.falsy name) eqn:Hf; [done|]. cbn [orb].
  destruct (PyStr.falsy (PyStr.strip name)); [done|].
  destruct (_ <? 2); [done|].
  destruct (name_pattern (PyStr.strip name)) eqn:Hp; [|done]. intros _.
  split; [done|].
  unfold name_pattern in Hp. apply andb_true_iff in Hp as [_ Hp].
  unfold PyStr.strip in Hp. rewrite chars_text in Hp.
  pose proof (proj1 (forallb_forall _ _) Hp) as Hall.
  destruct (strip_list_split (PyStr.chars name)) as (a & b & Hl & Ha & Hb).
  assert (Hspace : forall l, Forall (fun c => PyStr.isspace c = true) l ->
                             Forall (fun c => name_char c = true) l).
  { intros l Hl'. eapply Forall_impl; [exact Hl'|]. intros c Hc.
    unfold name_char. rewrite Hc. by destruct (PyStr.isalpha c). }
  rewrite Hl. apply Forall_app. split; [by apply Hspace|].
  apply Forall_app. split; [|by apply Hspace].
  apply Forall_forall. intros c Hc. apply Hall. by apply list_elem_of_In.
Qed.

(** X4. The name stored for an input that [validate_name] accepts is made
    of letters, whitespace, hyphens and periods only: the apostrophe, which
    the validator allows, is among the characters the sanitizer removes
    before the name is stored. *)
Theorem X4_stored_name_has_no_apostrophe (name : string) :
  fst (validate_name name) = true ->
  Forall (fun c => PyStr.isalpha c = true \/ PyStr.isspace c = true
                   \/ c = "-"%char \/ c = "."%char)
    (PyStr.chars (sanitize_input name)).
Proof.
  intros [Hf Hchars]%name_chars_of_accepted.
  unfold sanitize_input. rewrite Hf, chars_text.
  apply strip_list_Forall, Forall_take, Forall_forall.
  intros c [Hsafe Hc]%list_elem_of_filter.
  rewrite Forall_forall in Hchars. specialize (Hchars c Hc).
  unfold name_char in Hchars.
  destruct (PyStr.isalpha c); [by left|].
  destruct (PyStr.isspace c); [by right; left|].
  destruct (decide (c = "-"%char)) as [?|Hhyphen]; [by right; right; left|].
  destruct (decide (c = "."%char)) as [?|Hperiod]; [by right; right; right|].
  rewrite !bool_decide_eq_false_2 in Hchars by done. cbn [orb] in Hchars.
  apply bool_decide_eq_true in Hchars. subst c. discriminate Hsafe.
Qed.

Lemma X4_stored_name_has_no_apostrophe_witness :
  Forall (fun c => PyStr.isalpha c = true \/ PyStr.isspace c = true
                   \/ c = "-"%char \/ c = "."%char)
    (PyStr.chars (sanitize_input " Conan O'Brien "))
  /\ sanitize_input " Conan O'Brien " = "Conan OBrien".
Proof.
  split; [|vm_compute; reflexivity].
  apply X4_stored_name_has_no_apostrophe. vm_compute. reflexivity.
Defined.

(** ** [normalize_tech_name] *)

Lemma lower_char_idempotent c : PyStr.lower_char (PyStr.lower_char c) = PyStr.lower_char c.
Proof. destruct c as [[] [] [] [] [] [] [] []]; reflexivity. Qed.

Lemma lower_idempotent s : PyStr.lower (PyStr.lower s) = PyStr.lower s.
Proof.
  unfold PyStr.lower. rewrite chars_text, map_map. f_equal.
  apply map_ext. intros c. apply lower_char_idempotent.
Qed.

Lemma strip_idempotent s : PyStr.strip (PyStr.strip s) = PyStr.strip s.
Proof. unfold PyStr.strip. by rewrite chars_text, strip_list_idempotent. Qed.

Lemma strip_lower_fixed s :
  PyStr.strip (PyStr.lower (PyStr.strip (PyStr.lower s))) = PyStr.strip (PyStr.lower s).
Proof.
  rewrite (strip_lower (PyStr.strip (PyStr.lower s))), strip_idempotent.
  by rewrite (strip_lower s), lower_idempotent.
Qed.

Lemma dict_get_elem_of {V} (k : string) (v : V) (d : list (string * V)) :
  dict_get k d = Some v -> (k, v) ∈ d.
Proof.
  induction d as [|[k' v'] d IH]; simpl; [done|].
  destruct (decide (k = k')) as [->|]; [intros [= ->]; by left|].
  intros H. right. by apply IH.
Qed.

(** Every alias stands for a technology of the bank, and no alias target is
    itself an alias. *)
Lemma tech_mapping_targets :
  Forall (fun alias => is_Some (dict_get alias.2 FALLBACK_QUESTION_BANK)
                       /\ normalize_tech_name alias.2 = alias.2)
    tech_mapping.
Proof. repeat constructor; vm_compute; eauto. Qed.

(** X5. [normalize_tech_name] does not mind the case of its argument nor the
    whitespace around it, normalizing twice is normalizing once, and an alias
    of the table is always taken to a technology the question bank has. *)
Theorem X5_normalize_tech_name_is_stable (tech : string) :
  normalize_tech_name (normalize_tech_name tech) = normalize_tech_name tech
  /\ normalize_tech_name (PyStr.lower tech) = normalize_tech_name tech
  /\ normalize_tech_name (PyStr.strip tech) = normalize_tech_name tech
  /\ (is_Some (dict_get (PyStr.strip (PyStr.lower tech)) tech_mapping) ->
      is_Some (dict_get (normalize_tech_name tech) FALLBACK_QUESTION_BANK)).
Proof.
  assert (Halias : forall k v, dict_get k tech_mapping = Some v ->
                               is_Some (dict_get v FALLBACK_QUESTION_BANK)
                               /\ normalize_tech_name v = v).
  { intros k v Hkv%dict_get_elem_of.
    pose proof tech_mapping_targets as Hall. rewrite Forall_forall in Hall.
    exact (Hall (k, v) Hkv). }
  split; [|split; [|split]].
  - unfold normalize_tech_name at 2 3.
    destruct (dict_get (PyStr.strip (PyStr.lower tech)) tech_mapping) as [v|] eqn:Hv.
    + simpl. by destruct (Halias _ _ Hv).
    + simpl. unfold normalize_tech_name. by rewrite strip_lower_fixed, Hv.
  - unfold normalize_tech_name. by rewrite lower_idempotent.
  - unfold normalize_tech_name.
    by rewrite (strip_lower (PyStr.strip tech)), strip_idempotent, <- strip_lower.
  - intros [v Hv]. unfold normalize_tech_name. rewrite Hv. simpl.
    by destruct (Halias _ _ Hv).
Qed.

Example normalize_tech_name_samples :
  normalize_tech_name " JS " = "javascript"
  /\ normalize_tech_name "k8s" = "kubernetes"
  /\ normalize_tech_name "React.js" = "react"
  /\ normalize_tech_name "Erlang" = "erlang".
Proof. repeat split; vm_compute; reflexivity. Qed.

(** ** [get_fallback_questions] *)

Lemma startswith_list_refl l : PyStr.startswith_list l l = true.
Proof. induction l as [|c l IH]; simpl; [done|]. by rewrite decide_True. Qed.

Lemma contains_refl s : PyStr.contains s s = true.
Proof.
  unfold PyStr.contains. destruct (PyStr.chars s) as [|c l] eqn:H; [done|].
  cbn [PyStr.contains_list]. by rewrite startswith_list_refl.
Qed.

Lemma contains_between sub a b : PyStr.contains sub (a +:+ sub +:+ b) = true.
Proof. apply contains_app_r, contains_app_l, contains_refl. Qed.

(** X6. For a technology whose normalized name the bank does not have,
    [get_fallback_questions] draws nothing at random and returns the first
    [max_questions] of three generic questions, each of which mentions the
    technology as it was written. *)
Theorem X6_unknown_technology_gets_generic_questions
  (E : Env) (tech : string) (max_questions : nat) (w : world) :
  dict_get (normalize_tech_name tech) FALLBACK_QUESTION_BANK = None ->
  (get_fallback_questions E tech max_questions w).2 = w
  /\ length (get_fallback_questions E tech max_questions w).1 = Nat.min max_questions 3
  /\ Forall (fun q => PyStr.contains tech q = true)
       (get_fallback_questions E tech max_questions w).1.
Proof.
  intros Hunknown. unfold get_fallback_questions. rewrite Hunknown. cbn [fst snd].
  split; [done|]. split; [by rewrite length_take|].
  apply Forall_take. unfold generic_questions.
  repeat constructor; apply contains_between.
Qed.

Lemma X6_unknown_technology_gets_generic_questions_witness :
  (get_fallback_questions offline "Erlang" 2 quiet).2 = quiet
  /\ length (get_fallback_questions offline "Erlang" 2 quiet).1 = Nat.min 2 3
  /\ Forall (fun q => PyStr.contains "Erlang" q = true)
       (get_fallback_questions offline "Erlang" 2 quiet).1.
Proof.
  apply X6_unknown_technology_gets_generic_questions. vm_compute. reflexivity.
Defined.

(** ** [generate_technical_questions] *)

Lemma parse_line_nonempty (raw q : string) : parse_line raw = Some q -> q <> "".
Proof.
  unfold parse_line. destruct (match PyStr.strip_list (PyStr.chars raw) with
                               | [] => false | c :: _ => _ end); [|done].
  destruct (PyStr.strip_list (lstrip_marks _)) as [|c l]; [done|].
  by intros [= <-].
Qed.

Lemma parse_questions_nonempty (response : string) :
  Forall (fun q => q <> "") (parse_questions response).
Proof.
  apply Forall_forall. intros q Hq. unfold parse_questions in Hq.
  apply list_elem_of_omap in Hq as (raw & _ & Hraw).
  by apply parse_line_nonempty in Hraw.
Qed.

Lemma ensure_count_nonempty technology num_questions questions :
  Forall (fun q => q <> "") questions ->
  Forall (fun q => q <> "") (ensure_count technology num_questions questions).
Proof.
  intros H. unfold ensure_count. apply Forall_take.
  destruct (_ <? _); [|done]. apply Forall_app. split; [done|].
  apply Forall_take. unfold template_questions. by repeat constructor.
Qed.

Lemma three_asked_three_generated
  (E : Env) (technology : string) (experience_years : pyfloat) (w : world) :
  length (generate_technical_questions E technology experience_years 3 w).1 = 3.
Proof.
  unfold generate_technical_questions.
  destruct (generate_response E _ 3 w) as [response w']. apply ensure_count_three.
Qed.

(** X7. Whatever the model answers, [generate_technical_questions] returns
    at most the number of questions asked for and at least the lesser of that
    number and three, so exactly that number when it is at most three; and no
    question it returns is the empty text. *)
Theorem X7_generated_questions_count_and_content
  (E : Env) (technology : string) (experience_years : pyfloat)
  (num_questions : nat) (w : world) :
  Nat.min num_questions 3
  <= length (generate_technical_questions E technology experience_years num_questions w).1
  <= num_questions
  /\ Forall (fun q => q <> "")
       (generate_technical_questions E technology experience_years num_questions w).1.
Proof.
  unfold generate_technical_questions.
  destruct (generate_response E _ 3 w) as [response w']. cbn [fst].
  rewrite ensure_count_length. split; [lia|].
  apply ensure_count_nonempty, parse_questions_nonempty.
Qed.

(** ** [generate_questions_for_tech_stack] *)

Lemma dict_set_keys {V} (k : string) (v : V) (d : list (string * V)) :
  map fst (dict_set k v d)
  = if decide (k ∈ map fst d) then map fst d else map fst d ++ [k].
Proof.
  induction d as [|[k' v'] d IH]; simpl; [done|].
  destruct (decide (k = k')) as [->|Hne]; simpl.
  - by rewrite decide_True by left.
  - rewrite IH. destruct (decide (k ∈ map fst d)) as [Hin|Hnot].
    + by rewrite decide_True by (by right).
    + rewrite decide_False; [done|]. by intros [?|?]%elem_of_cons.
Qed.

Lemma dict_set_Forall {V} (P : V -> Prop) (k : string) (v : V) (d : list (string * V)) :
  P v -> Forall (fun entry => P entry.2) d ->
  Forall (fun entry => P entry.2) (dict_set k v d).
Proof.
  intros Hv. induction 1 as [|[k' v'] d Hd Hrest IH]; simpl; [by repeat constructor|].
  destruct (decide (k = k')); by constructor.
Qed.

Lemma dict_get_set_eq {V} (k : string) (v : V) (d : list (string * V)) :
  dict_get k (dict_set k v d) = Some v.
Proof.
  induction d as [|[k' v'] d IH]; simpl; [by rewrite decide_True|].
  destruct (decide (k = k')) as [->|Hne]; simpl.
  - by rewrite decide_True.
  - by rewrite decide_False.
Qed.

Lemma fresh_keys_elem_of seen techs x :
  x ∈ fresh_keys seen techs <-> x ∈ techs /\ x ∉ seen.
Proof.
  revert seen. induction techs as [|tech rest IH]; intros seen; simpl.
  - split; [by intros ?%elem_of_nil | by intros [?%elem_of_nil _]].
  - destruct (decide (tech ∈ seen)) as [Hin|Hnot].
    + rewrite IH, elem_of_cons. split; [tauto|].
      intros [[->|?] ?]; [done | tauto].
    + rewrite !elem_of_cons, IH, elem_of_app, list_elem_of_singleton.
      destruct (decide (x = tech)) as [->|Hne]; [tauto|]. tauto.
Qed.

Lemma fresh_keys_NoDup seen techs : NoDup seen -> NoDup (seen ++ fresh_keys seen techs).
Proof.
  revert seen. induction techs as [|tech rest IH]; intros seen Hseen; simpl.
  - by rewrite app_nil_r.
  - destruct (decide (tech ∈ seen)) as [Hin|Hnot]; [by apply IH|].
    replace (seen ++ tech :: fresh_keys (seen ++ [tech]) rest)
      with ((seen ++ [tech]) ++ fresh_keys (seen ++ [tech]) rest)
      by (by rewrite <- app_assoc).
    apply IH. apply NoDup_app. split; [done|]. split.
    + intros x Hx ->%list_elem_of_singleton. done.
    + apply NoDup_singleton.
Qed.

Lemma fresh_keys_sublist seen techs : fresh_keys seen techs `sublist_of` techs.
Proof.
  revert seen. induction techs as [|tech rest IH]; intros seen; simpl; [done|].
  destruct (decide (tech ∈ seen)).
  - by apply sublist_cons.
  - by apply sublist_skip.
Qed.

(** The question prompt makes the adapter's fallback the canned list, with
    nothing drawn at random. *)
Lemma fallback_for_questions (E : Env) (prompt : string) (w : world) :
  PyStr.contains "technical question" (PyStr.lower prompt) = true ->
  _fallback_response E prompt w = (_fallback_technical_questions, w).
Proof. intros H. unfold _fallback_response. by rewrite H. Qed.

Lemma retry_loop_draws (E : Env) g prompt max_retries :
  PyStr.contains "technical question" (PyStr.lower prompt) = true ->
  forall remaining attempt w,
    draws (retry_loop E g prompt max_retries remaining attempt w).2 = draws w
    /\ audit (retry_loop E g prompt max_retries remaining attempt w).2 = audit w.
Proof.
  intros Hprompt. induction remaining as [|remaining IH]; intros attempt w; simpl.
  - by rewrite fallback_for_questions.
  - destruct (g (calls w) prompt) as [|text].
    + destruct (_ =? _); [by rewrite fallback_for_questions|].
      by destruct (IH (S attempt) (slept (2 ^ attempt) (called w))) as [-> ->].
    + destruct (PyStr.falsy text); [|done].
      by destruct (IH (S attempt) (called w)) as [-> ->].
Qed.

Lemma generate_technical_questions_draws (E : Env) technology experience_years n w :
  draws (generate_technical_questions E technology experience_years n w).2 = draws w
  /\ audit (generate_technical_questions E technology experience_years n w).2 = audit w.
Proof.
  unfold generate_technical_questions, generate_response, question_prompt.
  pose proof (question_prompt_mentions_technical_question
                (PyStr.str_of_nat n) technology (experience_level experience_years)
                (float_str E experience_years)) as Hprompt.
  destruct (gemini_model E) as [g|].
  - pose proof (retry_loop_draws E g _ 3 Hprompt 3 0 w) as H.
    by destruct (retry_loop E g _ 3 3 0 w).
  - by rewrite fallback_for_questions.
Qed.

Lemma questions_loop_spec (E : Env) (candidate_experience : pyfloat) :
  forall techs questions_by_tech w,
    Forall (fun entry => length entry.2 = 3) questions_by_tech ->
    map fst (questions_loop E techs 3 candidate_experience questions_by_tech w).1
    = map fst questions_by_tech ++ fresh_keys (map fst questions_by_tech) techs
    /\ Forall (fun entry => length entry.2 = 3)
         (questions_loop E techs 3 candidate_experience questions_by_tech w).1
    /\ draws (questions_loop E techs 3 candidate_experience questions_by_tech w).2
       = draws w
    /\ audit (questions_loop E techs 3 candidate_experience questions_by_tech w).2
       = audit w.
Proof.
  induction techs as [|tech rest IH]; intros acc w Hacc; simpl.
  - by rewrite app_nil_r.
  - pose proof (three_asked_three_generated E tech candidate_experience w)
      as Hlen.
    pose proof (generate_technical_questions_draws E tech candidate_experience 3 w)
      as [Hdraws Haudit].
    destruct (generate_technical_questions E tech candidate_experience 3 w)
      as [llm_questions w1]. cbn [fst snd] in *.
    rewrite Hlen. cbn [Nat.ltb Nat.leb].
    destruct (IH (dict_set tech llm_questions acc) w1) as (Hkeys & Hall & Hd & Ha).
    { by apply (dict_set_Forall (fun qs => length qs = 3)). }
    rewrite Hkeys, Hd, Ha, Hdraws, Haudit. split; [|done].
    rewrite dict_set_keys. destruct (decide (tech ∈ map fst acc)); [done|].
    by rewrite <- app_assoc.
Qed.

Lemma dict_set_Forall_entry {V} (P : string * V -> Prop) (k : string) (v : V)
  (d : list (string * V)) :
  P (k, v) -> Forall P d -> Forall P (dict_set k v d).
Proof.
  intros Hv. induction 1 as [|[k' v'] d Hd Hrest IH]; simpl; [by repeat constructor|].
  destruct (decide (k = k')); by constructor.
Qed.

Lemma questions_loop_origin (E : Env) (candidate_experience : pyfloat) :
  forall techs questions_by_tech w,
    Forall (fun entry => exists w0,
              entry.2 = (generate_technical_questions E entry.1
                           candidate_experience 3 w0).1) questions_by_tech ->
    Forall (fun entry => exists w0,
              entry.2 = (generate_technical_questions E entry.1
                           candidate_experience 3 w0).1)
      (questions_loop E techs 3 candidate_experience questions_by_tech w).1.
Proof.
  induction techs as [|tech rest IH]; intros acc w Hacc; simpl; [done|].
  pose proof (three_asked_three_generated E tech candidate_experience w) as Hlen.
  destruct (generate_technical_questions E tech candidate_experience 3 w)
    as [llm_questions w1] eqn:Hgen. cbn [fst snd] in *.
  rewrite Hlen. cbn [Nat.ltb Nat.leb].
  apply IH. apply dict_set_Forall_entry; [|done].
  exists w. cbn [fst snd]. by rewrite Hgen.
Qed.

Lemma all_questions_count (questions_by_tech : list (string * list string)) :
  length (all_questions_of questions_by_tech)
  = list_sum (map (fun '(_, questions) => length questions) questions_by_tech).
Proof.
  unfold all_questions_of.
  induction questions_by_tech as [|[tech questions] rest IH]; simpl; [done|].
  by rewrite length_app, length_map, IH.
Qed.

Lemma all_questions_three_each (questions_by_tech : list (string * list string)) :
  Forall (fun entry => length entry.2 = 3) questions_by_tech ->
  length (all_questions_of questions_by_tech) = 3 * length questions_by_tech.
Proof.
  unfold all_questions_of.
  induction 1 as [|[tech questions] rest Hq _ IH]; simpl; [done|].
  simpl in Hq. rewrite length_app, length_map, IH, Hq. lia.
Qed.

Lemma question_set_shape
  (E : Env) (techs : list string) (candidate_experience : pyfloat) (w : world) :
  map fst (generate_questions_for_tech_stack E techs 3 candidate_experience w).1
  = fresh_keys [] techs
  /\ Forall (fun entry => length entry.2 = 3)
       (generate_questions_for_tech_stack E techs 3 candidate_experience w).1
  /\ draws (generate_questions_for_tech_stack E techs 3 candidate_experience w).2
     = draws w
  /\ audit (generate_questions_for_tech_stack E techs 3 candidate_experience w).2
     = audit w.
Proof.
  unfold generate_questions_for_tech_stack.
  by destruct (questions_loop_spec E candidate_experience techs [] w (Forall_nil_2 _))
    as (? & ? & ? & ?).
Qed.

(** X8. The question set built for a technology list has one entry per
    distinct technology, in the order of first occurrence in the list (a name
    given twice is one entry), and three questions in every entry, so three
    times as many questions as there are distinct technologies. *)
Theorem X8_question_set_has_one_entry_per_distinct_technology
  (E : Env) (techs : list string) (candidate_experience : pyfloat) (w : world) :
  map fst (generate_questions_for_tech_stack E techs 3 candidate_experience w).1
  = fresh_keys [] techs
  /\ NoDup (map fst (generate_questions_for_tech_stack E techs 3
                       candidate_experience w).1)
  /\ (forall tech,
        tech ∈ map fst (generate_questions_for_tech_stack E techs 3
                          candidate_experience w).1
        <-> tech ∈ techs)
  /\ map fst (generate_questions_for_tech_stack E techs 3 candidate_experience w).1
     `sublist_of` techs
  /\ Forall (fun entry => length entry.2 = 3)
       (generate_questions_for_tech_stack E techs 3 candidate_experience w).1
  /\ length (all_questions_of
               (generate_questions_for_tech_stack E techs 3 candidate_experience w).1)
     = 3 * length (fresh_keys [] techs).
Proof.
  destruct (question_set_shape E techs candidate_experience w) as (Hkeys & Hall & _ & _).
  split; [done|]. rewrite Hkeys. split; [|split; [|split; [|split]]].
  - apply (fresh_keys_NoDup [] techs). constructor.
  - intros tech. rewrite fresh_keys_elem_of. split; [tauto|].
    intros H. split; [done | by intros ?%elem_of_nil].
  - apply fresh_keys_sublist.
  - done.
  - rewrite all_questions_three_each by done. by rewrite <- Hkeys, length_map.
Qed.

(** X9. With the three questions per technology the program asks for, every
    entry of the question set is what [generate_technical_questions] returned
    for its technology: the static bank of [get_fallback_questions] is never
    consulted, nothing is drawn at random and nothing is logged. *)
Theorem X9_question_set_never_comes_from_the_bank
  (E : Env) (techs : list string) (candidate_experience : pyfloat) (w : world) :
  Forall (fun entry => exists w0,
            entry.2 = (generate_technical_questions E entry.1
                         candidate_experience 3 w0).1)
    (generate_questions_for_tech_stack E techs 3 candidate_experience w).1
  /\ draws (generate_questions_for_tech_stack E techs 3 candidate_experience w).2
     = draws w
  /\ audit (generate_questions_for_tech_stack E techs 3 candidate_experience w).2
     = audit w.
Proof.
  unfold generate_questions_for_tech_stack. split.
  - apply questions_loop_origin. constructor.
  - by destruct (questions_loop_spec E candidate_experience techs [] w (Forall_nil_2 _))
      as (_ & _ & ? & ?).
Qed.

(** X10. When the technology list is accepted, the number of questions the
    reply announces is the number of questions the interview will ask, three
    for each distinct technology and at least three; the question set is not
    empty, the cursor is untouched and the completed profile is logged, once. *)
Theorem X10_announced_total_is_the_number_of_questions
  (E : Env) (s : session) (user_input : string) (w : world) :
  fst (validate_tech_stack user_input) = true ->
  exists total s' w',
    handle_tech_assessment_stage E s user_input w
    = (QuestionsPrepared (split_techs user_input)
         (default (FNum 2) (experience (candidate s))) total, s', w')
    /\ total = length (all_questions_of (technical_questions s'))
    /\ total = 3 * length (fresh_keys [] (split_techs user_input))
    /\ 3 <= total
    /\ technical_questions s' <> []
    /\ current_question_index s' = current_question_index s
    /\ audit w' = audit w ++ [(session_id s, "candidate_profile_complete")].
Proof.
  intros Hvalid.
  pose proof (validate_tech_stack_bounds user_input Hvalid) as [Hlo _].
  unfold handle_tech_assessment_stage.
  destruct (validate_tech_stack user_input) as [is_valid error_msg].
  simpl in Hvalid. subst is_valid. cbn [negb].
  cbn [candidate with_candidate experience set_tech_stack].
  pose proof (question_set_shape E (split_techs user_input)
                (default (FNum 2) (experience (candidate s))) w)
    as (Hkeys & Hall & Hdraws & Haudit).
  destruct (generate_questions_for_tech_stack E (split_techs user_input) 3
              (default (FNum 2) (experience (candidate s))) w)
    as [questions_by_tech w1]. cbn [fst snd] in *.
  eexists _, _, _. split; [reflexivity|].
  cbn [technical_questions current_question_index with_stage with_questions
       with_candidate session_id audit log_interaction].
  assert (Hfresh : 1 <= length (fresh_keys [] (split_techs user_input))).
  { destruct (split_techs user_input) as [|tech rest]; [simpl in Hlo; lia|].
    simpl. lia. }
  assert (Htotal : length (all_questions_of questions_by_tech)
                   = 3 * length (fresh_keys [] (split_techs user_input))).
  { rewrite all_questions_three_each by done. by rewrite <- Hkeys, length_map. }
  rewrite <- all_questions_count, Htotal, Haudit.
  repeat split; try lia.
  intros ->. simpl in Hkeys. rewrite <- Hkeys in Hfresh. simpl in Hfresh. lia.
Qed.

Lemma X10_announced_total_is_the_number_of_questions_witness :
  exists total s' w',
    handle_tech_assessment_stage terse assessing "Python, Erlang; python | Python" quiet
    = (QuestionsPrepared (split_techs "Python, Erlang; python | Python")
         (default (FNum 2) (experience (candidate assessing))) total, s', w')
    /\ total = length (all_questions_of (technical_questions s'))
    /\ total = 3 * length (fresh_keys [] (split_techs "Python, Erlang; python | Python"))
    /\ 3 <= total
    /\ technical_questions s' <> []
    /\ current_question_index s' = current_question_index assessing
    /\ audit w' = audit quiet ++ [(session_id assessing, "candidate_profile_complete")].
Proof.
  apply X10_announced_total_is_the_number_of_questions. vm_compute. reflexivity.
Defined.

(** ** Invariants of the conversation *)

Lemma collect_coherent (E : Env) (s : session) (user_input : string) :
  stage s = INFO_COLLECTION -> consent_given s = true ->
  coherent s -> coherent (_collect_candidate_info E s user_input).2.
Proof.
  intros Hstage Hconsent Hs. unfold _collect_candidate_info.
  destruct (name (candidate s)) eqn:Hn; [destruct (email (candidate s)) eqn:He;
    [destruct (phone (candidate s)) eqn:Hp;
       [destruct (experience (candidate s)) eqn:Hx|]|]|];
    repeat case_match; simplify_eq; revert Hs;
    unfold coherent, filled_in_order;
    cbn [fst snd candidate stage consent_given with_stage with_candidate
         name email phone experience tech_stack answers has stage_rank
         set_name set_email set_phone set_experience];
    rewrite ?Hn, ?He, ?Hp, ?Hx, ?Hstage, ?Hconsent; cbn [has stage_rank];
    intros; intuition (try congruence; try lia).
Qed.

Lemma technical_questions_coherent (E : Env) (s : session) (user_input : string) (w : world) :
  stage s = TECHNICAL_QUESTIONS ->
  coherent s -> coherent (handle_technical_questions_stage E s user_input w).1.2.
Proof.
  intros Hstage (Horder & Hconsent & Hexp & Htech).
  assert (Hx : has (experience (candidate s)) = true) by (apply Hexp; rewrite Hstage; simpl; lia).
  assert (Ht : has (tech_stack (candidate s)) = true) by (apply Htech; rewrite Hstage; simpl; lia).
  assert (Hc : consent_given s = true).
  { destruct (consent_given s); [done|]. destruct Hconsent as [_ Hrank]; [done|].
    rewrite Hstage in Hrank. simpl in Hrank. lia. }
  unfold handle_technical_questions_stage, store_answer, _complete_assessment.
  repeat case_match; simplify_eq;
    unfold coherent, filled_in_order in *;
    cbn [fst snd candidate stage consent_given with_stage with_candidate
         with_index with_messages add_message
         name email phone experience tech_stack answers has stage_rank set_answers] in *;
    rewrite ?Hc, ?Hstage in *; cbn [stage_rank] in *;
    intuition (try congruence; try lia).
Qed.

(** Every call keeps the session coherent. *)
Lemma process_message_coherent (E : Env) (s : session) (user_input : string) (w : world) :
  coherent s -> coherent (process_message E s user_input w).1.2.
Proof.
  intros Hs. unfold process_message.
  destruct (PyStr.falsy user_input); [done|].
  destruct (check_exit_intent s user_input w) as [[[]|e] w']; try done.
  destruct (is_restart user_input).
  { unfold handle_greeting_stage, fresh, coherent, filled_in_order. simpl.
    intuition (try congruence; try lia). }
  destruct (stage s) eqn:Hstage.
  - revert Hs. unfold handle_greeting_stage, coherent, filled_in_order.
    cbn [fst snd candidate stage consent_given with_stage]. rewrite Hstage.
    cbn [stage_rank]. intuition (try congruence; try lia).
  - revert Hs. unfold handle_consent_stage, coherent, filled_in_order.
    repeat case_match; simplify_eq;
      cbn [fst snd candidate stage consent_given with_stage]; rewrite ?Hstage;
      cbn [stage_rank]; intuition (try congruence; try lia).
  - unfold handle_info_collection_stage.
    destruct (consent_given s) eqn:Hconsent; cbn [negb].
    + pose proof (collect_coherent E s user_input Hstage Hconsent Hs) as H.
      by destruct (_collect_candidate_info E s user_input) as [r s'].
    + revert Hs. unfold coherent, filled_in_order.
      case_match;
        cbn [fst snd candidate stage consent_given with_consent];
        rewrite ?Hstage, ?Hconsent; cbn [stage_rank];
        intuition (try congruence; try lia).
  - revert Hs. unfold handle_tech_assessment_stage, coherent, filled_in_order.
    repeat case_match; simplify_eq;
      cbn [fst snd candidate stage consent_given with_stage with_candidate
           with_questions name email phone experience tech_stack answers has
           set_tech_stack];
      rewrite ?Hstage; cbn [stage_rank]; intros;
      intuition (try congruence; try lia).
    all: match goal with
         | H : _ <= _ -> ?G |- ?G => apply H; lia
         end.
  - by apply technical_questions_coherent.
  - done.
Qed.

Lemma fresh_coherent sid : coherent (fresh sid).
Proof.
  unfold coherent, filled_in_order, fresh. simpl.
  intuition (try congruence; try lia).
Qed.

Lemma run_coherent (E : Env) (inputs : list string) :
  forall s w, coherent s -> coherent (run E s w inputs).1.
Proof.
  induction inputs as [|user_input inputs IH]; intros s w Hs; [done|].
  cbn [run]. pose proof (process_message_coherent E s user_input w Hs) as Hstep.
  destruct (process_message E s user_input w) as [[r s'] w']. by apply IH.
Qed.

(** X11. In every session a conversation can reach from a fresh one, restarts
    included, either consent has been given or nothing at all is recorded
    about the candidate and the stage is InfoCollection at most. *)
Theorem X11_nothing_is_recorded_before_consent
  (E : Env) (sid : string) (w : world) (inputs : list string) :
  consent_given (run E (fresh sid) w inputs).1 = true
  \/ (candidate (run E (fresh sid) w inputs).1 = no_data
      /\ stage_rank (stage (run E (fresh sid) w inputs).1) <= 2).
Proof.
  destruct (run_coherent E inputs (fresh sid) w (fresh_coherent sid))
    as (_ & Hconsent & _).
  destruct (consent_given (run E (fresh sid) w inputs).1); [by left|].
  right. by apply Hconsent.
Qed.

(** X12. In every session a conversation can reach from a fresh one, the
    candidate record is filled in the order name, email, phone, experience,
    technology list, answers: no field is there without the one before it;
    and the experience is there from the TechAssessment stage on, the
    technology list from the TechnicalQuestions stage on. *)
Theorem X12_record_is_filled_in_order
  (E : Env) (sid : string) (w : world) (inputs : list string) :
  filled_in_order (candidate (run E (fresh sid) w inputs).1)
  /\ (stage_rank (stage (run E (fresh sid) w inputs).1) < 3
      \/ has (experience (candidate (run E (fresh sid) w inputs).1)) = true)
  /\ (stage_rank (stage (run E (fresh sid) w inputs).1) < 4
      \/ has (tech_stack (candidate (run E (fresh sid) w inputs).1)) = true).
Proof.
  destruct (run_coherent E inputs (fresh sid) w (fresh_coherent sid))
    as (Horder & _ & Hexp & Htech).
  split; [done|]. split.
  - destruct (Nat.lt_ge_cases (stage_rank (stage (run E (fresh sid) w inputs).1)) 3);
      [by left | right; by apply Hexp].
  - destruct (Nat.lt_ge_cases (stage_rank (stage (run E (fresh sid) w inputs).1)) 4);
      [by left | right; by apply Htech].
Qed.

(** X13. In every session a conversation can reach from a fresh one, the
    question cursor is at most the number of questions of the set, and it is
    0 as long as the stage is before TechnicalQuestions. *)
Theorem X13_cursor_stays_within_the_questions
  (E : Env) (sid : string) (w : world) (inputs : list string) :
  current_question_index (run E (fresh sid) w inputs).1
  <= length (all_questions_of (technical_questions (run E (fresh sid) w inputs).1))
  /\ (4 <= stage_rank (stage (run E (fresh sid) w inputs).1)
      \/ current_question_index (run E (fresh sid) w inputs).1 = 0).
Proof.
  destruct (reachable_cursor_in_range E inputs (fresh sid) w (fresh_cursor_in_range sid))
    as [Hle Hzero].
  split; [done|].
  destruct (Nat.lt_ge_cases (stage_rank (stage (run E (fresh sid) w inputs).1)) 4);
    [right; by apply Hzero | by left].
Qed.

(** What a call that is not a restart does to the cursor and the questions. *)
Lemma process_message_cursor_step
  (E : Env) (s : session) (user_input : string) (w : world) :
  is_restart user_input = false ->
  current_question_index s
  <= current_question_index (process_message E s user_input w).1.2
  <= current_question_index s + 1
  /\ (4 <= stage_rank (stage s) ->
      technical_questions (process_message E s user_input w).1.2
      = technical_questions s).
Proof.
  intros Hrestart. unfold process_message. rewrite Hrestart.
  destruct (PyStr.falsy user_input); [simpl; split; [lia | done]|].
  destruct (check_exit_intent s user_input w) as [[[]|e] w'];
    try (simpl; split; [lia | done]).
  destruct (stage s) eqn:Hstage; cbn [stage_rank].
  - simpl. split; [lia | done].
  - unfold handle_consent_stage.
    repeat case_match; simplify_eq; simpl; (split; [lia | intros; lia]).
  - unfold handle_info_collection_stage, _collect_candidate_info.
    repeat case_match; simplify_eq; simpl; (split; [lia | intros; lia]).
  - split; [|lia]. unfold handle_tech_assessment_stage.
    repeat case_match; simplify_eq; simpl; lia.
  - destruct (technical_questions_step E s user_input w') as [Hqs Hcur].
    split; [lia | done].
  - simpl. split; [lia | done].
Qed.

(** X14. A call of [process_message] whose input is not a restart never
    moves the question cursor back and never moves it forward by more than
    one. *)
Theorem X14_cursor_moves_forward_one_step_at_most
  (E : Env) (s : session) (user_input : string) (w : world) :
  is_restart user_input = false ->
  current_question_index s
  <= current_question_index (process_message E s user_input w).1.2
  <= current_question_index s + 1.
Proof. intros H. by destruct (process_message_cursor_step E s user_input w H). Qed.

Lemma X14_cursor_moves_forward_one_step_at_most_witness :
  current_question_index (interview two_questions 1)
  <= current_question_index
       (process_message terse (interview two_questions 1) "It counts references." quiet).1.2
  <= current_question_index (interview two_questions 1) + 1.
Proof.
  apply X14_cursor_moves_forward_one_step_at_most. reflexivity.
Defined.

(** X15. Once the stage is TechnicalQuestions or Completion, the question
    set is never changed again by any sequence of inputs that holds no
    restart: the flat list of questions the cursor points into stays the
    same from call to call. *)
Theorem X15_question_set_is_fixed_once_generated
  (E : Env) (s : session) (w : world) (inputs : list string) :
  4 <= stage_rank (stage s) ->
  Forall (fun user_input => is_restart user_input = false) inputs ->
  technical_questions (run E s w inputs).1 = technical_questions s.
Proof.
  revert s w. induction inputs as [|user_input inputs IH]; intros s w Hstage Hall;
    [done|].
  apply Forall_cons in Hall as [Hrestart Hall]. cbn [run].
  destruct (process_message_cursor_step E s user_input w Hrestart) as [_ Hqs].
  pose proof (process_message_stage_step E s user_input w Hrestart) as Hstep.
  destruct (process_message E s user_input w) as [[r s'] w']. cbn [fst snd] in *.
  rewrite IH; [by apply Hqs | | done].
  destruct Hstep as [->| ->]; [done|]. destruct (stage s); simpl in *; lia.
Qed.

Lemma X15_question_set_is_fixed_once_generated_witness :
  technical_questions
    (run terse (interview two_questions 0) quiet
       ["ready"; "It counts references."; "  "; "One lock for the bytecode."]).1
  = technical_questions (interview two_questions 0).
Proof.
  apply X15_question_set_is_fixed_once_generated.
  - simpl. lia.
  - repeat constructor.
Defined.

(** X16. A completed session is final: whatever is typed, short of a
    restart, the session stays exactly as it is. *)
Theorem X16_completed_session_never_changes
  (E : Env) (s : session) (w : world) (inputs : list string) :
  stage s = COMPLETION ->
  Forall (fun user_input => is_restart user_input = false) inputs ->
  (run E s w inputs).1 = s.
Proof.
  intros Hstage. revert w. induction inputs as [|user_input inputs IH]; intros w Hall;
    [done|].
  apply Forall_cons in Hall as [Hrestart Hall]. cbn [run].
  assert (Hsame : (process_message E s user_input w).1.2 = s).
  { unfold process_message. rewrite Hrestart, Hstage.
    destruct (PyStr.falsy user_input); [done|].
    by destruct (check_exit_intent s user_input w) as [[[]|e] w']. }
  destruct (process_message E s user_input w) as [[r s'] w']. cbn [fst snd] in Hsame.
  subst s'. by apply IH.
Qed.

Lemma X16_completed_session_never_changes_witness :
  (run terse (with_stage COMPLETION (interview one_question 1)) quiet
     ["hello"; "ready"; "Python, Erlang"; "  "]).1
  = with_stage COMPLETION (interview one_question 1).
Proof.
  apply X16_completed_session_never_changes.
  - reflexivity.
  - repeat constructor.
Defined.

(** ** Restart, re-prompts and the deletion request *)

(** X17. An input that is [restart] once trimmed and lowercased throws the
    whole session away, whatever it held: the candidate record, the messages,
    the questions, the cursor and the consent are those of a fresh session
    that has just been greeted; only the session id is kept, and the world is
    not touched. *)
Theorem X17_restart_keeps_only_the_session_id
  (E : Env) (s : session) (user_input : string) (w : world) :
  is_restart user_input = true ->
  process_message E s user_input w
  = (Returns Welcome, with_stage CONSENT (fresh (session_id s)), w).
Proof.
  intros Hrestart.
  destruct (restart_passes_exit_check s user_input w Hrestart) as [Hne Hexit].
  unfold process_message. by rewrite Hne, Hexit, Hrestart.
Qed.

Lemma X17_restart_keeps_only_the_session_id_witness :
  process_message terse (interview two_questions 1) "  ReStart " quiet
  = (Returns Welcome,
     with_stage CONSENT (fresh (session_id (interview two_questions 1))), quiet).
Proof.
  apply X17_restart_keeps_only_the_session_id. vm_compute. reflexivity.
Defined.

(** The three ways the exit check ends. *)
Lemma check_exit_intent_cases (s : session) (user_input : string) (w : world) :
  check_exit_intent s user_input w = (Returns true, w)
  \/ check_exit_intent s user_input w = (Returns false, w)
  \/ check_exit_intent s user_input w
     = (Raised StopException,
        log_interaction (session_id s) "data_deletion_request" w).
Proof.
  unfold check_exit_intent, handle_data_deletion_request.
  repeat case_match; auto.
Qed.

(** X18. Whenever [process_message] answers with a rejection of the input or
    with a prompt to try the same step again, it has changed nothing: the
    session and the world are those it was given. *)
Theorem X18_a_reprompt_changes_nothing
  (E : Env) (s : session) (user_input : string) (w : world) :
  reprompts (process_message E s user_input w).1.1 = true ->
  (process_message E s user_input w).1.2 = s
  /\ (process_message E s user_input w).2 = w.
Proof.
  unfold process_message.
  destruct (PyStr.falsy user_input); [done|].
  destruct (check_exit_intent_cases s user_input w) as [-> | [-> | ->]];
    [done | | done].
  destruct (is_restart user_input); [done|].
  destruct (stage s).
  - done.
  - unfold handle_consent_stage. by repeat case_match; simplify_eq.
  - unfold handle_info_collection_stage, _collect_candidate_info.
    by repeat case_match; simplify_eq.
  - unfold handle_tech_assessment_stage. by repeat case_match; simplify_eq.
  - unfold handle_technical_questions_stage, store_answer, _complete_assessment.
    by repeat case_match; simplify_eq.
  - done.
Qed.

Lemma X18_a_reprompt_changes_nothing_witness :
  (process_message terse (collecting (set_name "Ada Lovelace" no_data))
     "ada at example dot org" quiet).1.2
  = collecting (set_name "Ada Lovelace" no_data)
  /\ (process_message terse (collecting (set_name "Ada Lovelace" no_data))
        "ada at example dot org" quiet).2 = quiet.
Proof.
  apply X18_a_reprompt_changes_nothing. vm_compute. reflexivity.
Defined.

(** X19. An input that holds no exit keyword but holds one of the two
    deletion phrases is a deletion request: the request is logged for the
    session and the call is cut short by the stop of the script, with the
    session left as it was; no stage handler runs. *)
Theorem X19_deletion_request_is_logged_and_stops
  (E : Env) (s : session) (user_input : string) (w : world) :
  user_input <> "" ->
  Forall (fun keyword =>
            PyStr.contains keyword (PyStr.strip (PyStr.lower user_input)) = false)
    EXIT_KEYWORDS ->
  PyStr.contains "delete my data" (PyStr.strip (PyStr.lower user_input)) = true
  \/ PyStr.contains "delete data" (PyStr.strip (PyStr.lower user_input)) = true ->
  process_message E s user_input w
  = (Raised StopException, s,
     log_interaction (session_id s) "data_deletion_request" w).
Proof.
  intros Hne Hnone Hdelete. unfold process_message, check_exit_intent.
  rewrite (proj2 (falsy_false _) Hne).
  assert (Hmem : PyStr.mem (PyStr.strip (PyStr.lower user_input)) EXIT_KEYWORDS = false).
  { apply bool_decide_eq_false. intros Hin.
    rewrite Forall_forall in Hnone. specialize (Hnone _ Hin).
    by rewrite contains_refl in Hnone. }
  assert (Hex : existsb (fun keyword =>
                           PyStr.contains keyword (PyStr.strip (PyStr.lower user_input)))
                  EXIT_KEYWORDS = false).
  { apply not_true_is_false. intros (keyword & Hin & Hsub)%existsb_exists.
    apply list_elem_of_In in Hin. rewrite Forall_forall in Hnone.
    specialize (Hnone _ Hin). congruence. }
  rewrite Hmem, Hex.
  assert (Hor : PyStr.contains "delete my data" (PyStr.strip (PyStr.lower user_input))
                || PyStr.contains "delete data" (PyStr.strip (PyStr.lower user_input))
                = true).
  { apply orb_true_iff. exact Hdelete. }
  by rewrite Hor.
Qed.

Lemma X19_deletion_request_is_logged_and_stops_witness :
  process_message terse (interview two_questions 1) "Please DELETE my data." quiet
  = (Raised StopException, interview two_questions 1,
     log_interaction (session_id (interview two_questions 1))
       "data_deletion_request" quiet).
Proof.
  apply X19_deletion_request_is_logged_and_stops.
  - discriminate.
  - repeat constructor.
  - left. vm_compute. reflexivity.
Defined.

(** ** What is never undone *)

Lemma grows_refl w : grows w w.
Proof. unfold grows. by repeat split. Qed.

Lemma grows_trans w1 w2 w3 : grows w1 w2 -> grows w2 w3 -> grows w1 w3.
Proof.
  unfold grows. intros (?&?&?&?) (?&?&?&?).
  repeat split; try lia; by etrans.
Qed.

Lemma grows_called w : grows w (called w).
Proof. unfold grows. simpl. repeat split; try lia; done. Qed.

Lemma grows_slept n w : grows w (slept n w).
Proof. unfold grows. simpl. repeat split; try lia; try done. by apply prefix_app_r. Qed.

Lemma grows_drew w : grows w (drew w).
Proof. unfold grows. simpl. repeat split; try lia; done. Qed.

Lemma grows_log sid kind w : grows w (log_interaction sid kind w).
Proof. unfold grows. simpl. repeat split; try lia; try done. by apply prefix_app_r. Qed.

Create HintDb grows.
#[local] Hint Resolve grows_refl grows_called grows_slept grows_drew grows_log : grows.

Lemma fallback_grows (E : Env) prompt w : grows w (_fallback_response E prompt w).2.
Proof.
  unfold _fallback_response, _fallback_evaluation.
  repeat case_match; simpl; auto with grows.
Qed.

Lemma retry_loop_grows (E : Env) g prompt max_retries :
  forall remaining attempt w,
    grows w (retry_loop E g prompt max_retries remaining attempt w).2.
Proof.
  induction remaining as [|remaining IH]; intros attempt w; simpl.
  - apply fallback_grows.
  - destruct (g (calls w) prompt) as [|text].
    + destruct (_ =? _).
      * eapply grows_trans; [apply grows_called | apply fallback_grows].
      * eapply grows_trans; [apply grows_called|].
        eapply grows_trans; [apply grows_slept | apply IH].
    + destruct (PyStr.falsy text); [|apply grows_called].
      eapply grows_trans; [apply grows_called | apply IH].
Qed.

Lemma generate_response_grows (E : Env) prompt max_retries w :
  grows w (generate_response E prompt max_retries w).2.
Proof.
  unfold generate_response. destruct (gemini_model E);
    [apply retry_loop_grows | apply fallback_grows].
Qed.

Lemma generate_technical_questions_grows (E : Env) technology experience_years n w :
  grows w (generate_technical_questions E technology experience_years n w).2.
Proof.
  unfold generate_technical_questions.
  pose proof (generate_response_grows E
                (question_prompt E technology experience_years n) 3 w) as H.
  by destruct (generate_response E _ 3 w).
Qed.

Lemma get_fallback_questions_grows (E : Env) tech n w :
  grows w (get_fallback_questions E tech n w).2.
Proof. unfold get_fallback_questions. case_match; simpl; auto with grows. Qed.

Lemma questions_loop_grows (E : Env) n candidate_experience :
  forall techs questions_by_tech w,
    grows w (questions_loop E techs n candidate_experience questions_by_tech w).2.
Proof.
  induction techs as [|tech rest IH]; intros acc w; simpl; [apply grows_refl|].
  pose proof (generate_technical_questions_grows E tech candidate_experience n w) as H1.
  destruct (generate_technical_questions E tech candidate_experience n w)
    as [llm_questions w1]. cbn [snd] in H1.
  destruct (0 <? length llm_questions).
  - eapply grows_trans; [exact H1 | apply IH].
  - pose proof (get_fallback_questions_grows E tech n w1) as H2.
    destruct (get_fallback_questions E tech n w1) as [questions w2]. cbn [snd] in H2.
    eapply grows_trans; [exact H1|]. eapply grows_trans; [exact H2 | apply IH].
Qed.

Lemma technical_questions_grows (E : Env) (s : session) (user_input : string) (w : world) :
  grows w (handle_technical_questions_stage E s user_input w).2.
Proof.
  unfold handle_technical_questions_stage, store_answer, _complete_assessment,
    evaluate_technical_response.
  repeat case_match; simplify_eq; cbn [snd]; auto with grows;
    repeat match goal with
      | H : generate_response ?E ?p ?n ?w = (_, ?w1) |- _ =>
          let Hg := fresh "Hg" in
          pose proof (generate_response_grows E p n w) as Hg;
          rewrite H in Hg; cbn [snd] in Hg; clear H
      end;
    try done;
    (eapply grows_trans; [eassumption | apply grows_log]).
Qed.

(** What one call does to the world and to the session id. *)
Lemma process_message_grows (E : Env) (s : session) (user_input : string) (w : world) :
  grows w (process_message E s user_input w).2
  /\ session_id (process_message E s user_input w).1.2 = session_id s.
Proof.
  unfold process_message.
  destruct (PyStr.falsy user_input); [split; [apply grows_refl | done]|].
  destruct (check_exit_intent_cases s user_input w) as [-> | [-> | ->]];
    [split; [apply grows_refl | done] | | split; [apply grows_log | done]].
  destruct (is_restart user_input); [split; [apply grows_refl | done]|].
  destruct (stage s).
  - split; [apply grows_refl | done].
  - unfold handle_consent_stage.
    repeat case_match; simplify_eq; (split; [apply grows_refl | done]).
  - unfold handle_info_collection_stage, _collect_candidate_info.
    repeat case_match; simplify_eq; cbn [fst snd]; (split; [auto with grows | done]).
  - unfold handle_tech_assessment_stage, generate_questions_for_tech_stack.
    destruct (validate_tech_stack user_input) as [[] msg]; cbn [negb];
      [|split; [apply grows_refl | done]].
    match goal with
    | |- context [questions_loop ?E ?t ?n ?x ?a ?w] =>
        pose proof (questions_loop_grows E n x t a w) as Hg;
        destruct (questions_loop E t n x a w) as [questions_by_tech w1]
    end.
    cbn [fst snd] in *. split; [|done].
    eapply grows_trans; [exact Hg | apply grows_log].
  - split; [apply technical_questions_grows|].
    unfold handle_technical_questions_stage, store_answer, _complete_assessment.
    by repeat case_match; simplify_eq.
  - split; [apply grows_refl | done].
Qed.

(** X20. Along any conversation, restarts included, the world only moves
    on: the audit log and the list of sleeps keep everything they held and
    grow at the end, the numbers of model calls and of random draws do not go
    down; and the session id never changes. *)
Theorem X20_log_is_append_only_and_session_id_fixed
  (E : Env) (inputs : list string) (s : session) (w : world) :
  grows w (run E s w inputs).2
  /\ session_id (run E s w inputs).1 = session_id s.
Proof.
  revert s w. induction inputs as [|user_input inputs IH]; intros s w;
    [split; [apply grows_refl | done]|].
  cbn [run]. destruct (process_message_grows E s user_input w) as [Hg Hid].
  destruct (process_message E s user_input w) as [[r s'] w']. cbn [fst snd] in *.
  destruct (IH s' w') as [Hg' Hid'].
  split; [by eapply grows_trans | congruence].
Qed.

Lemma process_message_messages (E : Env) (s : session) (user_input : string) (w : world) :
  is_restart user_input = false ->
  messages s `prefix_of` messages (process_message E s user_input w).1.2
  /\ length (messages (process_message E s user_input w).1.2) <= length (messages s) + 1.
Proof.
  intros Hrestart. unfold process_message. rewrite Hrestart.
  destruct (PyStr.falsy user_input); [simpl; split; [done | lia]|].
  destruct (check_exit_intent s user_input w) as [[[]|e] w'];
    try (simpl; split; [done | lia]).
  destruct (stage s).
  - simpl. split; [done | lia].
  - unfold handle_consent_stage.
    repeat case_match; simplify_eq; simpl; (split; [done | lia]).
  - unfold handle_info_collection_stage, _collect_candidate_info.
    repeat case_match; simplify_eq; simpl; (split; [done | lia]).
  - unfold handle_tech_assessment_stage.
    repeat case_match; simplify_eq; simpl; (split; [done | lia]).
  - unfold handle_technical_questions_stage, store_answer, _complete_assessment.
    repeat case_match; simplify_eq; simpl;
      (split; [by (done || apply prefix_app_r) | rewrite ?length_app; simpl; lia]).
  - simpl. split; [done | lia].
Qed.

(** X21. Short of a restart, the messages the manager keeps are never
    rewritten or dropped: along a conversation the list only grows at the
    end, by one message per call at most. *)
Theorem X21_messages_are_append_only
  (E : Env) (inputs : list string) (s : session) (w : world) :
  Forall (fun user_input => is_restart user_input = false) inputs ->
  messages s `prefix_of` messages (run E s w inputs).1
  /\ length (messages (run E s w inputs).1) <= length (messages s) + length inputs.
Proof.
  revert s w. induction inputs as [|user_input inputs IH]; intros s w Hall;
    [simpl; split; [done | lia]|].
  apply Forall_cons in Hall as [Hrestart Hall]. cbn [run].
  destruct (process_message_messages E s user_input w Hrestart) as [Hpre Hlen].
  destruct (process_message E s user_input w) as [[r s'] w']. cbn [fst snd] in *.
  destruct (IH s' w' Hall) as [Hpre' Hlen'].
  split; [by etrans | simpl; lia].
Qed.

Lemma X21_messages_are_append_only_witness :
  messages (interview two_questions 0)
  `prefix_of` messages
     (run terse (interview two_questions 0) quiet
        ["ready"; "It counts references."; "One lock for the bytecode."]).1
  /\ length (messages
               (run terse (interview two_questions 0) quiet
                  ["ready"; "It counts references."; "One lock for the bytecode."]).1)
     <= length (messages (interview two_questions 0))
        + length ["ready"; "It counts references."; "One lock for the bytecode."].
Proof.
  apply X21_messages_are_append_only. repeat constructor.
Defined.

(** ** The adapter without a model *)

Lemma evaluator_prompt_mentions_response (question technology answer : string) :
  PyStr.contains "response" (PyStr.lower (RESPONSE_EVALUATOR question technology answer))
  = true.
Proof.
  unfold RESPONSE_EVALUATOR. rewrite lower_app. by apply contains_app_l.
Qed.

Lemma enhancer_prompt_mentions_technical_question (context user_input stage : string) :
  PyStr.contains "technical question"
    (PyStr.lower (CONVERSATION_ENHANCER context user_input stage)) = true.
Proof.
  unfold CONVERSATION_ENHANCER. rewrite !lower_app.
  do 24 apply contains_app_r. reflexivity.
Qed.

(** X22. Without a model, the acknowledgment of an answer is one of the three
    canned acknowledgments, except when the prompt, and so the question, the
    technology or the answer, mentions a technical question: then it is the
    canned list of questions.  The conversation enhancer always gets the
    canned list of questions, since its own prompt forbids to ask technical
    questions and so mentions them.  Neither ever gets the generic line. *)
Theorem X22_offline_replies_are_never_the_generic_line
  (E : Env) (question answer technology context user_input stage : string)
  (w : world) :
  gemini_model E = None ->
  ((evaluate_technical_response E question answer technology w).1 ∈ fallback_evaluations
   \/ (PyStr.contains "technical question"
         (PyStr.lower (RESPONSE_EVALUATOR question technology answer)) = true
       /\ (evaluate_technical_response E question answer technology w).1
          = _fallback_technical_questions))
  /\ enhance_conversation_response E context user_input stage w
     = (_fallback_technical_questions, w).
Proof.
  intros Hoff. split.
  - unfold evaluate_technical_response, generate_response. rewrite Hoff.
    pose proof (fallback_is_canned E (RESPONSE_EVALUATOR question technology answer) w)
      as [Hc _].
    unfold canned in Hc. rewrite evaluator_prompt_mentions_response in Hc.
    rewrite orb_true_r in Hc.
    destruct (PyStr.contains "technical question" _); [right | by left].
    split; [done|]. by destruct Hc.
  - unfold enhance_conversation_response, generate_response. rewrite Hoff.
    apply fallback_for_questions, enhancer_prompt_mentions_technical_question.
Qed.

Lemma X22_offline_replies_are_never_the_generic_line_witness :
  ((evaluate_technical_response offline "How does Python's garbage collection work?"
      "It counts references." "Python" quiet).1 ∈ fallback_evaluations
   \/ (PyStr.contains "technical question"
         (PyStr.lower (RESPONSE_EVALUATOR "How does Python's garbage collection work?"
                         "Python" "It counts references.")) = true
       /\ (evaluate_technical_response offline
             "How does Python's garbage collection work?"
             "It counts references." "Python" quiet).1
          = _fallback_technical_questions))
  /\ enhance_conversation_response offline "greeting" "hello" "consent" quiet
     = (_fallback_technical_questions, quiet).
Proof.
  apply X22_offline_replies_are_never_the_generic_line. reflexivity.
Defined.

(** ** The keys of the answers *)

Lemma str_of_nat_decode n :
  option_map Nat.of_uint (NilZero.uint_of_string (PyStr.str_of_nat n)) = Some n.
Proof.
  unfold PyStr.str_of_nat. pose proof (DecimalNat.Unsigned.of_to n) as Hn.
  destruct (Nat.to_uint n) eqn:Hd;
    try (rewrite NilZero.usu by discriminate; simpl; by rewrite Hn).
  simpl in *. by rewrite <- Hn.
Qed.

Lemma str_of_nat_inj n m : PyStr.str_of_nat n = PyStr.str_of_nat m -> n = m.
Proof.
  intros H. pose proof (str_of_nat_decode n) as Hn.
  rewrite H, str_of_nat_decode in Hn. congruence.
Qed.

Lemma uint_digits d :
  Forall (fun c => PyStr.isdigit c = true) (PyStr.chars (NilEmpty.string_of_uint d)).
Proof. induction d; simpl; constructor; done. Qed.

Lemma str_of_nat_digits n :
  Forall (fun c => PyStr.isdigit c = true) (PyStr.chars (PyStr.str_of_nat n))
  /\ PyStr.chars (PyStr.str_of_nat n) <> [].
Proof.
  unfold PyStr.str_of_nat. pose proof (uint_digits (Nat.to_uint n)) as H.
  destruct (Nat.to_uint n); simpl in *; split; try done.
  by repeat constructor.
Qed.

Lemma app_sep_inj {A} (x : A) l1 r1 l2 r2 :
  l1 ++ x :: r1 = l2 ++ x :: r2 -> x ∉ l1 -> x ∉ l2 -> l1 = l2 /\ r1 = r2.
Proof.
  revert l2. induction l1 as [|a l1 IH]; intros [|b l2] Heq H1 H2; simpl in *.
  - by simplify_eq.
  - simplify_eq. exfalso. apply H2. by left.
  - simplify_eq. exfalso. apply H1. by left.
  - simplify_eq. destruct (IH l2) as [-> ->]; [done | | | done].
    + intros ?. apply H1. by right.
    + intros ?. apply H2. by right.
Qed.

Lemma chars_inj s1 s2 : PyStr.chars s1 = PyStr.chars s2 -> s1 = s2.
Proof. intros H. by rewrite <- (text_chars s1), <- (text_chars s2), H. Qed.

Lemma answer_key_index (tech1 tech2 : string) (i1 i2 : nat) :
  answer_key tech1 i1 = answer_key tech2 i2 -> i1 = i2.
Proof.
  intros Heq. apply (f_equal PyStr.chars) in Heq. unfold answer_key in Heq.
  rewrite !chars_app in Heq. change (PyStr.chars "_") with ["_"%char] in Heq.
  apply (f_equal (@rev ascii)) in Heq. rewrite !rev_app_distr in Heq.
  simpl in Heq. rewrite <- !app_assoc in Heq. simpl in Heq.
  assert (Hfree : forall n, "_"%char ∉ rev (PyStr.chars (PyStr.str_of_nat n))).
  { intros n Hin. apply list_elem_of_In, in_rev, list_elem_of_In in Hin.
    destruct (str_of_nat_digits n) as [Hd _]. rewrite Forall_forall in Hd.
    by specialize (Hd _ Hin). }
  apply app_sep_inj in Heq as [Hd _]; [|apply Hfree..].
  apply (f_equal (@rev ascii)) in Hd. rewrite !rev_involutive in Hd.
  by apply str_of_nat_inj, chars_inj.
Qed.

(** X23. The key under which an answer is stored determines both the
    technology and the index of its question: two questions with different
    indices, or different technologies, never share a key, so that an answer
    is never stored over the answer to another question. *)
Theorem X23_answer_keys_never_collide (tech1 tech2 : string) (i1 i2 : nat) :
  answer_key tech1 i1 = answer_key tech2 i2 <-> tech1 = tech2 /\ i1 = i2.
Proof.
  split; [|by intros [-> ->]].
  intros Heq. apply (f_equal PyStr.chars) in Heq. unfold answer_key in Heq.
  rewrite !chars_app in Heq. change (PyStr.chars "_") with ["_"%char] in Heq.
  apply (f_equal (@rev ascii)) in Heq. rewrite !rev_app_distr in Heq.
  simpl in Heq. rewrite <- !app_assoc in Heq. simpl in Heq.
  assert (Hfree : forall n, "_"%char ∉ rev (PyStr.chars (PyStr.str_of_nat n))).
  { intros n Hin. apply list_elem_of_In, in_rev, list_elem_of_In in Hin.
    destruct (str_of_nat_digits n) as [Hd _]. rewrite Forall_forall in Hd.
    by specialize (Hd _ Hin). }
  apply app_sep_inj in Heq as [Hd Ht]; [|apply Hfree..].
  apply (f_equal (@rev ascii)) in Hd, Ht. rewrite !rev_involutive in Hd, Ht.
  split; [by apply chars_inj | by apply str_of_nat_inj, chars_inj].
Qed.

(** ** A whole interview *)

Lemma plain_passes_guards (s : session) (user_input : string) (w : world) :
  plain user_input = true ->
  PyStr.falsy user_input = false
  /\ check_exit_intent s user_input w = (Returns false, w)
  /\ is_restart user_input = false
  /\ PyStr.falsy (PyStr.strip user_input) = false.
Proof.
  unfold plain. rewrite !andb_true_iff, !negb_true_iff.
  intros (((((Hne & Hmem) & Hex) & Hdel) & Hrestart) & Hblank).
  split; [done|]. split; [|done].
  unfold check_exit_intent. by rewrite Hne, Hmem, Hex, Hdel.
Qed.

(** What the handler does with the answer to question [k-1]. *)
Lemma answer_step (E : Env) (s : session) (user_input : string) (w : world) (k : nat) :
  current_question_index s = k ->
  0 < k <= length (all_questions_of (technical_questions s)) ->
  PyStr.falsy (PyStr.strip user_input) = false ->
  exists prev_tech prev_question r acknowledgment w',
    all_questions_of (technical_questions s) !! (k - 1) = Some (prev_tech, prev_question)
    /\ handle_technical_questions_stage E s user_input w
       = (Returns r,
          (if k <? length (all_questions_of (technical_questions s))
           then with_index (k + 1) else with_stage COMPLETION)
            (add_message assistant acknowledgment
               (with_candidate
                  (set_answers
                     (<[answer_key prev_tech (k - 1) :=
                          {| question := prev_question;
                             given := sanitize_input user_input;
                             technology := prev_tech |}]>
                        (default ∅ (answers (candidate s))))
                     (candidate s)) s)),
          w').
Proof.
  intros Hk [Hpos Hle] Hanswer.
  destruct (lookup_lt_is_Some_2 (all_questions_of (technical_questions s)) (k - 1))
    as [[prev_tech prev_question] Hprev]; [lia|].
  exists prev_tech, prev_question.
  unfold handle_technical_questions_stage.
  destruct (technical_questions s) as [|entry entries] eqn:Hqs; [simpl in Hle; lia|].
  rewrite Hk. rewrite (proj2 (Nat.eqb_neq k 0)) by lia. cbn [andb].
  rewrite (proj2 (Nat.ltb_lt 0 k)) by lia.
  rewrite Hanswer. cbn [negb andb].
  rewrite Hprev. unfold store_answer.
  destruct (evaluate_technical_response E prev_question user_input prev_tech w)
    as [evaluation_response w1].
  destruct (Nat.ltb_spec k (length (all_questions_of (entry :: entries)))) as [Hlt|Hge].
  - rewrite (proj2 (Nat.leb_gt _ _)) by lia.
    destruct (lookup_lt_is_Some_2 (all_questions_of (entry :: entries)) k Hlt)
      as [[tech question] Hnext].
    rewrite Hnext. eexists _, evaluation_response, _. split; [done|].
    cbn [current_question_index add_message with_messages with_candidate].
    by rewrite Hk.
  - rewrite (proj2 (Nat.leb_le _ _)) by lia.
    unfold _complete_assessment. eexists _, evaluation_response, _. by split.
Qed.

Lemma interview_from (E : Env) :
  forall replies s w k,
    stage s = TECHNICAL_QUESTIONS ->
    current_question_index s = k ->
    1 <= k <= length (all_questions_of (technical_questions s)) ->
    k + length replies = S (length (all_questions_of (technical_questions s))) ->
    Forall (fun reply => plain reply = true) replies ->
    stage (run E s w replies).1 = COMPLETION
    /\ current_question_index (run E s w replies).1
       = length (all_questions_of (technical_questions s))
    /\ technical_questions (run E s w replies).1 = technical_questions s
    /\ (forall j reply, replies !! j = Some reply ->
          exists tech q,
            all_questions_of (technical_questions s) !! (k - 1 + j) = Some (tech, q)
            /\ default ∅ (answers (candidate (run E s w replies).1))
               !! answer_key tech (k - 1 + j)
               = Some {| question := q; given := sanitize_input reply;
                         technology := tech |})
    /\ (forall key, (forall j tech, j < length replies ->
                                    key <> answer_key tech (k - 1 + j)) ->
          default ∅ (answers (candidate (run E s w replies).1)) !! key
          = default ∅ (answers (candidate s)) !! key).
Proof.
  induction replies as [|reply rest IH]; intros s w k Hstage Hk Hrange Hlen Hplain.
  { simpl in Hlen. lia. }
  apply Forall_cons in Hplain as [Hreply Hrest].
  destruct (plain_passes_guards s reply w Hreply) as (Hne & Hexit & Hrestart & Hblank).
  cbn [run]. unfold process_message. rewrite Hne, Hexit, Hrestart, Hstage.
  destruct (answer_step E s reply w k Hk ltac:(lia) Hblank)
    as (tech0 & q0 & r & ack & w1 & Hprev & ->).
  set (total := length (all_questions_of (technical_questions s))) in *.
  set (entry := {| question := q0; given := sanitize_input reply; technology := tech0 |}).
  destruct (Nat.ltb_spec k total) as [Hlt|Hge].
  - match goal with |- context [run E ?x w1 rest] => set (s1 := x) end.
    assert (Hqs1 : technical_questions s1 = technical_questions s) by done.
    destruct (IH s1 w1 (k + 1)) as (Hst & Hcur & Hqs & Hans & Hframe);
      [done | done | rewrite Hqs1; fold total; lia
      | rewrite Hqs1; fold total; simpl in Hlen; lia | done |].
    rewrite Hqs1 in *. fold total in Hcur.
    split; [done|]. split; [done|]. split; [done|]. split.
    + intros [|j] a Ha.
      * simpl in Ha. simplify_eq. exists tech0, q0.
        rewrite Nat.add_0_r. split; [done|].
        rewrite Hframe.
        -- subst s1. cbn [candidate answers with_index add_message with_messages
                          with_candidate set_answers default].
           apply lookup_insert_eq.
        -- intros j tech _ Heq%answer_key_index. lia.
      * simpl in Ha. destruct (Hans j a Ha) as (tech & q & Hq & Hlook).
        exists tech, q. by replace (k - 1 + S j) with (k + 1 - 1 + j) by lia.
    + intros key Hkey. rewrite Hframe.
      * subst s1. cbn [candidate answers with_index add_message with_messages
                       with_candidate set_answers default].
        apply lookup_insert_ne. intros Heq. apply (Hkey 0 tech0); [simpl; lia|].
        by rewrite Nat.add_0_r.
      * intros j tech Hj. replace (k + 1 - 1 + j) with (k - 1 + S j) by lia.
        apply Hkey. simpl. lia.
  - assert (rest = []) as -> by (destruct rest; [done | simpl in Hlen; lia]).
    assert (k = total) as Hktotal by lia.
    cbn [run fst snd stage current_question_index technical_questions candidate
         answers with_stage add_message with_messages with_candidate set_answers
         default].
    split; [done|]. split; [lia|]. split; [done|]. split.
    + intros [|j] a Ha; [|done]. simpl in Ha. simplify_eq.
      exists tech0, q0. rewrite Nat.add_0_r. split; [done|].
      apply lookup_insert_eq.
    + intros key Hkey. apply lookup_insert_ne. intros Heq.
      apply (Hkey 0 tech0); [simpl; lia|]. by rewrite Nat.add_0_r.
Qed.

Lemma ready_step (E : Env) (s : session) (w : world) :
  stage s = TECHNICAL_QUESTIONS ->
  current_question_index s = 0 ->
  1 <= length (all_questions_of (technical_questions s)) ->
  exists r, process_message E s "ready" w = (Returns r, with_index 1 s, w).
Proof.
  intros Hstage Hcursor Htotal.
  destruct (plain_passes_guards s "ready" w eq_refl) as (Hne & Hexit & Hrestart & _).
  unfold process_message. rewrite Hne, Hexit, Hrestart, Hstage.
  unfold handle_technical_questions_stage.
  destruct (technical_questions s) as [|entry entries] eqn:Hqs; [simpl in Htotal; lia|].
  rewrite Hcursor.
  change (PyStr.mem (PyStr.strip (PyStr.lower "ready")) ["ready"; "start"; "begin"; "yes"])
    with true.
  cbn [Nat.eqb negb andb Nat.ltb Nat.leb].
  rewrite (proj2 (Nat.leb_gt _ _)) by lia.
  destruct (lookup_lt_is_Some_2 (all_questions_of (entry :: entries)) 0)
    as [[tech question] Hnext]; [lia|].
  rewrite Hnext, Hcursor. eauto.
Qed.

(** X24. A whole interview.  From the TechnicalQuestions stage with the
    cursor at 0, the word [ready] followed by as many plain replies as there
    are questions (replies that are not blank and hold no exit keyword, no
    deletion phrase and no restart) ends in the Completion stage with the
    cursor at the number of questions, the question set unchanged, and every
    reply stored, sanitized, under the key of the question it answers, with
    that question and its technology; every other key of the answers is as it
    was. *)
Theorem X24_complete_interview_stores_every_answer
  (E : Env) (s : session) (w : world) (replies : list string) :
  stage s = TECHNICAL_QUESTIONS ->
  current_question_index s = 0 ->
  replies <> [] ->
  length replies = length (all_questions_of (technical_questions s)) ->
  Forall (fun reply => plain reply = true) replies ->
  stage (run E s w ("ready" :: replies)).1 = COMPLETION
  /\ current_question_index (run E s w ("ready" :: replies)).1 = length replies
  /\ technical_questions (run E s w ("ready" :: replies)).1 = technical_questions s
  /\ (forall i reply, replies !! i = Some reply ->
        exists tech q,
          all_questions_of (technical_questions s) !! i = Some (tech, q)
          /\ default ∅ (answers (candidate (run E s w ("ready" :: replies)).1))
             !! answer_key tech i
             = Some {| question := q; given := sanitize_input reply;
                       technology := tech |})
  /\ (forall key, (forall i tech, i < length replies -> key <> answer_key tech i) ->
        default ∅ (answers (candidate (run E s w ("ready" :: replies)).1)) !! key
        = default ∅ (answers (candidate s)) !! key).
Proof.
  intros Hstage Hcursor Hsome Hlen Hplain.
  assert (Htotal : 1 <= length (all_questions_of (technical_questions s))).
  { rewrite <- Hlen. destruct replies; [done | simpl; lia]. }
  cbn [run]. destruct (ready_step E s w Hstage Hcursor Htotal) as [r ->].
  destruct (interview_from E replies (with_index 1 s) w 1)
    as (Hst & Hcur & Hqs & Hans & Hframe);
    [done | done | simpl; lia | simpl; lia | done |].
  cbn [technical_questions with_index candidate] in *.
  split; [done|]. split; [lia|]. split; [done|]. split.
  - intros i reply Hi. destruct (Hans i reply Hi) as (tech & q & Hq & Hlook).
    exists tech, q. by rewrite Nat.sub_diag, Nat.add_0_l in *.
  - intros key Hkey. apply Hframe. intros j tech Hj.
    rewrite Nat.sub_diag, Nat.add_0_l. by apply Hkey.
Qed.

Lemma X24_complete_interview_stores_every_answer_witness :
  stage (run terse (interview two_questions 0) quiet
           ["ready"; "It counts references."; "One lock for the bytecode."]).1
  = COMPLETION
  /\ current_question_index
       (run terse (interview two_questions 0) quiet
          ["ready"; "It counts references."; "One lock for the bytecode."]).1
     = length ["It counts references."; "One lock for the bytecode."]
  /\ technical_questions
       (run terse (interview two_questions 0) quiet
          ["ready"; "It counts references."; "One lock for the bytecode."]).1
     = technical_questions (interview two_questions 0)
  /\ (forall i reply,
        ["It counts references."; "One lock for the bytecode."] !! i = Some reply ->
        exists tech q,
          all_questions_of (technical_questions (interview two_questions 0)) !! i
          = Some (tech, q)
          /\ default ∅ (answers (candidate
               (run terse (interview two_questions 0) quiet
                  ["ready"; "It counts references."; "One lock for the bytecode."]).1))
             !! answer_key tech i
             = Some {| question := q; given := sanitize_input reply;
                       technology := tech |})
  /\ (forall key,
        (forall i tech,
           i < length ["It counts references."; "One lock for the bytecode."] ->
           key <> answer_key tech i) ->
        default ∅ (answers (candidate
          (run terse (interview two_questions 0) quiet
             ["ready"; "It counts references."; "One lock for the bytecode."]).1))
        !! key
        = default ∅ (answers (candidate (interview two_questions 0))) !! key).
Proof.
  apply (X24_complete_interview_stores_every_answer terse (interview two_questions 0)
           quiet ["It counts references."; "One lock for the bytecode."]).
  - reflexivity.
  - reflexivity.
  - discriminate.
  - reflexivity.
  - repeat constructor.
Defined.

(** ** Numbered lists through the parser *)

Lemma strip_list_fixed l :
  starts_clean l -> starts_clean (rev l) -> PyStr.strip_list l = l.
Proof.
  intros Hhead Htail. unfold PyStr.strip_list, PyStr.rstrip_list.
  by rewrite (lstrip_list_fixed l Hhead), (lstrip_list_fixed (rev l) Htail),
    rev_involutive.
Qed.

Lemma trimmed_is_clean l :
  PyStr.strip_list l = l -> starts_clean l /\ starts_clean (rev l).
Proof.
  intros H. split.
  - rewrite <- H. apply rstrip_list_starts_clean, lstrip_list_starts_clean.
  - rewrite <- H at 1. unfold PyStr.strip_list, PyStr.rstrip_list.
    rewrite rev_involutive. apply lstrip_list_starts_clean.
Qed.

Lemma after_first_dot_app l1 l2 :
  Forall (fun c => c <> "."%char) l1 ->
  after_first_dot (l1 ++ "."%char :: l2) = Some l2.
Proof.
  induction 1 as [|c l1 Hc _ IH]; simpl; [done|].
  by rewrite bool_decide_eq_false_2.
Qed.

Lemma digit_facts c :
  PyStr.isdigit c = true ->
  PyStr.isspace c = false /\ c <> "."%char /\ c <> PyStr.LF.
Proof. destruct c as [[] [] [] [] [] [] [] []]; by vm_compute. Qed.

(** One numbered line gives back its question. *)
Lemma parse_line_numbered (n : nat) (q : string) :
  clean_question q ->
  parse_line (PyStr.str_of_nat n +:+ ". " +:+ q) = Some q.
Proof.
  intros (Hne & Htrim & _ & Hmarks).
  destruct (str_of_nat_digits n) as [Hdigits Hsome].
  destruct (trimmed_is_clean _ Htrim) as [Hhead Htail].
  assert (Hq : PyStr.chars q <> []).
  { intros Hnil. apply Hne, chars_inj. by rewrite Hnil. }
  unfold parse_line. rewrite !chars_app.
  change (PyStr.chars ". ") with ["."%char; " "%char].
  set (ds := PyStr.chars (PyStr.str_of_nat n)) in *.
  set (cq := PyStr.chars q) in *.
  assert (Hraw : PyStr.strip_list (ds ++ ["."%char; " "%char] ++ cq)
                 = ds ++ ["."%char; " "%char] ++ cq).
  { apply strip_list_fixed.
    - destruct ds as [|d ds']; [done|]. simpl.
      apply Forall_cons in Hdigits as [Hd _]. by apply digit_facts in Hd as [? _].
    - rewrite !rev_app_distr. destruct (rev cq) as [|c l] eqn:Hrev; [|exact Htail].
      exfalso. apply Hq. by rewrite <- (rev_involutive cq), Hrev. }
  rewrite Hraw.
  assert (Hmarked : match ds ++ ["."%char; " "%char] ++ cq with
                    | [] => false
                    | c :: _ => PyStr.isdigit c || bool_decide (c = "-"%char)
                                || PyStr.startswith_list bullet
                                     (ds ++ ["."%char; " "%char] ++ cq)
                    end = true).
  { destruct ds as [|d ds']; [done|]. simpl.
    apply Forall_cons in Hdigits as [-> _]. done. }
  rewrite Hmarked.
  replace (ds ++ ["."%char; " "%char] ++ cq) with (ds ++ "."%char :: " "%char :: cq)
    by done.
  rewrite after_first_dot_app.
  2:{ eapply Forall_impl; [exact Hdigits|]. intros c Hc.
      by apply digit_facts in Hc as (_ & ? & _). }
  assert (Hrest : PyStr.strip_list (" "%char :: cq) = cq).
  { unfold PyStr.strip_list. cbn [PyStr.lstrip_list].
    change (PyStr.isspace " ") with true. cbn iota. exact Htrim. }
  rewrite Hrest, Hmarks, Htrim.
  destruct cq as [|c l] eqn:Hcq; [done|]. subst cq. rewrite <- Hcq.
  by rewrite text_chars.
Qed.

Lemma split_list_app sep l rest :
  Forall (fun c => sep c = false) l ->
  forall cur, PyStr.split_list sep cur (l ++ rest)
              = PyStr.split_list sep (rev l ++ cur) rest.
Proof.
  induction 1 as [|c l Hc _ IH]; intros cur; simpl; [done|].
  rewrite Hc, IH. by rewrite <- app_assoc.
Qed.

Lemma chars_join_cons x y ys :
  PyStr.chars (PyStr.join PyStr.nl (x :: y :: ys))
  = PyStr.chars x ++ PyStr.LF :: PyStr.chars (PyStr.join PyStr.nl (y :: ys)).
Proof.
  change (PyStr.join PyStr.nl (x :: y :: ys))
    with (x +:+ PyStr.nl +:+ PyStr.join PyStr.nl (y :: ys)).
  by rewrite !chars_app.
Qed.

(** Splitting the join of lines that hold no newline gives the lines back. *)
Lemma split_join_lines (lines : list string) :
  lines <> [] ->
  Forall (fun line => Forall (fun c => c <> PyStr.LF) (PyStr.chars line)) lines ->
  PyStr.split_on (fun c => bool_decide (c = PyStr.LF)) (PyStr.join PyStr.nl lines)
  = lines.
Proof.
  intros Hsome Hfree. unfold PyStr.split_on.
  induction Hfree as [|x xs Hx Hxs IH]; [done|]. clear Hsome.
  assert (Hsep : Forall (fun c => bool_decide (c = PyStr.LF) = false) (PyStr.chars x)).
  { eapply Forall_impl; [exact Hx|]. intros c Hc. by apply bool_decide_eq_false_2. }
  destruct xs as [|y ys].
  - cbn [PyStr.join]. rewrite <- (app_nil_r (PyStr.chars x)).
    rewrite (split_list_app _ _ [] Hsep). simpl.
    by rewrite app_nil_r, rev_involutive, text_chars.
  - rewrite chars_join_cons, (split_list_app _ _ _ Hsep).
    cbn [PyStr.split_list]. rewrite bool_decide_eq_true_2 by done.
    cbn [map]. rewrite app_nil_r, rev_involutive, text_chars. f_equal.
    by apply IH.
Qed.

Lemma numbered_lines_free first questions :
  Forall clean_question questions ->
  Forall (fun line => Forall (fun c => c <> PyStr.LF) (PyStr.chars line))
    (numbered_lines first questions).
Proof.
  intros H. revert first. induction H as [|q qs Hq _ IH]; intros first; simpl;
    constructor; [|apply IH].
  rewrite !chars_app. apply Forall_app. split.
  - destruct (str_of_nat_digits first) as [Hd _].
    eapply Forall_impl; [exact Hd|]. intros c Hc.
    by apply digit_facts in Hc as (_ & _ & ?).
  - apply Forall_app. split; [by repeat constructor|]. by destruct Hq as (_ & _ & ? & _).
Qed.

Lemma parse_numbered_lines first questions :
  Forall clean_question questions ->
  omap parse_line (numbered_lines first questions) = questions.
Proof.
  intros H. revert first. induction H as [|q qs Hq _ IH]; intros first; [done|].
  cbn [numbered_lines].
  change (omap parse_line (?x :: ?l))
    with (match parse_line x with
          | Some y => y :: omap parse_line l
          | None => omap parse_line l
          end).
  by rewrite parse_line_numbered, IH.
Qed.

Lemma parse_numbered_list (questions : list string) :
  Forall clean_question questions ->
  parse_questions (numbered_list questions) = questions.
Proof.
  intros Hclean. unfold parse_questions, numbered_list.
  destruct questions as [|q qs]; [by vm_compute|].
  rewrite split_join_lines; [by apply parse_numbered_lines | done |].
  by apply numbered_lines_free.
Qed.


Lemma sample_questions_clean :
  Forall clean_question ["What is Node.js?"; "Explain a 3-way merge - in git."].
Proof.
  repeat constructor; try discriminate; try (vm_compute; reflexivity).
Qed.


Lemma numbered_lines_snoc first questions q :
  numbered_lines first (questions ++ [q])
  = numbered_lines first questions
    ++ [PyStr.str_of_nat (first + length questions) +:+ ". " +:+ q].
Proof.
  revert first. induction questions as [|x xs IH]; intros first; simpl.
  - by rewrite Nat.add_0_r.
  - rewrite IH. by replace (S first + length xs) with (first + S (length xs)) by lia.
Qed.

Lemma chars_join_snoc lines x :
  exists before, PyStr.chars (PyStr.join PyStr.nl (lines ++ [x])) = before ++ PyStr.chars x.
Proof.
  induction lines as [|y ys [before IH]]; [by exists []|].
  destruct ys as [|z zs].
  - exists (PyStr.chars y ++ [PyStr.LF]). simpl app at 1.
    rewrite chars_join_cons. by rewrite <- app_assoc.
  - exists (PyStr.chars y ++ PyStr.LF :: before).
    change ((y :: z :: zs) ++ [x]) with (y :: z :: (zs ++ [x])).
    rewrite chars_join_cons. change (z :: zs ++ [x]) with ((z :: zs) ++ [x]).
    rewrite IH. by rewrite <- app_assoc.
Qed.

(** A numbered list of clean questions has no whitespace around it, and is
    not empty. *)
Lemma numbered_list_trimmed (questions : list string) :
  questions <> [] -> Forall clean_question questions ->
  PyStr.falsy (numbered_list questions) = false
  /\ PyStr.strip (numbered_list questions) = numbered_list questions.
Proof.
  intros Hsome Hclean.
  assert (Hhead : exists d rest, PyStr.chars (numbered_list questions) = d :: rest
                                 /\ PyStr.isspace d = false).
  { destruct questions as [|q qs]; [done|]. unfold numbered_list.
    destruct (str_of_nat_digits 1) as [Hd Hne].
    assert (Hline : exists d rest, PyStr.chars (PyStr.str_of_nat 1 +:+ ". " +:+ q)
                                   = d :: rest /\ PyStr.isspace d = false).
    { rewrite chars_app. destruct (PyStr.chars (PyStr.str_of_nat 1)) as [|d ds]; [done|].
      apply Forall_cons in Hd as [Hd _]. exists d. eexists. split; [reflexivity|].
      by apply digit_facts in Hd as [? _]. }
    destruct Hline as (d & rest & Hline & Hspace). cbn [numbered_lines].
    destruct (numbered_lines 2 qs) as [|y ys].
    - exists d, rest. by rewrite <- Hline.
    - rewrite chars_join_cons, Hline. exists d. eexists. split; [reflexivity | done]. }
  assert (Htail : exists before c, PyStr.chars (numbered_list questions) = before ++ [c]
                                   /\ PyStr.isspace c = false).
  { destruct (exists_last Hsome) as (qs & q & ->).
    apply Forall_app in Hclean as [_ Hq]. apply Forall_cons in Hq as [Hq _].
    unfold numbered_list. rewrite numbered_lines_snoc.
    destruct (chars_join_snoc (numbered_lines 1 qs)
                (PyStr.str_of_nat (1 + length qs) +:+ ". " +:+ q)) as [before ->].
    rewrite !chars_app. destruct Hq as (Hne & Htrim & _).
    destruct (trimmed_is_clean _ Htrim) as [_ Hlast].
    destruct (rev (PyStr.chars q)) as [|c l] eqn:Hrev.
    - exfalso. apply Hne, chars_inj. by rewrite <- (rev_involutive (PyStr.chars q)), Hrev.
    - exists (before ++ PyStr.chars (PyStr.str_of_nat (1 + length qs))
                ++ PyStr.chars ". " ++ rev l), c.
      split; [|exact Hlast].
      rewrite <- (rev_involutive (PyStr.chars q)), Hrev. simpl.
      by rewrite <- !app_assoc. }
  destruct Hhead as (d & rest & Hchars & Hd).
  destruct Htail as (before & c & Hchars' & Hc).
  split.
  - destruct (numbered_list questions); [done | done].
  - unfold PyStr.strip. rewrite strip_list_fixed, text_chars; [done | |].
    + by rewrite Hchars.
    + rewrite Hchars', rev_app_distr. exact Hc.
Qed.

(** X26. When the model answers the question prompt at once with the numbered
    list of as many clean questions as were asked for, these questions are
    what [generate_technical_questions] returns, unchanged and in order, after
    a single call of the model and without any sleep. *)
Theorem X26_model_questions_are_returned_unchanged
  (E : Env) (g : nat -> string -> outcome) (technology : string)
  (experience_years : pyfloat) (questions : list string) (w : world) :
  gemini_model E = Some g ->
  questions <> [] ->
  Forall clean_question questions ->
  g (calls w) (question_prompt E technology experience_years (length questions))
  = Replies (numbered_list questions) ->
  generate_technical_questions E technology experience_years (length questions) w
  = (questions, called w).
Proof.
  intros Hmodel Hsome Hclean Hreply.
  destruct (numbered_list_trimmed questions Hsome Hclean) as [Hne Htrim].
  unfold generate_technical_questions, generate_response. rewrite Hmodel.
  cbn [retry_loop]. rewrite Hreply, Hne, Htrim.
  rewrite parse_numbered_list by done. unfold ensure_count.
  rewrite Nat.ltb_irrefl. by rewrite take_ge.
Qed.

Lemma X26_model_questions_are_returned_unchanged_witness :
  generate_technical_questions tutor "Node" (FNum 3)
    (length ["What is Node.js?"; "Explain a 3-way merge - in git."]) quiet
  = (["What is Node.js?"; "Explain a 3-way merge - in git."], called quiet).
Proof.
  eapply X26_model_questions_are_returned_unchanged.
  - reflexivity.
  - discriminate.
  - exact sample_questions_clean.
  - reflexivity.
Defined.

(** ** What [log_interaction] writes *)

Lemma dict_set_elem_of {V} (k : string) (v : V) (d : list (string * V)) entry :
  entry ∈ dict_set k v d -> entry = (k, v) \/ entry ∈ d.
Proof.
  induction d as [|[k' v'] d IH]; simpl.
  - intros ->%list_elem_of_singleton. by left.
  - destruct (decide (k = k')) as [->|Hne].
    + intros [->|H]%elem_of_cons; [by left | right; by right].
    + intros [->|H]%elem_of_cons; [right; by left|].
      destruct (IH H) as [->|?]; [by left | right; by right].
Qed.

Lemma hashed_key_not_sensitive key :
  key ∈ SENSITIVE_KEYS -> key +:+ "_hash" ∉ SENSITIVE_KEYS.
Proof.
  unfold SENSITIVE_KEYS. rewrite !elem_of_cons, !elem_of_nil.
  intros [->|[->|[->|[]]]]; simpl; intros [?|[?|[?|[]]]]; discriminate.
Qed.

(** X27. What [log_interaction] puts in the record it prints: no entry is
    under the key [name], [email] or [phone]; a value that appears as it is
    comes from a key of the data that is none of these three; and every
    digest is the hash of the text of a value of one of these three keys,
    under that key with [_hash] appended.  So the name, the e-mail address
    and the phone number are never logged in clear. *)
Theorem X27_sensitive_values_are_only_logged_hashed
  {V} (hash_sensitive_data : string -> string) (str : V -> string)
  (data : list (string * V)) :
  Forall (justified hash_sensitive_data str data)
    (safe_data hash_sensitive_data str data).
Proof.
  unfold safe_data.
  assert (Hgen : forall items safe,
             (forall item, item ∈ items -> item ∈ data) ->
             Forall (justified hash_sensitive_data str data) safe ->
             Forall (justified hash_sensitive_data str data)
               (fold_left
                  (fun safe '(key, value) =>
                     if PyStr.mem key SENSITIVE_KEYS
                     then dict_set (key +:+ "_hash")
                            (Hashed (hash_sensitive_data (str value))) safe
                     else dict_set key (Plain value) safe)
                  items safe)).
  { induction items as [|[key value] items IH]; intros safe Hsub Hsafe; [done|].
    cbn [fold_left]. apply IH; [intros item Hitem; apply Hsub; by right|].
    assert (Hin : (key, value) ∈ data) by (apply Hsub; by left).
    destruct (PyStr.mem key SENSITIVE_KEYS) eqn:Hmem.
    - apply bool_decide_eq_true in Hmem.
      apply Forall_forall. intros entry [->|Hold]%dict_set_elem_of.
      + split; [by apply hashed_key_not_sensitive|]. simpl. eauto 6.
      + rewrite Forall_forall in Hsafe. by apply Hsafe.
    - apply bool_decide_eq_false in Hmem.
      apply Forall_forall. intros entry [->|Hold]%dict_set_elem_of.
      + by split.
      + rewrite Forall_forall in Hsafe. by apply Hsafe. }
  apply Hgen; [done | constructor].
Qed.

Example safe_data_sample :
  safe_data (fun text => "#" +:+ text) (fun text : string => text)
    [("name", "Ada Lovelace"); ("experience", "7.0"); ("email", "ada@example.org")]
  = [("name_hash", Hashed "#Ada Lovelace"); ("experience", Plain "7.0");
     ("email_hash", Hashed "#ada@example.org")].
Proof. vm_compute. reflexivity. Qed.

(** ** What never happens in a conversation *)

Lemma accepted_stack_has_questions
  (E : Env) (user_input : string) (candidate_experience : pyfloat) (w : world) :
  fst (validate_tech_stack user_input) = true ->
  (generate_questions_for_tech_stack E (split_techs user_input) 3
     candidate_experience w).1 <> [].
Proof.
  intros [Hlo _]%validate_tech_stack_bounds.
  destruct (question_set_shape E (split_techs user_input) candidate_experience w)
    as (Hkeys & _).
  intros Hnil. rewrite Hnil in Hkeys.
  destruct (split_techs user_input); [simpl in Hlo; lia | done].
Qed.

Lemma process_message_sound (E : Env) (s : session) (user_input : string) (w : world) :
  sound s -> sound (process_message E s user_input w).1.2.
Proof.
  intros (Hcursor & Hexp & Hqs).
  split; [by apply process_message_cursor|].
  unfold process_message.
  destruct (PyStr.falsy user_input); [done|].
  destruct (check_exit_intent s user_input w) as [[[]|e] w']; try done.
  destruct (is_restart user_input); [simpl; split; [done | lia]|].
  destruct (stage s) eqn:Hstage; cbn [stage_rank] in *.
  - simpl. split; [intros Hhas; specialize (Hexp Hhas); lia | lia].
  - unfold handle_consent_stage.
    repeat case_match; simplify_eq; simpl; rewrite ?Hstage; simpl;
      (split;
       [try done; try lia;
        intros Hhas;
        try match goal with
            | Heq : experience (candidate _) = _ |- _ => rewrite Heq in Hhas
            end;
        try first [specialize (Hexp Hhas) | specialize (Hexp eq_refl)];
        first [lia | discriminate Hhas]
       | lia]).
  - unfold handle_info_collection_stage, _collect_candidate_info.
    repeat case_match; simplify_eq; simpl; rewrite ?Hstage; simpl;
      (split;
       [try done; try lia;
        intros Hhas;
        try match goal with
            | Heq : experience (candidate _) = _ |- _ => rewrite Heq in Hhas
            end;
        try first [specialize (Hexp Hhas) | specialize (Hexp eq_refl)];
        first [lia | discriminate Hhas]
       | lia]).
  - pose proof (accepted_stack_has_questions E user_input) as Hsome.
    unfold handle_tech_assessment_stage.
    destruct (validate_tech_stack user_input) as [[] msg]; cbn [negb fst] in *.
    + match goal with
      | |- context [generate_questions_for_tech_stack ?E ?t 3 ?x ?w] =>
          specialize (Hsome x w eq_refl);
          destruct (generate_questions_for_tech_stack E t 3 x w)
            as [questions_by_tech w1]
      end.
      simpl. split; [lia | done].
    + simpl. rewrite Hstage. simpl. split; [done | lia].
  - destruct (technical_questions_step E s user_input w') as [Hsame _].
    pose proof (technical_questions_stage E s user_input w') as Hst.
    pose proof (technical_questions_kept E s user_input w') as (_ & _ & _ & Hkept).
    rewrite Hsame. split.
    + intros _. destruct Hst as [->| ->]; [rewrite Hstage|]; simpl; lia.
    + intros _. apply Hqs. lia.
  - simpl. rewrite Hstage. simpl. split; [lia | intros _; apply Hqs; lia].
Qed.

Lemma run_sound (E : Env) (inputs : list string) :
  forall s w, sound s -> sound (run E s w inputs).1.
Proof.
  induction inputs as [|user_input inputs IH]; intros s w Hs; [done|].
  cbn [run]. pose proof (process_message_sound E s user_input w Hs) as Hstep.
  destruct (process_message E s user_input w) as [[r s'] w']. by apply IH.
Qed.

Lemma fresh_sound sid : sound (fresh sid).
Proof.
  split; [apply fresh_cursor_in_range|]. simpl. split; [done | lia].
Qed.

Lemma sound_never_defensive (E : Env) (s : session) (user_input : string) (w : world) :
  sound s -> defensive (process_message E s user_input w).1.1 = false.
Proof.
  intros ([Hle Hzero] & Hexp & Hqs). unfold process_message.
  destruct (PyStr.falsy user_input) eqn:Hne; [done|].
  destruct (check_exit_intent_cases s user_input w) as [-> | [-> | ->]];
    [done | | done].
  destruct (is_restart user_input); [done|].
  destruct (stage s) eqn:Hstage; cbn [stage_rank] in *.
  - done.
  - unfold handle_consent_stage. rewrite Hne. by destruct (PyStr.mem _ _).
  - unfold handle_info_collection_stage.
    destruct (negb (consent_given s)); [by destruct (PyStr.mem _ _)|].
    rewrite collect_follows_order. unfold collect_by_order, first_absent.
    cbn [List.find info_order present].
    destruct (has (experience (candidate s))) eqn:Hx; [specialize (Hexp eq_refl); lia|].
    destruct (has (name (candidate s))), (has (email (candidate s))),
      (has (phone (candidate s))); cbn [negb];
      repeat case_match; simplify_eq; done.
  - unfold handle_tech_assessment_stage.
    destruct (validate_tech_stack user_input) as [[] msg]; cbn [negb]; [|done].
    by destruct (generate_questions_for_tech_stack E _ 3 _ w).
  - unfold handle_technical_questions_stage.
    destruct (technical_questions s) as [|entry entries] eqn:Hentries;
      [by exfalso; apply Hqs; [lia|]|].
    set (all_questions := all_questions_of (entry :: entries)) in *.
    destruct (_ && negb (PyStr.mem _ _)); [done|].
    destruct ((0 <? current_question_index s) && _) eqn:Hstore.
    + apply andb_true_iff in Hstore as [Hpos%Nat.ltb_lt _].
      destruct (lookup_lt_is_Some_2 all_questions (current_question_index s - 1))
        as [prev ->]; [lia|].
      destruct (store_answer E s user_input prev (current_question_index s) w)
        as [s1 w1].
      destruct (Nat.leb_spec (length all_questions) (current_question_index s)).
      * unfold _complete_assessment. done.
      * destruct (lookup_lt_is_Some_2 all_questions (current_question_index s))
          as [[tech question] ->]; [lia | done].
    + destruct (Nat.leb_spec (length all_questions) (current_question_index s)).
      * unfold _complete_assessment. done.
      * destruct (lookup_lt_is_Some_2 all_questions (current_question_index s))
          as [[tech question] ->]; [lia | done].
  - done.
Qed.

(** X28. In a conversation that starts from a fresh session, whatever is
    typed and whatever the model answers, no call of [process_message] ever
    raises an [IndexError] or a [ValueError] (the only exception is the stop
    of the script on a deletion request), and none ever gives one of the
    replies the handlers keep for states that should not occur: that
    something went wrong, that no questions are available, or the consent
    handler's prompt for an empty input. *)
Theorem X28_no_defensive_outcome_in_a_conversation
  (E : Env) (sid : string) (w w' : world) (inputs : list string)
  (user_input : string) :
  defensive (process_message E (run E (fresh sid) w inputs).1 user_input w').1.1
  = false.
Proof. apply sound_never_defensive, run_sound, fresh_sound. Qed.

(** ** From the greeting to the first question *)




